(** * ChunScraper: the retry/feedback control loop and its helpers

    A shallow embedding of [src/agent.py], [src/executor.py] and
    [generate_script] of [src/gemini_service.py].

    Conventions.
    - A Python [str] is a Rocq [string]; a character is an [ascii], read as
      the code point of the same number (0..255).  [len] is a Python [int],
      hence a [Z].
    - Code of third-party libraries (BeautifulSoup, json, re, subprocess,
      httpx, the language-model client) is not part of the repository.  What
      the source needs from a parser or from the outside world is a field of
      the records [Lib] and [World]; the document object model itself (tags,
      strings, parents, CSS selection, serialisation) is modelled below.
    - A Python exception is a value [Raise msg]; [try/except] is a [match].
    - Paths are those of a POSIX system: [os.path] is [posixpath].
    - Log lines, the creation of directories and the sweep of old files
      ([cleanup_old_temp_files]) have no part in what a job returns and are
      left out. *)

From Stdlib Require Import ZArith List String Ascii Bool Lia DecimalString
  Permutation.
Import ListNotations.
Set Warnings "-register-all".
Open Scope string_scope.
Open Scope Z_scope.

(* ===================================================================== *)
(** * Python strings                                                      *)
(* ===================================================================== *)

Module PyStr.

(** [len(s)] *)
Definition len (s : string) : Z := Z.of_nat (String.length s).

(** [s[:n]] for [n >= 0] *)
Definition take (n : Z) (s : string) : string := substring 0 (Z.to_nat n) s.

Definition is_empty (s : string) : bool :=
  match s with EmptyString => true | String _ _ => false end.

(** [c.isspace()] on code points below 256 *)
Definition isspace (c : ascii) : bool :=
  let n := nat_of_ascii c in
  (((9 <=? n) && (n <=? 13)) || ((28 <=? n) && (n <=? 32))
   || (n =? 133) || (n =? 160))%nat.

Definition isdigit (c : ascii) : bool :=
  let n := nat_of_ascii c in ((48 <=? n) && (n <=? 57))%nat.

Fixpoint lstrip (s : string) : string :=
  match s with
  | EmptyString => EmptyString
  | String c s' => if isspace c then lstrip s' else s
  end.

Fixpoint rstrip (s : string) : string :=
  match s with
  | EmptyString => EmptyString
  | String c s' =>
      let r := rstrip s' in
      if is_empty r && isspace c then EmptyString else String c r
  end.

(** [s.strip()] *)
Definition strip (s : string) : string := lstrip (rstrip s).

(** [s.split(sep)] for a one-character separator: never the empty list *)
Fixpoint split_on (sep : ascii) (s : string) : list string :=
  match s with
  | EmptyString => [EmptyString]
  | String c s' =>
      if Ascii.eqb c sep then EmptyString :: split_on sep s'
      else match split_on sep s' with
           | h :: t => String c h :: t
           | [] => [String c EmptyString]
           end
  end.

Fixpoint split_ws_aux (s : string) : string * list string :=
  match s with
  | EmptyString => (EmptyString, [])
  | String c s' =>
      let '(w, ws) := split_ws_aux s' in
      if isspace c then (EmptyString, if is_empty w then ws else w :: ws)
      else (String c w, ws)
  end.

(** [s.split()]: the maximal runs of non-whitespace characters *)
Definition split (s : string) : list string :=
  let '(w, ws) := split_ws_aux s in if is_empty w then ws else w :: ws.

Definition lower_char (c : ascii) : ascii :=
  let n := nat_of_ascii c in
  if (((65 <=? n) && (n <=? 90)) || ((192 <=? n) && (n <=? 214))
      || ((216 <=? n) && (n <=? 222)))%nat
  then ascii_of_nat (n + 32) else c.

(** [s.lower()] *)
Fixpoint lower (s : string) : string :=
  match s with
  | EmptyString => EmptyString
  | String c s' => String (lower_char c) (lower s')
  end.

(** [sub in s] *)
Fixpoint contains (sub s : string) : bool :=
  prefix sub s ||
  match s with
  | EmptyString => false
  | String _ s' => contains sub s'
  end.

(** [sep.join(parts)] *)
Fixpoint join (sep : string) (parts : list string) : string :=
  match parts with
  | [] => EmptyString
  | [p] => p
  | p :: ps => p ++ sep ++ join sep ps
  end.

(** [str(n)] and [f"{n}"] for an [int] *)
Definition of_int (n : Z) : string := NilZero.string_of_int (Z.to_int n).

Fixpoint span_digits (s : string) : string * string :=
  match s with
  | EmptyString => (EmptyString, EmptyString)
  | String c s' =>
      if isdigit c then let '(d, r) := span_digits s' in (String c d, r)
      else (EmptyString, s)
  end.

(** [re.search(r'(\d+)', s)]: group 1 of the leftmost match, the leftmost
    maximal run of digits *)
Fixpoint search_digits (s : string) : option string :=
  match s with
  | EmptyString => None
  | String c s' =>
      if isdigit c then Some (fst (span_digits s)) else search_digits s'
  end.

Fixpoint int_of_digits_acc (acc : Z) (s : string) : Z :=
  match s with
  | EmptyString => acc
  | String c s' =>
      int_of_digits_acc (10 * acc + (Z.of_nat (nat_of_ascii c) - 48)) s'
  end.

(** the number that a run of digits writes *)
Definition int_of_digits (s : string) : Z := int_of_digits_acc 0 s.

(** [s.endswith(c)] for a character [c] *)
Fixpoint endswith (c : ascii) (s : string) : bool :=
  match s with
  | EmptyString => false
  | String x EmptyString => Ascii.eqb x c
  | String _ s' => endswith c s'
  end.

(** the one-character string of code point [n] *)
Definition chr (n : nat) : string := String (ascii_of_nat n) EmptyString.

Definition nl : string := chr 10.
Definition dquote : string := chr 34.

End PyStr.

Import PyStr.

(** Python exceptions as values *)
Inductive res (A : Type) : Type :=
| Ret (a : A)
| Raise (msg : string).
Arguments Ret {A} a.
Arguments Raise {A} msg.

Definition bind {A B : Type} (m : res A) (k : A -> res B) : res B :=
  match m with
  | Ret a => k a
  | Raise msg => Raise msg
  end.

Notation "x <- m ;; k" := (bind m (fun x => k))
  (at level 61, m at next level, right associativity).

(** [try: m  except Exception as e: h(str(e))] *)
Definition try_except {A : Type} (m : res A) (h : string -> A) : A :=
  match m with
  | Ret a => a
  | Raise msg => h msg
  end.

(** [sys.get_int_max_str_digits()], as the interpreter starts with it *)
Definition int_max_str_digits : Z := 4300.

(** [int(s)] for a run of digits.  A run of more than 4300 digits, leading
    zeros counted, is refused with a [ValueError]: the limit on the
    conversion between [str] and [int] of Python 3.11 and of the later
    releases of 3.7 to 3.10. *)
Definition py_int (s : string) : res Z :=
  if int_max_str_digits <? len s
  then Raise ("Exceeds the limit (4300 digits) for integer string conversion: value has "
              ++ of_int (len s)
              ++ " digits; use sys.set_int_max_str_digits() to increase the limit")
  else Ret (int_of_digits s).

(* ===================================================================== *)
(** * Python floats, as far as [n * 0.5] needs them                       *)
(* ===================================================================== *)

(** [float(n)] for an [int n >= 0]: round to 53 significant bits, ties to
    even; [Raise] is the [OverflowError] of a value that no double holds.
    The result of a conversion is an integer whenever [n] is, which is why
    the value is a [Z]. *)
Definition float_of_int (n : Z) : res Z :=
  let bits := Z.log2 n + 1 in
  if bits <=? 53 then Ret n
  else
    let e := bits - 53 in
    let q := Z.shiftr n e in
    let r := n - Z.shiftl q e in
    let half := Z.shiftl 1 (e - 1) in
    let q' := if (half <? r) || ((r =? half) && Z.odd q) then q + 1 else q in
    let v := Z.shiftl q' e in
    if 2 ^ 1024 <=? v then Raise "int too large to convert to float"
    else Ret v.

(** [count < n * 0.5]: the product is exact, and Python compares an [int]
    with a [float] exactly *)
Definition lt_half (count n : Z) : res bool :=
  f <- float_of_int n ;; Ret (2 * count <? f).

(* ===================================================================== *)
(** * Values that [json.loads] returns                                    *)
(* ===================================================================== *)

Inductive json : Type :=
| JNull
| JBool (b : bool)
| JInt (z : Z)
| JFloat (repr : string)
| JStr (s : string)
| JList (items : list json)
| JDict (fields : list (string * json)).

Inductive json_outcome : Type :=
| JsonOk (v : json)
| JSONDecodeError
| JsonRaise (msg : string).

(** ** [repr] and [str] of such a value *)

Definition hex_digit (n : nat) : string :=
  String (ascii_of_nat (if (n <? 10)%nat then 48 + n else 87 + n)) EmptyString.

(** one character of the [repr] of a string quoted with [quote] *)
Definition repr_char (quote c : ascii) : string :=
  let n := nat_of_ascii c in
  if Ascii.eqb c quote then String "\" (String c EmptyString)
  else if Ascii.eqb c "\" then "\\"
  else if (n =? 10)%nat then "\n"
  else if (n =? 13)%nat then "\r"
  else if (n =? 9)%nat then "\t"
  else if ((n <? 32) || ((127 <=? n) && (n <=? 160)) || (n =? 173))%nat
       then "\x" ++ hex_digit (n / 16) ++ hex_digit (n mod 16)
       else String c EmptyString.

Definition repr_str (s : string) : string :=
  let quote : ascii :=
    if contains "'" s && negb (contains dquote s) then ascii_of_nat 34 else "'"%char in
  String quote
    (String.concat EmptyString (map (fun c => repr_char quote c) (list_ascii_of_string s))
     ++ String quote EmptyString).

(** [repr(v)]; a float is kept by its [repr] *)
Fixpoint py_repr (v : json) : string :=
  match v with
  | JNull => "None"
  | JBool true => "True"
  | JBool false => "False"
  | JInt z => of_int z
  | JFloat r => r
  | JStr s => repr_str s
  | JList items =>
      "[" ++ join ", "
               ((fix go (l : list json) : list string :=
                   match l with
                   | [] => []
                   | x :: l' => py_repr x :: go l'
                   end) items)
          ++ "]"
  | JDict fields =>
      "{" ++ join ", "
               ((fix go (l : list (string * json)) : list string :=
                   match l with
                   | [] => []
                   | (k, x) :: l' => (repr_str k ++ ": " ++ py_repr x) :: go l'
                   end) fields)
          ++ "}"
  end.

(** [str(v)] *)
Definition py_str (v : json) : string :=
  match v with
  | JStr s => s
  | _ => py_repr v
  end.

(* ===================================================================== *)
(** * The BeautifulSoup object model                                      *)
(* ===================================================================== *)

(** The classes of strings in a parsed document. *)
Inductive strkind : Type :=
| KText                          (* NavigableString *)
| KCData                         (* CData: printed between the marks of a
                                    CDATA section, never escaped *)
| KPre (pre suf : string)        (* Comment, Doctype, Declaration,
                                    ProcessingInstruction: printed as
                                    [pre ++ s ++ suf], never escaped *)
| KContainer (tag : string).     (* Script, Stylesheet, TemplateString: the
                                    text inside such a tag *)

(** An attribute value: a string, or the token list of a multi-valued
    attribute such as [class] or [rel]. *)
Inductive attr_value : Type :=
| AStr (s : string)
| AList (tokens : list string).

Inductive node : Type :=
| NavigableString (k : strkind) (s : string)
| Tag (name : string) (attrs : list (string * attr_value)) (contents : list node).

(** The [BeautifulSoup] object is the tag of this name; it has no parent. *)
Definition document_name : string := "[document]".

(** A page element together with its ancestors, nearest first, the
    [BeautifulSoup] object last: [e.parent] is the head of the list. *)
Definition elem : Type := (node * list node)%type.

Definition node_name (n : node) : option string :=
  match n with
  | NavigableString _ _ => None
  | Tag name _ _ => Some name
  end.

Definition is_tag (n : node) : bool :=
  match n with Tag _ _ _ => true | NavigableString _ _ => false end.

Definition name_is (nm : string) (n : node) : bool :=
  match n with
  | Tag name _ _ => String.eqb name nm
  | NavigableString _ _ => false
  end.

(** [n.name in names] for a tag [n] *)
Definition name_in (names : list string) (n : node) : bool :=
  existsb (fun nm => name_is nm n) names.

Definition contents_of (n : node) : list node :=
  match n with
  | Tag _ _ cs => cs
  | NavigableString _ _ => []
  end.

(** [n.descendants], in document order, each with its ancestors *)
Fixpoint descendants (anc : list node) (n : node) : list elem :=
  match n with
  | NavigableString _ _ => []
  | Tag _ _ cs =>
      (fix go (l : list node) : list elem :=
         match l with
         | [] => []
         | c :: l' => (c, n :: anc) :: descendants (n :: anc) c ++ go l'
         end) cs
  end.

(** the descendants of an element of the page *)
Definition descendants_of (e : elem) : list elem := descendants (snd e) (fst e).

(** [e.find_all(p)] and [e.find(p)] for a predicate on tags *)
Definition find_all (p : node -> bool) (e : elem) : list elem :=
  filter (fun d => is_tag (fst d) && p (fst d)) (descendants_of e).

Definition find (p : node -> bool) (e : elem) : option elem :=
  hd_error (find_all p e).

(** the [BeautifulSoup] object as an element *)
Definition root (soup : node) : elem := (soup, []).

(** ** Attributes *)

Definition attr_text (v : attr_value) : string :=
  match v with
  | AStr s => s
  | AList tokens => join " " tokens
  end.

Fixpoint get_attr (key : string) (attrs : list (string * attr_value))
  : option attr_value :=
  match attrs with
  | [] => None
  | (k, v) :: rest => if String.eqb k key then Some v else get_attr key rest
  end.

Definition attrs_of (n : node) : list (string * attr_value) :=
  match n with
  | Tag _ a _ => a
  | NavigableString _ _ => []
  end.

(** the value of an attribute as the text CSS matching sees *)
Definition attr_of (key : string) (n : node) : option string :=
  option_map attr_text (get_attr key (attrs_of n)).

Definition classes_of (n : node) : list string :=
  match get_attr "class" (attrs_of n) with
  | Some (AList tokens) => tokens
  | Some (AStr s) => split s
  | None => []
  end.

(** ** CSS selectors, as far as the source uses them *)

Inductive simple_selector : Type :=
| SelTag (name : string)             (* [name] *)
| SelId (id : string)                (* [#id] *)
| SelClass (c : string)              (* [.c] *)
| SelAttrEq (a v : string)           (* [[a="v"]] *)
| SelAttrSub (a v : string)          (* [[a*="v"]] *)
| SelTagAttr (name a : string).      (* [name[a]] *)

Inductive selector : Type :=
| Simple (s : simple_selector)
| Child (p c : simple_selector).     (* [p > c] *)

Definition simple_eqb (x y : simple_selector) : bool :=
  match x, y with
  | SelTag a, SelTag b => String.eqb a b
  | SelId a, SelId b => String.eqb a b
  | SelClass a, SelClass b => String.eqb a b
  | SelAttrEq a v, SelAttrEq b w => String.eqb a b && String.eqb v w
  | SelAttrSub a v, SelAttrSub b w => String.eqb a b && String.eqb v w
  | SelTagAttr a v, SelTagAttr b w => String.eqb a b && String.eqb v w
  | _, _ => false
  end.

Definition selector_eqb (x y : selector) : bool :=
  match x, y with
  | Simple a, Simple b => simple_eqb a b
  | Child p c, Child q d => simple_eqb p q && simple_eqb c d
  | _, _ => false
  end.

Definition matches_simple (s : simple_selector) (n : node) : bool :=
  is_tag n &&
  match s with
  | SelTag name => name_is name n
  | SelId id =>
      match attr_of "id" n with Some v => String.eqb v id | None => false end
  | SelClass c => existsb (String.eqb c) (classes_of n)
  | SelAttrEq a v =>
      match attr_of a n with Some w => String.eqb w v | None => false end
  | SelAttrSub a v =>
      match attr_of a n with Some w => contains v w | None => false end
  | SelTagAttr name a =>
      name_is name n &&
      match attr_of a n with Some _ => true | None => false end
  end.

Definition matches (s : selector) (e : elem) : bool :=
  match s with
  | Simple s => matches_simple s (fst e)
  | Child p c =>
      matches_simple c (fst e) &&
      match snd e with
      | parent :: _ => matches_simple p parent
      | [] => false
      end
  end.

(** [e.select(s, limit)] and [e.select_one(s)] *)
Definition select (s : selector) (limit : nat) (e : elem) : list elem :=
  firstn limit (filter (matches s) (descendants_of e)).

Definition select_one (s : selector) (e : elem) : option elem :=
  hd_error (filter (matches s) (descendants_of e)).

(** ** [str(element)] *)

Fixpoint escape_text (s : string) : string :=
  match s with
  | EmptyString => EmptyString
  | String c s' =>
      (if Ascii.eqb c "&" then "&amp;"
       else if Ascii.eqb c "<" then "&lt;"
       else if Ascii.eqb c ">" then "&gt;"
       else String c EmptyString) ++ escape_text s'
  end.

Fixpoint quote_entities (s : string) : string :=
  match s with
  | EmptyString => EmptyString
  | String c s' =>
      (if Ascii.eqb c (ascii_of_nat 34) then "&quot;" else String c EmptyString)
      ++ quote_entities s'
  end.

Definition quoted_attribute_value (v : string) : string :=
  if contains dquote v then
    if contains "'" v then dquote ++ quote_entities v ++ dquote
    else "'" ++ v ++ "'"
  else dquote ++ v ++ dquote.

Definition render_attr (kv : string * attr_value) : string :=
  " " ++ fst kv ++ "=" ++ quoted_attribute_value (escape_text (attr_text (snd kv))).

Definition empty_element_tags : list string :=
  ["area"; "base"; "br"; "col"; "embed"; "hr"; "img"; "input"; "keygen";
   "link"; "menuitem"; "meta"; "param"; "source"; "track"; "wbr";
   "basefont"; "bgsound"; "command"; "frame"; "image"; "isindex"; "nextid";
   "spacer"].

Definition cdata_containing_tags : list string := ["script"; "style"].

Definition mem (s : string) (l : list string) : bool := existsb (String.eqb s) l.

Fixpoint render (parent_name : string) (n : node) : string :=
  match n with
  | NavigableString k s =>
      match k with
      | KCData => "<![CDATA[" ++ s ++ "]]>"
      | KPre pre suf => pre ++ s ++ suf
      | _ => if mem parent_name cdata_containing_tags then s else escape_text s
      end
  | Tag name attrs cs =>
      let inner :=
        (fix go (l : list node) : string :=
           match l with
           | [] => EmptyString
           | c :: l' => render name c ++ go l'
           end) cs in
      if String.eqb name document_name then inner
      else
        let a := String.concat EmptyString (map render_attr attrs) in
        match cs with
        | [] =>
            if mem name empty_element_tags then "<" ++ name ++ a ++ "/>"
            else "<" ++ name ++ a ++ ">" ++ "</" ++ name ++ ">"
        | _ :: _ => "<" ++ name ++ a ++ ">" ++ inner ++ "</" ++ name ++ ">"
        end
  end.

(** [str(e)] *)
Definition str (e : elem) : string :=
  render (match snd e with
          | Tag nm _ _ :: _ => nm
          | _ => EmptyString
          end) (fst e).

(** ** Text *)

Definition string_containers : list string :=
  ["rt"; "rp"; "style"; "script"; "template"].

(** the strings that [receiver.get_text()] takes into account: those of
    the class of the receiver when it is a string container, and those of
    the classes [NavigableString] and [CData] when it is not *)
Definition interesting (receiver : string) (k : strkind) : bool :=
  match k with
  | KText | KCData => negb (mem receiver string_containers)
  | KContainer t => String.eqb t receiver
  | KPre _ _ => false
  end.

(** [e.get_text(sep, strip=True)] *)
Definition get_text (sep : string) (e : elem) : string :=
  let receiver := match fst e with Tag nm _ _ => nm | _ => EmptyString end in
  join sep
    (flat_map
       (fun d =>
          match fst d with
          | NavigableString k s =>
              if interesting receiver k && negb (is_empty (strip s))
              then [strip s] else []
          | Tag _ _ _ => []
          end)
       (descendants_of e)).

(** [title.string] *)
Fixpoint string_of (n : node) : option string :=
  match n with
  | NavigableString _ s => Some s
  | Tag _ _ [c] => string_of c
  | Tag _ _ _ => None
  end.

(** ** The pattern [r'\s*'.join(re.escape(w) for w in words)] *)

Fixpoint drop_prefix (p s : string) : option string :=
  match p, s with
  | EmptyString, _ => Some s
  | String a p', String b s' => if Ascii.eqb a b then drop_prefix p' s' else None
  | String _ _, EmptyString => None
  end.

(** a match that starts at the first character *)
Fixpoint match_words (words : list string) (s : string) : bool :=
  match words with
  | [] => true
  | w :: rest =>
      match drop_prefix w s with
      | None => false
      | Some s' =>
          match rest with
          | [] => true
          | _ :: _ => match_words rest (lstrip s')
          end
      end
  end.

(** [regex.search(s)] *)
Fixpoint regex_search (words : list string) (s : string) : bool :=
  match_words words s ||
  match s with
  | EmptyString => false
  | String _ s' => regex_search words s'
  end.

(** [e.find_all(text=regex)]: the strings of every class that the pattern
    finds a match in *)
Definition find_all_text (words : list string) (e : elem) : list elem :=
  filter (fun d =>
            match fst d with
            | NavigableString _ s => regex_search words s
            | Tag _ _ _ => false
            end)
         (descendants_of e).

(** [for element in soup(names): element.decompose()] *)
Fixpoint decompose_all (names : list string) (n : node) : node :=
  match n with
  | NavigableString _ _ => n
  | Tag name attrs cs =>
      Tag name attrs
        ((fix go (l : list node) : list node :=
            match l with
            | [] => []
            | c :: l' =>
                if name_in names c then go l'
                else decompose_all names c :: go l'
            end) cs)
  end.

(** equality of tags as [dict.fromkeys] sees it: same name, attributes and
    contents *)
Definition strkind_eqb (a b : strkind) : bool :=
  match a, b with
  | KText, KText => true
  | KCData, KCData => true
  | KPre p s, KPre q t => String.eqb p q && String.eqb s t
  | KContainer s, KContainer t => String.eqb s t
  | _, _ => false
  end.

Definition attr_value_eqb (a b : attr_value) : bool :=
  match a, b with
  | AStr s, AStr t => String.eqb s t
  | AList s, AList t =>
      (List.length s =? List.length t)%nat
      && forallb (fun p => String.eqb (fst p) (snd p)) (combine s t)
  | _, _ => false
  end.

Fixpoint attrs_eqb (a b : list (string * attr_value)) : bool :=
  match a, b with
  | [], [] => true
  | (k, v) :: a', (l, w) :: b' =>
      String.eqb k l && attr_value_eqb v w && attrs_eqb a' b'
  | _, _ => false
  end.

Fixpoint node_eqb (x y : node) : bool :=
  match x, y with
  | NavigableString k s, NavigableString l t => strkind_eqb k l && String.eqb s t
  | Tag n a cs, Tag m b ds =>
      String.eqb n m && attrs_eqb a b &&
      (fix go (l1 l2 : list node) : bool :=
         match l1, l2 with
         | [], [] => true
         | c :: l1', d :: l2' => node_eqb c d && go l1' l2'
         | _, _ => false
         end) cs ds
  | _, _ => false
  end.

(** [list(dict.fromkeys(elements))]: first occurrences, in order *)
Fixpoint unique_by {A : Type} (eqb : A -> A -> bool) (seen l : list A) : list A :=
  match l with
  | [] => []
  | x :: l' =>
      if existsb (eqb x) seen then unique_by eqb seen l'
      else x :: unique_by eqb (x :: seen) l'
  end.

Definition unique_elements (l : list elem) : list elem :=
  unique_by (fun a b => node_eqb (fst a) (fst b)) [] l.

(** What the source takes from libraries and from the interpreter. *)
Record Lib : Type := {
  (** [BeautifulSoup(markup, 'html.parser')]: the [BeautifulSoup] object *)
  BeautifulSoup : string -> res node;
  (** [json.loads] *)
  json_loads : string -> json_outcome;
  (** the order in which [for s in a_set] visits a set of strings that was
      filled in the order given: it follows the hashes of the strings,
      which an interpreter draws afresh when it starts *)
  set_order : list selector -> list selector
}.

(* ===================================================================== *)
(** * [validate_scraper_results]                                          *)
(* ===================================================================== *)

Record verdict : Type := { valid : bool; feedback : string }.

Definition fb_no_output : string :=
  "The scraper produced no output. This usually means no data was found or there was an error.".
Definition fb_empty_list : string :=
  "The scraper returned an empty list. This could mean the CSS selectors are wrong or the data is loaded dynamically. Please try again.".
Definition fb_no_items (requested : Z) : string :=
  "No items were found. Expected " ++ of_int requested ++
  " items. The website structure might have changed or the selectors need adjustment.".
Definition fb_only_found (count requested : Z) : string :=
  "Only found " ++ of_int count ++ " items, but " ++ of_int requested ++
  " were requested. The scraper may need better selectors.".
Definition fb_no_urls : string :=
  "Found data but no URLs detected. For image scraping, expected to find image URLs.".
Definition fb_items (count : Z) : string :=
  "Successfully extracted " ++ of_int count ++ " items".
Definition fb_empty_object : string :=
  "The scraper returned an empty JSON object. The selectors might be incorrect.".
Definition fb_structured : string := "Successfully extracted structured data".
Definition fb_lines (n : Z) : string :=
  "Successfully extracted " ++ of_int n ++ " lines of data".
Definition fb_generic : string :=
  "The scraper output doesn't appear to contain structured data".
Definition fb_error (e : string) : string := "Error validating results: " ++ e.

Definition image_keywords : list string := ["image"; "picture"; "photo"; "img"].

(** the image rule of the list branch: [Some v] is an early [return v] *)
Definition image_rule (data : list json) (user_prompt : string)
  : option verdict :=
  if existsb (fun keyword => contains keyword (lower user_prompt)) image_keywords
  then
    if 0 <? Z.of_nat (List.length data) then
      let has_urls :=
        existsb (fun item => contains "url" (lower (py_str item))
                             || contains "http" (py_str item))
                (firstn 3 data) in
      if negb has_urls then Some {| valid := false; feedback := fb_no_urls |}
      else None
    else None
  else None.

(** the branch [isinstance(data, list)] *)
Definition validate_list (data : list json) (user_prompt : string)
  : res verdict :=
  let item_count := Z.of_nat (List.length data) in
  if item_count =? 0 then Ret {| valid := false; feedback := fb_empty_list |}
  else
    count_check <-
      match search_digits user_prompt with
      | Some digits =>
          requested_count <- py_int digits ;;
          if item_count =? 0 then
            Ret (Some {| valid := false; feedback := fb_no_items requested_count |})
          else
            few <- lt_half item_count requested_count ;;
            if (few : bool) then
              Ret (Some {| valid := false;
                           feedback := fb_only_found item_count requested_count |})
            else Ret None
      | None => Ret None
      end ;;
    match count_check with
    | Some v => Ret v
    | None =>
        match image_rule data user_prompt with
        | Some v => Ret v
        | None => Ret {| valid := true; feedback := fb_items item_count |}
        end
    end.

Definition validate_scraper_results (L : Lib) (stdout user_prompt : string)
  : verdict :=
  try_except
    (if is_empty (strip stdout) then
       Ret {| valid := false; feedback := fb_no_output |}
     else
       let generic := {| valid := false; feedback := fb_generic |} in
       match json_loads L stdout with
       | JsonOk (JList data) => validate_list data user_prompt
       | JsonOk (JDict fields) =>
           match fields with
           | [] => Ret {| valid := false; feedback := fb_empty_object |}
           | _ :: _ => Ret {| valid := true; feedback := fb_structured |}
           end
       | JsonOk _ => Ret generic
       | JSONDecodeError =>
           let lines := split_on (ascii_of_nat 10) (strip stdout) in
           if (0 <? Z.of_nat (List.length lines))
              && existsb (fun line => negb (is_empty (strip line))) lines
           then Ret {| valid := true;
                       feedback := fb_lines (Z.of_nat (List.length lines)) |}
           else Ret generic
       | JsonRaise msg => Raise msg
       end)
    (fun e => {| valid := false; feedback := fb_error e |}).

(* ===================================================================== *)
(** * [create_html_structure_map]                                         *)
(* ===================================================================== *)

Fixpoint chars_of (s : string) : list string :=
  match s with
  | EmptyString => []
  | String c s' => String c EmptyString :: chars_of s'
  end.

(** [element.get('class', [])[:3]] *)
Definition first_classes (v : attr_value) : list string :=
  match v with
  | AList tokens => firstn 3 tokens
  | AStr s => firstn 3 (chars_of s)
  end.

Fixpoint build_tree (element : node) (indent : string) (depth : Z) : string :=
  match element with
  | NavigableString _ _ => EmptyString
  | Tag name attrs cs =>
      if is_empty name then EmptyString
      else
        let tag_info :=
          name
          ++ match get_attr "id" attrs with
             | Some v => "#" ++ attr_text v
             | None => EmptyString
             end
          ++ match get_attr "class" attrs with
             | Some v => "." ++ join "." (first_classes v)
             | None => EmptyString
             end in
        let tree_str := indent ++ "<" ++ tag_info ++ ">" ++ nl in
        if 7 <? depth then tree_str ++ indent ++ "  [...max depth reached...]" ++ nl
        else
          tree_str ++
          (fix go (l : list node) (child_count : Z) : string :=
             match l with
             | [] => EmptyString
             | child :: l' =>
                 match child with
                 | Tag child_name _ _ =>
                     if is_empty child_name then go l' child_count
                     else if 10 <? child_count then indent ++ "  [...and more...]" ++ nl
                     else build_tree child (indent ++ "  ") (depth + 1)
                          ++ go l' (child_count + 1)
                 | NavigableString _ _ => go l' child_count
                 end
             end) cs 0
  end.

Definition create_html_structure_map (L : Lib) (html_content : string) : string :=
  try_except
    (soup <- BeautifulSoup L html_content ;;
     match find (name_is "body") (root soup) with
     | None => Ret "<body> tag not found."
     | Some body => Ret (build_tree (fst body) EmptyString 0)
     end)
    (fun _ => "Error: Could not generate HTML structure map.").

(* ===================================================================== *)
(** * [_expand_html_context]                                              *)
(* ===================================================================== *)

(** [body = full_soup.find('body'); return str(body) if body else full_html] *)
Definition body_or_document (full_soup : node) (full_html : string) : string :=
  match find (name_is "body") (root full_soup) with
  | Some body => str body
  | None => full_html
  end.

(** the four ways out of the expander that are not an error *)
Inductive expansion : Type :=
| NoAnchorElement
| NoAnchorText
| NoTextMatch
| ParentIsTop
| Climbed (parent : elem).

Definition expansion_of (full_soup snippet_soup : node) : expansion :=
  match find (fun tag => negb (name_is "html" tag) && negb (name_is "body" tag))
             (root snippet_soup) with
  | None => NoAnchorElement
  | Some first_element_in_snippet =>
      let text_content := get_text " " first_element_in_snippet in
      if is_empty text_content then NoAnchorText
      else
        let regex := firstn 15 (split text_content) in
        match find_all_text regex (root full_soup) with
        | [] => NoTextMatch
        | found :: _ =>
            (* [target_element = found.find_parent()] is the head of the
               ancestors of [found], [target_element.parent] the next one *)
            match snd found with
            | _ :: parent :: up =>
                if negb (name_in ["body"; "html"] parent)
                then Climbed (parent, up)
                else ParentIsTop
            | _ => ParentIsTop
            end
        end
  end.

Definition _expand_html_context (L : Lib) (full_html last_snippet : string)
  : string :=
  try_except
    (full_soup <- BeautifulSoup L full_html ;;
     snippet_soup <- BeautifulSoup L last_snippet ;;
     match expansion_of full_soup snippet_soup with
     | Climbed parent => Ret (str parent)
     | _ => Ret (body_or_document full_soup full_html)
     end)
    (fun _ => full_html).

(* ===================================================================== *)
(** * [extract_relevant_html]                                             *)
(* ===================================================================== *)

Definition main_selectors : list selector :=
  [Simple (SelTag "main"); Simple (SelAttrEq "role" "main");
   Simple (SelTag "article"); Simple (SelId "content"); Simple (SelId "main");
   Simple (SelClass "content"); Simple (SelClass "main")].

Definition tag (name : string) : selector := Simple (SelTag name).
Definition class_has (v : string) : selector := Simple (SelAttrSub "class" v).

Definition structural_keywords : list (string * list selector) :=
  [("card", [class_has "card"]); ("container", [class_has "container"]);
   ("wrapper", [class_has "wrapper"]);
   ("section", [tag "section"]); ("block", [class_has "block"]);
   ("grid", [class_has "grid"]);
   ("list", [tag "ul"; tag "ol"]); ("item", [tag "li"; class_has "item"]);
   ("row", [tag "tr"; class_has "row"]);
   ("column", [tag "td"; tag "th"; class_has "col"]);
   ("table", [tag "table"]);
   ("article", [tag "article"]); ("post", [class_has "post"]);
   ("comment", [class_has "comment"]);
   ("review", [class_has "review"; Simple (SelAttrSub "itemtype" "Review")]);
   ("title", [class_has "title"; Simple (SelClass "title")]);
   ("header", [tag "h1"; tag "h2"; tag "h3"; class_has "header"]);
   ("headline", [tag "h1"; tag "h2"; tag "h3"]);
   ("description", [class_has "description"; class_has "desc"]);
   ("summary", [class_has "summary"]);
   ("author", [class_has "author"; Simple (SelAttrEq "rel" "author")]);
   ("user", [class_has "user"; class_has "profile"]);
   ("name", [class_has "name"]);
   ("date", [class_has "date"; class_has "time"; tag "time"]);
   ("timestamp", [tag "time"]);
   ("product", [class_has "product"; Simple (SelAttrSub "itemtype" "Product")]);
   ("price", [class_has "price"]); ("rating", [class_has "rating"]);
   ("image", [tag "img"]); ("picture", [tag "picture"]);
   ("photo", [tag "img"; tag "figure"]); ("gallery", [class_has "gallery"]);
   ("link", [tag "a"]); ("url", [Simple (SelTagAttr "a" "href")]);
   ("href", [Simple (SelTagAttr "a" "href")]);
   ("text", [tag "p"; Child (SelTag "div") (SelTag "p")]);
   ("content", [tag "p"])].

(** the members of [active_selectors], in the order they were first added *)
Definition active_selectors (prompt : string) : list selector :=
  let prompt_words := split prompt in
  unique_by selector_eqb []
    (flat_map (fun kw => if mem (fst kw) prompt_words then snd kw else [])
              structural_keywords).

Fixpoint first_match (selectors : list selector) (soup : elem) : option elem :=
  match selectors with
  | [] => None
  | s :: rest =>
      match select_one s soup with
      | Some area => Some area
      | None => first_match rest soup
      end
  end.

(** the grandparent of a match, else its parent, unless [body] or [html] *)
Definition context_of (element : elem) : list elem :=
  match snd element with
  | parent :: grandparent :: up =>
      if negb (name_in ["body"; "html"] grandparent) then [(grandparent, up)]
      else if negb (name_in ["body"; "html"] parent)
           then [(parent, grandparent :: up)]
           else []
  | [parent] =>
      if negb (name_in ["body"; "html"] parent) then [(parent, [])] else []
  | [] => []
  end.

(** [head.find('meta', attrs={'name': 'description'})] on one tag *)
Definition attr_matches (key value : string) (n : node) : bool :=
  match get_attr key (attrs_of n) with
  | Some (AStr s) => String.eqb s value
  | Some (AList tokens) => mem value tokens || String.eqb (join " " tokens) value
  | None => false
  end.

Definition truthy_attr (v : option attr_value) : bool :=
  match v with
  | Some (AStr s) => negb (is_empty s)
  | Some (AList tokens) => match tokens with [] => false | _ :: _ => true end
  | None => false
  end.

Definition head_parts (soup : elem) : list string :=
  match find (name_is "head") soup with
  | None => []
  | Some head =>
      match find (name_is "title") head with
      | Some title =>
          match string_of (fst title) with
          | Some s => if is_empty s then [] else [str title]
          | None => []
          end
      | None => []
      end
      ++
      match find (fun n => name_is "meta" n && attr_matches "name" "description" n)
                 head with
      | Some meta_desc =>
          if truthy_attr (get_attr "content" (attrs_of (fst meta_desc)))
          then [str meta_desc] else []
      | None => []
      end
  end.

Definition non_content_tags : list string :=
  ["script"; "style"; "header"; "footer"; "nav"; "aside"].

Definition max_len : Z := 75000.
Definition truncation_marker : string := nl ++ nl ++ "... (HTML truncated)".

(** [output_parts] after the three stages *)
Definition staged_parts (L : Lib) (soup : elem) (user_prompt : string)
  : list string :=
  let prompt := lower user_prompt in
  (* Stage 1 *)
  let main_content_soup := first_match main_selectors soup in
  let search_scope :=
    match main_content_soup with
    | Some area => area
    | None =>
        match find (name_is "body") soup with
        | Some body => body
        | None => soup
        end
    end in
  (* Stage 2 *)
  let relevant_elements :=
    match active_selectors prompt with
    | [] => []
    | _ :: _ =>
        flat_map (fun selector => select selector 20 search_scope)
                 (set_order L (active_selectors prompt))
    end in
  (* Stage 3 *)
  let output_parts := head_parts soup in
  match main_content_soup, relevant_elements with
  | Some area, [] => (output_parts ++ [str area])%list
  | _, _ =>
      let contextual_elements :=
        flat_map context_of (unique_elements relevant_elements) in
      let unique_contextual_elements := unique_elements contextual_elements in
      (output_parts ++ map str (firstn 30 unique_contextual_elements))%list
  end.

(** [output_parts] when the function reaches [join]: the non-content
    elements are gone, and the start of the body is added to a list of at
    most two parts *)
Definition output_parts_of (L : Lib) (parsed : node) (user_prompt : string)
  : list string :=
  let soup := root (decompose_all non_content_tags parsed) in
  let output_parts := staged_parts L soup user_prompt in
  if Z.of_nat (List.length output_parts) <=? 2 then
    match find (name_is "body") soup with
    | Some body => (output_parts ++ [take 15000 (str body)])%list
    | None => output_parts
    end
  else output_parts.

Definition extract_relevant_html (L : Lib) (html_content user_prompt : string)
  : string :=
  try_except
    (parsed <- BeautifulSoup L html_content ;;
     let combined_content :=
       join (nl ++ nl) (output_parts_of L parsed user_prompt) in
     if max_len <? len combined_content
     then Ret (take max_len combined_content ++ truncation_marker)
     else Ret combined_content)
    (fun _ => take 15000 html_content).

(* ===================================================================== *)
(** * [src/executor.py]                                                   *)
(* ===================================================================== *)

(** How [subprocess.run(..., capture_output=True, text=True, timeout=t)]
    ends. *)
Inductive proc_outcome : Type :=
| Completed (returncode : Z) (out err : string)
| TimeoutExpired
| ProcError (msg : string).   (* any other exception, e.g. no such program *)

Inductive command : Type :=
| PipInstall       (* ["pip", "install", "-r", "requirements.txt"] *)
| PythonScraper.   (* ["python", "scraper.py"] *)

(** The files of the working directory of a job. *)
Record workdir : Type := {
  scraper_py_file : option string;
  requirements_txt_file : option string
}.

Record execution_result : Type := {
  stdout : string;
  stderr : string;
  exit_code : Z
}.

Definition timeout_message : string := "Script execution timed out after 60 seconds".

(** [subprocess.run] brought into the exception model: a completed process
    is a value, the two other outcomes are the two [except] clauses *)
Inductive caught : Type :=
| CaughtTimeout
| CaughtException (msg : string).

Definition run_script_in_dir
  (subprocess_run : command -> workdir -> proc_outcome) (path : workdir)
  : execution_result :=
  let body : execution_result + caught :=
    match subprocess_run PipInstall path with
    | TimeoutExpired => inr CaughtTimeout
    | ProcError msg => inr (CaughtException msg)
    | Completed install_rc install_out install_err =>
        if negb (install_rc =? 0) then
          let combined_output := install_err ++ nl ++ install_out in
          let error_message :=
            "Failed to install dependencies: " ++ strip combined_output in
          inr (CaughtException error_message)
        else
          match subprocess_run PythonScraper path with
          | TimeoutExpired => inr CaughtTimeout
          | ProcError msg => inr (CaughtException msg)
          | Completed rc out err =>
              inl {| stdout := out; stderr := err; exit_code := rc |}
          end
    end in
  match body with
  | inl r => r
  | inr CaughtTimeout =>
      {| stdout := EmptyString; stderr := timeout_message; exit_code := 1 |}
  | inr (CaughtException e) =>
      {| stdout := EmptyString; stderr := e; exit_code := 1 |}
  end.

(* ===================================================================== *)
(** * The outside world of a job                                          *)
(* ===================================================================== *)

(** [client.get(url)] followed by [response.raise_for_status()] *)
Inductive fetch_outcome : Type :=
| Fetched (text : string)
| RequestError (msg : string)      (* [httpx.RequestError] *)
| FetchException (msg : string).   (* any other exception, e.g. a 404 *)

(** An entry of [history]: the keys [reason], [code], [stdout], [stderr]
    and [html_snippet]. *)
Record history_entry : Type := {
  h_reason : string;
  h_code : string;
  h_stdout : string;
  h_stderr : string;
  h_html_snippet : string
}.

Definition settings : Type := list (string * json).

(** The arguments of a call to [generate_script]. *)
Record gen_request : Type := {
  g_prompt : string;
  g_url : string;
  g_html_content : string;
  g_settings : settings;
  g_history : list history_entry;
  g_structure_map : option string
}.

(** What [generate_script] returns: it checks that both keys are present. *)
Record gen_result : Type := {
  scraper_py : string;
  requirements_txt : string
}.

(** Everything a job reaches outside the interpreter.  The first argument
    of a field that can answer differently from one attempt to the next is
    the index of the attempt. *)
Record World : Type := {
  getcwd : string;
  (** [uuid.uuid4().hex[:8]] *)
  uuid_hex8 : string;
  http_get : string -> fetch_outcome;
  (** [gemini_service.generate_script]; it reads [history], it never
      writes to it *)
  generate_script : nat -> gen_request -> res gen_result;
  (** [open(path, "w").write(text)] in the working directory *)
  open_write : nat -> string -> string -> res unit;
  subprocess_run : nat -> command -> workdir -> proc_outcome;
  (** writing the archive of the working directory *)
  zip_write : nat -> workdir -> res unit
}.

(* ===================================================================== *)
(** * [run_scraping_job]                                                  *)
(* ===================================================================== *)

(** [os.path.join(a, b)] as [posixpath] defines it: a second part that
    starts at the root replaces the first, and no separator is added to a
    first part that is empty or ends with one *)
Definition path_join (a b : string) : string :=
  if prefix "/" b then b
  else if is_empty a || endswith "/" a then a ++ b
  else a ++ "/" ++ b.

Definition _create_zip_package (W : World) (attempt : nat) (temp_dir : workdir)
  (run_id : string) : res string :=
  let downloads_dir := path_join (getcwd W) "downloads" in
  let zip_path := path_join downloads_dir (run_id ++ ".zip") in
  _ <- zip_write W attempt temp_dir ;; Ret zip_path.

Definition _truncate_preview (data : string) (max_length : Z) : string :=
  if len data <=? max_length then data
  else take max_length data ++ "...".

Inductive job_result : Type :=
| JobSuccess (message data_preview download_url zip_path : string)
| JobActionRequired (message download_url zip_path : string)
| JobError (message : string) (final_error : option string).

(** the key [status] of the returned dictionary *)
Definition status (r : job_result) : string :=
  match r with
  | JobSuccess _ _ _ _ => "success"
  | JobActionRequired _ _ _ => "action_required"
  | JobError _ _ => "error"
  end.

(** The variables of the attempt loop.  [current_code] is [None] as long
    as the name is not in [locals()].  [requests] is not a variable of the
    source: it records the calls to [generate_script], oldest first, so
    that properties of what the oracle was given can be stated. *)
Record loop_state : Type := {
  history : list history_entry;
  relevant_html : string;
  current_code : option string;
  temp_dir : workdir;
  requests : list gen_request
}.

Definition set_history (h : list history_entry) (st : loop_state) : loop_state :=
  {| history := h; relevant_html := relevant_html st;
     current_code := current_code st; temp_dir := temp_dir st;
     requests := requests st |}.

Definition set_relevant_html (x : string) (st : loop_state) : loop_state :=
  {| history := history st; relevant_html := x;
     current_code := current_code st; temp_dir := temp_dir st;
     requests := requests st |}.

Definition set_current_code (c : string) (st : loop_state) : loop_state :=
  {| history := history st; relevant_html := relevant_html st;
     current_code := Some c; temp_dir := temp_dir st;
     requests := requests st |}.

Definition set_temp_dir (d : workdir) (st : loop_state) : loop_state :=
  {| history := history st; relevant_html := relevant_html st;
     current_code := current_code st; temp_dir := d;
     requests := requests st |}.

Definition add_request (r : gen_request) (st : loop_state) : loop_state :=
  {| history := history st; relevant_html := relevant_html st;
     current_code := current_code st; temp_dir := temp_dir st;
     requests := requests st ++ [r] |}.

(** [history.append(entry)] *)
Definition append_history (entry : history_entry) (st : loop_state) : loop_state :=
  set_history (history st ++ [entry]) st.

(** How one pass through the body of the [for] loop ends. *)
Inductive step : Type :=
| Return (r : job_result) (st : loop_state)
| Continue (st : loop_state)     (* [continue], or the end of the body *)
| Break (st : loop_state).

Definition max_attempts : nat := 5.

Definition playwright_marker : string := "playwright install".

Definition msg_success : string := "Scraper generated and tested successfully!".
Definition msg_action_required : string :=
  "The script requires Playwright. Please run 'playwright install' and then run the script from the downloaded zip.".
Definition msg_failed : string :=
  "The agent failed to generate a working scraper. Please check the website or try a more specific prompt.".

Definition reason_execution_failed (code : Z) : string :=
  "Script execution failed with exit code " ++ of_int code ++ ". See STDERR for details.".
Definition reason_unexpected (e : string) : string :=
  "An unexpected error occurred during script generation or execution: " ++ e.

Definition download_url_of (run_id : string) : string := "/api/download/" ++ run_id.

(** [break] on the last attempt, else on to the next one *)
Definition break_if_last (attempt : nat) (st : loop_state) : step :=
  if (attempt =? max_attempts - 1)%nat then Break st else Continue st.

(** the clause [except Exception as e] of the attempt *)
Definition on_exception (attempt : nat) (e : string) (st : loop_state) : step :=
  break_if_last attempt
    (append_history
       {| h_reason := reason_unexpected e;
          h_code := match current_code st with
                    | Some c => c
                    | None => "Code not generated"
                    end;
          h_stdout := EmptyString;
          h_stderr := e;
          h_html_snippet := relevant_html st |}
       st).

(** the entry that a failed run or a rejected output leaves behind *)
Definition failure_entry (failure_reason current : string) (r : execution_result)
  (st : loop_state) : history_entry :=
  {| h_reason := failure_reason;
     h_code := current;
     h_stdout := _truncate_preview (stdout r) 2000;
     h_stderr := _truncate_preview (stderr r) 2000;
     h_html_snippet := relevant_html st |}.

(** [attempt > 0 and history] *)
Definition retrying (attempt : nat) (st : loop_state) : bool :=
  (0 <? attempt)%nat && match history st with [] => false | _ :: _ => true end.

Definition empty_entry : history_entry :=
  {| h_reason := ""; h_code := ""; h_stdout := ""; h_stderr := "";
     h_html_snippet := "" |}.

(** [history[-1]['html_snippet']], for a history that is not empty *)
Definition last_snippet (st : loop_state) : string :=
  h_html_snippet (last (history st) empty_entry).

Definition attempt_body (W : World) (L : Lib)
  (user_prompt url : string) (cfg : settings)
  (html_content structure_map run_id : string)
  (attempt : nat) (st : loop_state) : step :=
  (* the excerpt of this attempt *)
  let expand := retrying attempt st in
  let st :=
    if expand
    then set_relevant_html
           (_expand_html_context L html_content (last_snippet st)) st
    else st in
  let structure_map_for_request := if expand then None else Some structure_map in
  let request :=
    {| g_prompt := user_prompt; g_url := url;
       g_html_content := relevant_html st; g_settings := cfg;
       g_history := history st;
       g_structure_map := structure_map_for_request |} in
  let st := add_request request st in
  match generate_script W attempt request with
  | Raise e => on_exception attempt e st
  | Ret result =>
      let current := scraper_py result in
      let st := set_current_code current st in
      match open_write W attempt "scraper.py" (scraper_py result) with
      | Raise e => on_exception attempt e st
      | Ret _ =>
          let st :=
            set_temp_dir
              {| scraper_py_file := Some (scraper_py result);
                 requirements_txt_file := requirements_txt_file (temp_dir st) |}
              st in
          match open_write W attempt "requirements.txt" (requirements_txt result) with
          | Raise e => on_exception attempt e st
          | Ret _ =>
              let st :=
                set_temp_dir
                  {| scraper_py_file := scraper_py_file (temp_dir st);
                     requirements_txt_file := Some (requirements_txt result) |}
                  st in
              let execution_result :=
                run_script_in_dir (subprocess_run W attempt) (temp_dir st) in
              if (exit_code execution_result =? 0)
                 && negb (is_empty (strip (stdout execution_result)))
              then
                let validation :=
                  validate_scraper_results L (stdout execution_result) user_prompt in
                if valid validation then
                  match _create_zip_package W attempt (temp_dir st) run_id with
                  | Raise e => on_exception attempt e st
                  | Ret zip_path =>
                      Return
                        (JobSuccess msg_success
                           (_truncate_preview (stdout execution_result) 500)
                           (download_url_of run_id) zip_path)
                        st
                  end
                else
                  break_if_last attempt
                    (append_history
                       (failure_entry (feedback validation) current
                                      execution_result st)
                       st)
              else if contains playwright_marker (lower (stderr execution_result))
              then
                match _create_zip_package W attempt (temp_dir st) run_id with
                | Raise e => on_exception attempt e st
                | Ret zip_path =>
                    Return
                      (JobActionRequired msg_action_required
                         (download_url_of run_id) zip_path)
                      st
                end
              else
                break_if_last attempt
                  (append_history
                     (failure_entry
                        (reason_execution_failed (exit_code execution_result))
                        current execution_result st)
                     st)
          end
      end
  end.

(** What a run leaves behind: the dictionary it returns and the last state
    of the loop variables. *)
Record job_run : Type := {
  result : job_result;
  final : loop_state
}.

(** the code after the loop *)
Definition after_loop (st : loop_state) : job_run :=
  let '(final_reason, final_stderr) :=
    match history st with
    | [] => ("Unknown failure", "No details available.")
    | e :: rest => (h_reason (last rest e), h_stderr (last rest e))
    end in
  {| result :=
       JobError msg_failed
         (Some ("Final attempt failed: " ++ final_reason ++ nl ++ nl
                ++ "STDERR:" ++ nl ++ final_stderr));
     final := st |}.

(** [for attempt in attempts: body] followed by the code after the loop *)
Fixpoint attempt_loop (body : nat -> loop_state -> step) (attempts : list nat)
  (st : loop_state) : job_run :=
  match attempts with
  | [] => after_loop st
  | attempt :: rest =>
      match body attempt st with
      | Return r st' => {| result := r; final := st' |}
      | Continue st' => attempt_loop body rest st'
      | Break st' => after_loop st'
      end
  end.

Definition empty_dir : workdir :=
  {| scraper_py_file := None; requirements_txt_file := None |}.

Definition initial_state (excerpt : string) : loop_state :=
  {| history := []; relevant_html := excerpt; current_code := None;
     temp_dir := empty_dir; requests := [] |}.

Definition run_scraping_job (W : World) (L : Lib)
  (user_prompt url : string) (cfg : settings) : job_run :=
  let run_id := "run_" ++ uuid_hex8 W in
  match http_get W url with
  | RequestError e =>
      {| result := JobError ("Failed to fetch content from URL: " ++ e) None;
         final := initial_state EmptyString |}
  | FetchException e =>
      {| result := JobError ("Unexpected error occurred: " ++ e) None;
         final := initial_state EmptyString |}
  | Fetched html_content =>
      let structure_map := create_html_structure_map L html_content in
      let relevant_html := extract_relevant_html L html_content user_prompt in
      attempt_loop
        (attempt_body W L user_prompt url cfg html_content structure_map run_id)
        (seq 0 max_attempts)
        (initial_state relevant_html)
  end.

(* ===================================================================== *)
(** * A reference instance of [Lib]                                       *)
(* ===================================================================== *)

(** The statements below hold for every [Lib].  To run the code on a
    concrete page one instance is needed; this one reads well-formed markup
    and JSON as the libraries do, within the limits stated at each
    definition. *)

Module Reference.

(** ** Markup: start tags with attributes, end tags and text.  Comments,
    declarations, character references and the raw text of [script] and
    [style] elements are outside this parser. *)

Inductive token : Type :=
| TStart (name : string) (attrs : list (string * string)) (self_closing : bool)
| TEnd (name : string)
| TData (s : string).

Definition text_of (rev_chars : list ascii) : string :=
  string_of_list_ascii (rev_append rev_chars []).

Definition isalpha (c : ascii) : bool :=
  let n := nat_of_ascii c in
  (((65 <=? n) && (n <=? 90)) || ((97 <=? n) && (n <=? 122)))%nat.

Inductive lex_state : Type :=
| LText (acc : list ascii)
| LOpen (acc : list ascii)
| LEndName (name : list ascii)
| LName (name : list ascii)
| LAttrs (name : string) (attrs : list (string * string))
| LKey (name : string) (attrs : list (string * string)) (key : list ascii)
| LAfterKey (name : string) (attrs : list (string * string)) (key : string)
| LValueStart (name : string) (attrs : list (string * string)) (key : string)
| LQuoted (name : string) (attrs : list (string * string)) (key : string)
    (quote : ascii) (acc : list ascii)
| LBare (name : string) (attrs : list (string * string)) (key : string)
    (acc : list ascii)
| LSlash (name : string) (attrs : list (string * string)).

Definition data_token (acc : list ascii) : list token :=
  match acc with
  | [] => []
  | _ :: _ => [TData (text_of acc)]
  end.

Definition start_token (name : string) (rev_attrs : list (string * string))
  (self_closing : bool) : list token :=
  [TStart name (rev rev_attrs) self_closing].

(** one character: the tokens that end here, and the next state *)
Definition lex_step (st : lex_state) (c : ascii) : list token * lex_state :=
  let gt := Ascii.eqb c ">" in
  let slash := Ascii.eqb c "/" in
  match st with
  | LText acc => if Ascii.eqb c "<" then ([], LOpen acc) else ([], LText (c :: acc))
  | LOpen acc =>
      if slash then (data_token acc, LEndName [])
      else if isalpha c then (data_token acc, LName [lower_char c])
      else if Ascii.eqb c "<" then ([], LOpen ("<"%char :: acc))
      else ([], LText (c :: "<"%char :: acc))
  | LEndName name =>
      if gt then ([TEnd (lower (strip (text_of name)))], LText [])
      else ([], LEndName (c :: name))
  | LName name =>
      if isspace c then ([], LAttrs (text_of name) [])
      else if gt then (start_token (text_of name) [] false, LText [])
      else if slash then ([], LSlash (text_of name) [])
      else ([], LName (lower_char c :: name))
  | LAttrs name attrs =>
      if isspace c then ([], st)
      else if gt then (start_token name attrs false, LText [])
      else if slash then ([], LSlash name attrs)
      else ([], LKey name attrs [lower_char c])
  | LKey name attrs key =>
      if Ascii.eqb c "=" then ([], LValueStart name attrs (text_of key))
      else if isspace c then ([], LAfterKey name attrs (text_of key))
      else if gt then
        (start_token name ((text_of key, EmptyString) :: attrs) false, LText [])
      else if slash then ([], LSlash name ((text_of key, EmptyString) :: attrs))
      else ([], LKey name attrs (lower_char c :: key))
  | LAfterKey name attrs key =>
      if isspace c then ([], st)
      else if Ascii.eqb c "=" then ([], LValueStart name attrs key)
      else if gt then (start_token name ((key, EmptyString) :: attrs) false, LText [])
      else if slash then ([], LSlash name ((key, EmptyString) :: attrs))
      else ([], LKey name ((key, EmptyString) :: attrs) [lower_char c])
  | LValueStart name attrs key =>
      if isspace c then ([], st)
      else if Ascii.eqb c (ascii_of_nat 34) || Ascii.eqb c "'"
           then ([], LQuoted name attrs key c [])
      else if gt then (start_token name ((key, EmptyString) :: attrs) false, LText [])
      else ([], LBare name attrs key [c])
  | LQuoted name attrs key quote acc =>
      if Ascii.eqb c quote then ([], LAttrs name ((key, text_of acc) :: attrs))
      else ([], LQuoted name attrs key quote (c :: acc))
  | LBare name attrs key acc =>
      if isspace c then ([], LAttrs name ((key, text_of acc) :: attrs))
      else if gt then (start_token name ((key, text_of acc) :: attrs) false, LText [])
      else ([], LBare name attrs key (c :: acc))
  | LSlash name attrs =>
      if gt then (start_token name attrs true, LText [])
      else ([], LAttrs name attrs)
  end.

Fixpoint lex (st : lex_state) (s : string) : list token :=
  match s with
  | EmptyString =>
      match st with
      | LText acc => data_token acc
      | LOpen acc => data_token ("<"%char :: acc)
      | _ => []
      end
  | String c s' => let '(out, st') := lex_step st c in (out ++ lex st' s')%list
  end.

(** an open element: its name, its attributes, its children so far, last
    child first *)
Definition frame : Type := (string * list (string * attr_value) * list node)%type.

Definition frame_name (f : frame) : string := fst (fst f).

Definition close (f : frame) : node :=
  Tag (frame_name f) (snd (fst f)) (rev (snd f)).

Definition add_child (n : node) (f : frame) : frame :=
  (fst f, n :: snd f).

(** close the innermost open element; the document itself stays open *)
Definition pop (stack : list frame) : list frame :=
  match stack with
  | f :: g :: below => add_child (close f) g :: below
  | _ => stack
  end.

(** the attributes whose value is a list of tokens *)
Definition multi_valued (tag_name key : string) : bool :=
  mem key ["class"; "accesskey"; "dropzone"]
  || (mem tag_name ["a"; "link"] && mem key ["rel"; "rev"])
  || (mem tag_name ["td"; "th"] && String.eqb key "headers")
  || (String.eqb tag_name "form" && String.eqb key "accept-charset")
  || (String.eqb tag_name "object" && String.eqb key "archive")
  || (String.eqb tag_name "area" && String.eqb key "rel")
  || (String.eqb tag_name "icon" && String.eqb key "sizes")
  || (String.eqb tag_name "iframe" && String.eqb key "sandbox")
  || (String.eqb tag_name "output" && String.eqb key "for").

Fixpoint set_attr (key : string) (v : attr_value)
  (attrs : list (string * attr_value)) : list (string * attr_value) :=
  match attrs with
  | [] => [(key, v)]
  | (k, w) :: rest =>
      if String.eqb k key then (k, v) :: rest else (k, w) :: set_attr key v rest
  end.

Definition tag_attrs (tag_name : string) (raw : list (string * string))
  : list (string * attr_value) :=
  fold_left
    (fun acc kv =>
       set_attr (fst kv)
         (if multi_valued tag_name (fst kv) then AList (split (snd kv))
          else AStr (snd kv))
         acc)
    raw [].

Definition ascii_space (c : ascii) : bool :=
  let n := nat_of_ascii c in
  ((n =? 32) || (n =? 10) || (n =? 9) || (n =? 12) || (n =? 13))%nat.

Definition all_ascii_spaces (s : string) : bool :=
  forallb ascii_space (list_ascii_of_string s).

(** the string object that a run of text becomes *)
Definition data_node (stack : list frame) (s : string) : node :=
  let open_names := map frame_name stack in
  let s :=
    if all_ascii_spaces s
       && negb (existsb (fun n => mem n ["pre"; "textarea"]) open_names)
    then (if contains nl s then nl else " ")
    else s in
  match List.find (fun n => mem n string_containers) open_names with
  | Some container => NavigableString (KContainer container) s
  | None => NavigableString KText s
  end.

(** the number of open elements down to the innermost one of this name *)
Fixpoint depth_of (name : string) (stack : list frame) : option nat :=
  match stack with
  | [] | [_] => None
  | f :: below =>
      if String.eqb (frame_name f) name then Some 1%nat
      else option_map S (depth_of name below)
  end.

Fixpoint build (tokens : list token) (stack : list frame) : list frame :=
  match tokens with
  | [] => Nat.iter (List.length stack) pop stack
  | t :: rest =>
      build rest
        match t with
        | TData s =>
            match stack with
            | f :: below => add_child (data_node stack s) f :: below
            | [] => []
            end
        | TStart name raw self_closing =>
            let opened : frame := (name, tag_attrs name raw, []) in
            if self_closing || mem name empty_element_tags
            then match stack with
                 | f :: below => add_child (close opened) f :: below
                 | [] => []
                 end
            else opened :: stack
        | TEnd name =>
            match depth_of name stack with
            | Some k => Nat.iter k pop stack
            | None => stack
            end
        end
  end.

Definition html_parser (markup : string) : res node :=
  match build (lex (LText []) markup) [(document_name, [], [])] with
  | [f] => Ret (close f)
  | _ => Raise "unbalanced parser stack"
  end.

(** ** JSON without floats and without [\u] escapes; what lies outside is
    reported by [JsonRaise], which is not how [json.loads] answers.  A text
    that opens more arrays than the interpreter has frames is answered as
    [json.loads] answers it, with a [RecursionError]. *)

Inductive parsed (A : Type) : Type :=
| POk (a : A) (rest : string)
| PBad
| PUnsupported.
Arguments POk {A} a rest.
Arguments PBad {A}.
Arguments PUnsupported {A}.

Fixpoint skip_ws (s : string) : string :=
  match s with
  | EmptyString => EmptyString
  | String c s' =>
      let n := nat_of_ascii c in
      if ((n =? 32) || (n =? 9) || (n =? 10) || (n =? 13))%nat then skip_ws s'
      else s
  end.

Definition unescape (c : ascii) : option ascii :=
  let n := nat_of_ascii c in
  if ((n =? 34) || (n =? 92) || (n =? 47))%nat then Some c
  else if Ascii.eqb c "b" then Some (ascii_of_nat 8)
  else if Ascii.eqb c "f" then Some (ascii_of_nat 12)
  else if Ascii.eqb c "n" then Some (ascii_of_nat 10)
  else if Ascii.eqb c "r" then Some (ascii_of_nat 13)
  else if Ascii.eqb c "t" then Some (ascii_of_nat 9)
  else None.

(** the rest of a string literal, after its opening quote *)
Fixpoint parse_string (s : string) : parsed string :=
  match s with
  | EmptyString => PBad
  | String c s' =>
      if Ascii.eqb c (ascii_of_nat 34) then POk EmptyString s'
      else if Ascii.eqb c "\" then
        match s' with
        | EmptyString => PBad
        | String e s'' =>
            if Ascii.eqb e "u" then PUnsupported
            else match unescape e with
                 | None => PBad
                 | Some x =>
                     match parse_string s'' with
                     | POk t rest => POk (String x t) rest
                     | PBad => PBad
                     | PUnsupported => PUnsupported
                     end
                 end
        end
      else if (nat_of_ascii c <? 32)%nat then PBad
      else match parse_string s' with
           | POk t rest => POk (String c t) rest
           | PBad => PBad
           | PUnsupported => PUnsupported
           end
  end.

Definition starts_with_digit (s : string) : bool :=
  match s with String c _ => isdigit c | EmptyString => false end.

(** does a fraction or an exponent follow the integer part? *)
Definition float_follows (s : string) : bool :=
  match s with
  | String c s' =>
      if Ascii.eqb c "." then starts_with_digit s'
      else if Ascii.eqb c "e" || Ascii.eqb c "E" then
        starts_with_digit s' ||
        match s' with
        | String d s'' => (Ascii.eqb d "+" || Ascii.eqb d "-") && starts_with_digit s''
        | EmptyString => false
        end
      else false
  | EmptyString => false
  end.

(** the integer part of a number, its sign already read: a lone zero, or
    digits that do not start with zero *)
Definition parse_int (negative : bool) (s : string) : parsed json :=
  match s with
  | String c s' =>
      if negb (isdigit c) then PBad
      else
        let '(digits, rest) :=
          if Ascii.eqb c "0" then ("0", s') else span_digits s in
        if float_follows rest then PUnsupported
        else POk (JInt (if negative then - int_of_digits digits
                        else int_of_digits digits)) rest
  | EmptyString => PBad
  end.

Definition parse_literal (s : string) : parsed json :=
  match drop_prefix "null" s, drop_prefix "true" s, drop_prefix "false" s with
  | Some rest, _, _ => POk JNull rest
  | _, Some rest, _ => POk (JBool true) rest
  | _, _, Some rest => POk (JBool false) rest
  | _, _, _ =>
      if prefix "NaN" s || prefix "Infinity" s || prefix "-Infinity" s
      then PUnsupported
      else match s with
           | String c s' => if Ascii.eqb c "-" then parse_int true s' else parse_int false s
           | EmptyString => PBad
           end
  end.

(** [d[key] = v] on a dictionary kept in insertion order *)
Fixpoint dict_set (key : string) (v : json) (d : list (string * json))
  : list (string * json) :=
  match d with
  | [] => [(key, v)]
  | (k, w) :: rest =>
      if String.eqb k key then (k, v) :: rest else (k, w) :: dict_set key v rest
  end.

Fixpoint parse_value (fuel : nat) (s : string) : parsed json :=
  match fuel with
  | O => PUnsupported
  | S fuel' =>
      match skip_ws s with
      | EmptyString => PBad
      | String c r =>
          if Ascii.eqb c (ascii_of_nat 34) then
            match parse_string r with
            | POk t rest => POk (JStr t) rest
            | PBad => PBad
            | PUnsupported => PUnsupported
            end
          else if Ascii.eqb c "[" then
            match skip_ws r with
            | String "]" rest => POk (JList []) rest
            | _ =>
                match parse_elements fuel' r with
                | POk items rest => POk (JList items) rest
                | PBad => PBad
                | PUnsupported => PUnsupported
                end
            end
          else if Ascii.eqb c "{" then
            match skip_ws r with
            | String "}" rest => POk (JDict []) rest
            | _ =>
                match parse_members fuel' r [] with
                | POk fields rest => POk (JDict fields) rest
                | PBad => PBad
                | PUnsupported => PUnsupported
                end
            end
          else parse_literal (String c r)
      end
  end

with parse_elements (fuel : nat) (s : string) : parsed (list json) :=
  match fuel with
  | O => PUnsupported
  | S fuel' =>
      match parse_value fuel' s with
      | POk v rest =>
          match skip_ws rest with
          | String "," rest' =>
              match parse_elements fuel' rest' with
              | POk vs rest'' => POk (v :: vs) rest''
              | PBad => PBad
              | PUnsupported => PUnsupported
              end
          | String "]" rest' => POk [v] rest'
          | _ => PBad
          end
      | PBad => PBad
      | PUnsupported => PUnsupported
      end
  end

with parse_members (fuel : nat) (s : string) (acc : list (string * json))
  : parsed (list (string * json)) :=
  match fuel with
  | O => PUnsupported
  | S fuel' =>
      match skip_ws s with
      | String c r =>
          if negb (Ascii.eqb c (ascii_of_nat 34)) then PBad
          else
            match parse_string r with
            | POk key rest =>
                match skip_ws rest with
                | String ":" rest' =>
                    match parse_value fuel' rest' with
                    | POk v rest'' =>
                        let acc := dict_set key v acc in
                        match skip_ws rest'' with
                        | String "," more => parse_members fuel' more acc
                        | String "}" after => POk acc after
                        | _ => PBad
                        end
                    | PBad => PBad
                    | PUnsupported => PUnsupported
                    end
                | _ => PBad
                end
            | PBad => PBad
            | PUnsupported => PUnsupported
            end
      | EmptyString => PBad
      end
  end.

(** [sys.getrecursionlimit()], as the interpreter starts with it *)
Definition recursion_limit : nat := 1000.

(** the number of arrays that a text opens before anything else *)
Fixpoint leading_arrays (s : string) : nat :=
  match s with
  | EmptyString => O
  | String c s' =>
      let n := nat_of_ascii c in
      if Ascii.eqb c "[" then S (leading_arrays s')
      else if ((n =? 32) || (n =? 9) || (n =? 10) || (n =? 13))%nat
           then leading_arrays s'
           else O
  end.

(** The scanner calls itself once for every array that is open.  With
    more arrays open than [recursion_limit] it has raised before it reads
    what follows; the frames that are on the stack when [json.loads] is
    called, which make it raise somewhat earlier, are not counted. *)
Definition json_parser (s : string) : json_outcome :=
  if (recursion_limit <? leading_arrays s)%nat
  then JsonRaise "maximum recursion depth exceeded while decoding a JSON array from a unicode string"
  else
    match parse_value (2 * String.length s + 2) s with
    | POk v rest =>
        match skip_ws rest with
        | EmptyString => JsonOk v
        | String _ _ => JSONDecodeError
        end
    | PBad => JSONDecodeError
    | PUnsupported => JsonRaise "outside the reference JSON parser"
    end.

(** a set iterated in the order it was filled, and in the opposite order *)
Definition lib : Lib :=
  {| BeautifulSoup := html_parser;
     json_loads := json_parser;
     set_order := fun l => l |}.

Definition lib_reversed : Lib :=
  {| BeautifulSoup := html_parser;
     json_loads := json_parser;
     set_order := @rev selector |}.

End Reference.

(* ===================================================================== *)
(** * Vocabulary of the statements                                        *)
(* ===================================================================== *)

(** a string without a visible character *)
Fixpoint blank (s : string) : bool :=
  match s with
  | EmptyString => true
  | String c s' => isspace c && blank s'
  end.

(** a JSON value that is neither a list nor an object *)
Definition scalar (v : json) : bool :=
  match v with
  | JList _ | JDict _ => false
  | _ => true
  end.

Definition generic_verdict : verdict :=
  {| valid := false; feedback := fb_generic |}.

Definition timeout_result : execution_result :=
  {| stdout := EmptyString; stderr := timeout_message; exit_code := 1 |}.

(** An execution result that neither passes validation nor asks for the
    manual set-up: the output is rejected where the validator is asked,
    and the marker is absent where the marker is looked for. *)
Definition unsuccessful (L : Lib) (objective : string) (x : execution_result)
  : Prop :=
  if (exit_code x =? 0) && negb (blank (stdout x))
  then valid (validate_scraper_results L (stdout x) objective) = false
  else contains playwright_marker (lower (stderr x)) = false.

(** the excerpt that an attempt uses, given the state it starts in *)
Definition excerpt_of (L : Lib) (html_content : string) (attempt : nat)
  (st : loop_state) : string :=
  if retrying attempt st
  then _expand_html_context L html_content (last_snippet st)
  else relevant_html st.

(** the request of an attempt has been added to the trace *)
Definition requested (L : Lib) (html_content : string) (attempt : nat)
  (st st' : loop_state) : Prop :=
  exists request,
    requests st' = (requests st ++ [request])%list /\
    g_history request = history st /\
    g_html_content request = excerpt_of L html_content attempt st.

(** what an attempt that does not return leaves behind *)
Definition records (L : Lib) (html_content : string) (attempt : nat)
  (st st' : loop_state) : Prop :=
  exists entry,
    history st' = (history st ++ [entry])%list /\
    h_html_snippet entry = excerpt_of L html_content attempt st /\
    relevant_html st' = excerpt_of L html_content attempt st /\
    requested L html_content attempt st st'.

(** what an attempt that returns has seen *)
Definition returns (W : World) (L : Lib) (user_prompt html_content run_id : string)
  (attempt : nat) (st : loop_state) (r : job_result) (st' : loop_state) : Prop :=
  history st' = history st /\
  relevant_html st' = excerpt_of L html_content attempt st /\
  requested L html_content attempt st st' /\
  exists x zip_path,
    x = run_script_in_dir (subprocess_run W attempt) (temp_dir st') /\
    _create_zip_package W attempt (temp_dir st') run_id = Ret zip_path /\
    if (exit_code x =? 0) && negb (is_empty (strip (stdout x)))
    then valid (validate_scraper_results L (stdout x) user_prompt) = true /\
         r = JobSuccess msg_success (_truncate_preview (stdout x) 500)
               (download_url_of run_id) zip_path
    else contains playwright_marker (lower (stderr x)) = true /\
         r = JobActionRequired msg_action_required (download_url_of run_id)
               zip_path.

(** the state in which a pass through the body of the loop ends *)
Definition step_state (s : step) : loop_state :=
  match s with
  | Return _ st | Continue st | Break st => st
  end.

(** the arguments of the call to the oracle that an attempt makes *)
Definition request_of (L : Lib) (user_prompt url : string) (cfg : settings)
  (html_content structure_map : string) (attempt : nat) (st : loop_state)
  : gen_request :=
  {| g_prompt := user_prompt; g_url := url;
     g_html_content := excerpt_of L html_content attempt st;
     g_settings := cfg;
     g_history := history st;
     g_structure_map := if retrying attempt st then None else Some structure_map |}.

(** the working directory once the two files of an answer are written *)
Definition files_of (answer : gen_result) : workdir :=
  {| scraper_py_file := Some (scraper_py answer);
     requirements_txt_file := Some (requirements_txt answer) |}.

(** How far an attempt gets: the oracle or the writing of a file raises,
    or the script of the answer is run in the working directory. *)
Inductive attempt_run : Type :=
| NoRun (e : string)
| Ran (answer : gen_result) (x : execution_result).

(** the run of the attempt that starts in the state [st] *)
Definition run_of (W : World) (L : Lib) (user_prompt url : string)
  (cfg : settings) (html_content structure_map : string)
  (attempt : nat) (st : loop_state) : attempt_run :=
  match generate_script W attempt
          (request_of L user_prompt url cfg html_content structure_map attempt st) with
  | Raise e => NoRun e
  | Ret answer =>
      match open_write W attempt "scraper.py" (scraper_py answer) with
      | Raise e => NoRun e
      | Ret _ =>
          match open_write W attempt "requirements.txt" (requirements_txt answer) with
          | Raise e => NoRun e
          | Ret _ =>
              Ran answer
                  (run_script_in_dir (subprocess_run W attempt) (files_of answer))
          end
      end
  end.

(** the state in which a loop starts attempt [k]; [None] when it does not
    get that far *)
Fixpoint state_at (body : nat -> loop_state -> step) (st0 : loop_state) (k : nat)
  : option loop_state :=
  match k with
  | O => Some st0
  | S j =>
      match state_at body st0 j with
      | Some st =>
          match body j st with
          | Continue st' => Some st'
          | _ => None
          end
      | None => None
      end
  end.

(** the state in which the job on the page [html_content] starts attempt
    [k], and the run of that attempt *)
Definition job_state (W : World) (L : Lib) (user_prompt url : string)
  (cfg : settings) (html_content : string) (k : nat) : option loop_state :=
  state_at
    (attempt_body W L user_prompt url cfg html_content
       (create_html_structure_map L html_content) ("run_" ++ uuid_hex8 W))
    (initial_state (extract_relevant_html L html_content user_prompt)) k.

Definition job_attempt (W : World) (L : Lib) (user_prompt url : string)
  (cfg : settings) (html_content : string) (k : nat) (st : loop_state)
  : attempt_run :=
  run_of W L user_prompt url cfg html_content
    (create_html_structure_map L html_content) k st.

(** the reason and the standard error that a failed attempt records *)
Definition failure_report (L : Lib) (objective : string) (r : attempt_run)
  : string * string :=
  match r with
  | NoRun e => (reason_unexpected e, e)
  | Ran _ x =>
      (if (exit_code x =? 0) && negb (blank (stdout x))
       then feedback (validate_scraper_results L (stdout x) objective)
       else reason_execution_failed (exit_code x),
       _truncate_preview (stderr x) 2000)
  end.

(** a pass through the body of the loop ends without a [return], with one
    more entry in the history: the excerpt of the attempt, and what [P]
    says *)
Definition recorded (L : Lib) (html_content : string) (attempt : nat)
  (st : loop_state) (s : step) (P : history_entry -> Prop) : Prop :=
  exists st' entry,
    s = break_if_last attempt st'
    /\ history st' = (history st ++ [entry])%list
    /\ h_html_snippet entry = excerpt_of L html_content attempt st
    /\ P entry.

(** where the archive of the job [run_id] is written *)
Definition zip_path_of (W : World) (run_id : string) : string :=
  path_join (path_join (getcwd W) "downloads") (run_id ++ ".zip").

(** what a pass through the body of the loop does, by the run of the
    attempt *)
Definition attempt_outcome (W : World) (L : Lib) (user_prompt html_content run_id : string)
  (attempt : nat) (st : loop_state) (r : attempt_run) (s : step) : Prop :=
  match r with
  | NoRun e =>
      recorded L html_content attempt st s
        (fun entry => h_reason entry = reason_unexpected e
                      /\ h_stdout entry = EmptyString /\ h_stderr entry = e)
  | Ran answer x =>
      let failed (reason : string) :=
        recorded L html_content attempt st s
          (fun entry => h_reason entry = reason
                        /\ h_code entry = scraper_py answer
                        /\ h_stdout entry = _truncate_preview (stdout x) 2000
                        /\ h_stderr entry = _truncate_preview (stderr x) 2000) in
      let packaged (r : string -> job_result) :=
        match zip_write W attempt (files_of answer) with
        | Ret _ =>
            exists st', s = Return (r (zip_path_of W run_id)) st'
                        /\ temp_dir st' = files_of answer
        | Raise e =>
            recorded L html_content attempt st s
              (fun entry => h_reason entry = reason_unexpected e
                            /\ h_code entry = scraper_py answer
                            /\ h_stdout entry = EmptyString /\ h_stderr entry = e)
        end in
      if (exit_code x =? 0) && negb (blank (stdout x))
      then if valid (validate_scraper_results L (stdout x) user_prompt)
           then packaged (JobSuccess msg_success (_truncate_preview (stdout x) 500)
                            (download_url_of run_id))
           else failed (feedback (validate_scraper_results L (stdout x) user_prompt))
      else if contains playwright_marker (lower (stderr x))
           then packaged (JobActionRequired msg_action_required
                            (download_url_of run_id))
           else failed (reason_execution_failed (exit_code x))
  end.

(** the element that the second stage of the reducer searches: the main
    region, else the [body], else the document *)
Definition search_scope_of (soup : elem) : elem :=
  match first_match main_selectors soup with
  | Some area => area
  | None =>
      match find (name_is "body") soup with
      | Some body => body
      | None => soup
      end
  end.

(** no element below the top of a document bears the name of the top;
    a parser gives no element a name that does not start with a letter *)
Definition proper (soup : node) : bool :=
  forallb (fun d => negb (name_is document_name (fst d))) (descendants [] soup).

(** the excerpt of attempt [i] in a job whose first excerpt is [excerpt0] *)
Definition excerpt_at (L : Lib) (html_content excerpt0 : string) (i : nat)
  : string :=
  Nat.iter i (_expand_html_context L html_content) excerpt0.

(** the loop variables after [k] attempts, none of which returned *)
Record after_attempts (L : Lib) (html_content excerpt0 : string) (k : nat)
  (st : loop_state) : Prop := {
  aa_history : List.length (history st) = k;
  aa_snippets : map h_html_snippet (history st)
                = map (excerpt_at L html_content excerpt0) (seq 0 k);
  aa_excerpts : map g_html_content (requests st)
                = map (excerpt_at L html_content excerpt0) (seq 0 k);
  aa_passed : map g_history (requests st)
              = map (fun i => firstn i (history st)) (seq 0 k);
  aa_current : relevant_html st = excerpt_at L html_content excerpt0 (Nat.pred k)
}.

(** the requests of a finished job *)
Definition well_formed_trace (L : Lib) (html_content excerpt0 : string)
  (st : loop_state) : Prop :=
  let n := List.length (requests st) in
  map g_html_content (requests st)
  = map (excerpt_at L html_content excerpt0) (seq 0 n) /\
  map g_history (requests st) = map (fun i => firstn i (history st)) (seq 0 n) /\
  (n <= S (List.length (history st)))%nat.

(* ===================================================================== *)
(** * Pages, outputs and worlds to run the code on                        *)
(* ===================================================================== *)

Module Examples.

Import Reference.

Fixpoint replicate (n : nat) (c : ascii) : string :=
  match n with
  | O => EmptyString
  | S n' => String c (replicate n' c)
  end.

(** [{"a": n}] as [json.dumps] prints it *)
Definition record_text (n : Z) : string :=
  "{" ++ dquote ++ "a" ++ dquote ++ ": " ++ of_int n ++ "}".

Definition three_records : string :=
  "[" ++ join ", " [record_text 1; record_text 2; record_text 3] ++ "]".

Definition six_records : string :=
  "[" ++ join ", " (repeat (record_text 1) 6) ++ "]".

Definition two_lines : string := "line1" ++ nl ++ "line2".

(** a number that no double holds: a one followed by 309 zeros *)
Definition huge_objective : string :=
  "get 1" ++ replicate 309 "0" ++ " items".

(** the number five, written with 4300 zeros before it *)
Definition padded_objective : string :=
  "get " ++ replicate 4300 "0" ++ "5 items".

(** 1100 arrays opened and none closed *)
Definition deep_brackets : string := replicate 1100 "[".

Definition page_without_body : string := "<p>hi</p>".

Definition long_page : string :=
  "<html><body><main>" ++ replicate (76 * 1000) "a" ++ "</main></body></html>".

Definition table_page : string :=
  "<html><body><div><p>hi</p></div><div><div><table><tr><td>a</td><td>b</td></tr></table></div></div></body></html>".

Definition gallery_page : string :=
  "<html><body><div><p><a>L</a></p></div><div><p><img></p></div></body></html>".

Definition table_cells : string := "<table><tr><td>a</td><td>b</td></tr></table>".

(** a page as the reference parser reads it *)
Definition parse (markup : string) : node :=
  match html_parser markup with
  | Ret soup => soup
  | Raise _ => Tag document_name [] []
  end.

Definition table_soup : node := Eval vm_compute in parse table_page.
Definition cells_soup : node := Eval vm_compute in parse table_cells.

Definition url : string := "http://example.test/".

Definition steady_oracle (attempt : nat) (request : gen_request) : res gen_result :=
  Ret {| scraper_py := "print('[]')"; requirements_txt := "requests" |}.

(** the oracle answers once and is out of quota afterwards *)
Definition quota_oracle (attempt : nat) (request : gen_request) : res gen_result :=
  if (attempt =? 0)%nat
  then Ret {| scraper_py := "print(1)"; requirements_txt := "" |}
  else Raise "quota exceeded".

(** a world in which the page is [page], files can be written, [pip]
    succeeds, and the generated script ends as [script] says *)
Definition world_of (page : string)
  (oracle : nat -> gen_request -> res gen_result)
  (script : nat -> proc_outcome) : World :=
  {| getcwd := "/srv/app";
     uuid_hex8 := "0a1b2c3d";
     http_get := fun _ => Fetched page;
     generate_script := oracle;
     open_write := fun _ _ _ => Ret tt;
     subprocess_run :=
       fun attempt c _ =>
         match c with
         | PipInstall => Completed 0 EmptyString EmptyString
         | PythonScraper => script attempt
         end;
     zip_write := fun _ _ => Ret tt |}.

(** the script prints an empty list every time *)
Definition empty_list_world : World :=
  world_of table_page steady_oracle (fun _ => Completed 0 "[]" EmptyString).

(** the script crashes every time *)
Definition crashing_world : World :=
  world_of table_page steady_oracle (fun _ => Completed 1 EmptyString "Traceback").

Definition quota_world : World :=
  world_of table_page quota_oracle (fun _ => Completed 1 EmptyString "Traceback").

(** the script works and warns about the browser on stderr *)
Definition chatty_world : World :=
  world_of table_page steady_oracle
    (fun _ => Completed 0 "done" "hint: run playwright install").

(** the script stops and asks for the browser *)
Definition browserless_world : World :=
  world_of table_page steady_oracle
    (fun attempt =>
       if (attempt =? 0)%nat then Completed 1 EmptyString "Traceback"
       else Completed 1 EmptyString "Please run: Playwright install").

(** [pip] fails with the output [boom] *)
Definition install_failure (c : command) (dir : workdir) : proc_outcome :=
  match c with
  | PipInstall => Completed 1 EmptyString "boom"
  | PythonScraper => Completed 0 "[]" EmptyString
  end.

(** [pip] succeeds, the script prints the same words and exits with 1 *)
Definition script_failure (c : command) (dir : workdir) : proc_outcome :=
  match c with
  | PipInstall => Completed 0 EmptyString EmptyString
  | PythonScraper => Completed 1 EmptyString "Failed to install dependencies: boom"
  end.



End Examples.

(* ===================================================================== *)
(** * [src/gemini_service.py]: [generate_script]                          *)
(* ===================================================================== *)

(** The function behind the field [generate_script] of [World].  Its
    client is a parameter: [api key model prompt] gives the texts of the
    chunks that the client streams for this key, or the exception it
    raises.  The text of the system prompt is a parameter too.  Beside
    what the function returns or raises, the model gives the keys it has
    tried, in order.  Log lines and the pause between two keys are left
    out. *)

Module Gemini.

Definition MODEL_NAME : string := "gemini-2.5-flash".

(** [bool(v)] of a JSON value *)
Definition truthy (v : json) : bool :=
  match v with
  | JNull => false
  | JBool b => b
  | JInt z => negb (z =? 0)
  | JFloat r => negb (String.eqb r "0.0" || String.eqb r "-0.0")
  | JStr s => negb (is_empty s)
  | JList items => match items with [] => false | _ :: _ => true end
  | JDict fields => match fields with [] => false | _ :: _ => true end
  end.

(** [d.get(key, default)] *)
Fixpoint dict_get (key : string) (default : json) (d : list (string * json)) : json :=
  match d with
  | [] => default
  | (k, v) :: rest => if String.eqb k key then v else dict_get key default rest
  end.

Definition type_name (v : json) : string :=
  match v with
  | JNull => "NoneType"
  | JBool _ => "bool"
  | JInt _ => "int"
  | JFloat _ => "float"
  | JStr _ => "str"
  | JList _ => "list"
  | JDict _ => "dict"
  end.

(** the values that [for x in v] visits *)
Definition iterate (v : json) : res (list json) :=
  match v with
  | JList items => Ret items
  | JStr s => Ret (map JStr (chars_of s))
  | JDict fields => Ret (map (fun kv => JStr (fst kv)) fields)
  | _ => Raise ("'" ++ type_name v ++ "' object is not iterable")
  end.

(** [key in v] *)
Definition py_in (key : string) (v : json) : res bool :=
  match v with
  | JDict fields => Ret (existsb (fun kv => String.eqb (fst kv) key) fields)
  | JList items =>
      Ret (existsb (fun x => match x with JStr s => String.eqb s key | _ => false end)
                   items)
  | JStr s => Ret (contains key s)
  | _ => Raise ("argument of type '" ++ type_name v ++ "' is not iterable")
  end.

(** the computation of [masked_key], which stands outside the [try]: it
    is kept for the exception it can raise.  An object with more than
    eight fields cannot be sliced; the text of that exception is the one of
    Python before 3.12. *)
Definition mask_check (api_key : json) : res unit :=
  match api_key with
  | JStr _ | JList _ => Ret tt
  | JDict fields =>
      if 8 <? Z.of_nat (List.length fields)
      then Raise "unhashable type: 'slice'" else Ret tt
  | _ => Raise ("object of type '" ++ type_name api_key ++ "' has no len()")
  end.

(** the block of the prompt that renders the history *)
Fixpoint history_blocks (i : Z) (history : list history_entry) : string :=
  match history with
  | [] => EmptyString
  | turn :: rest =>
      "<ATTEMPT_" ++ of_int (i + 1) ++ "_FAILED>" ++ nl
      ++ "REASON_FOR_FAILURE: " ++ h_reason turn ++ nl
      ++ "FAILED_CODE:" ++ nl ++ "```python" ++ nl ++ h_code turn ++ nl ++ "```" ++ nl
      ++ "STDOUT:" ++ nl ++ "```" ++ nl ++ h_stdout turn ++ nl ++ "```" ++ nl
      ++ "STDERR:" ++ nl ++ "```" ++ nl ++ h_stderr turn ++ nl ++ "```" ++ nl
      ++ "</ATTEMPT_" ++ of_int (i + 1) ++ "_FAILED>" ++ nl
      ++ history_blocks (i + 1) rest
  end.

Definition history_str (history : list history_entry) : string :=
  nl ++ nl ++ "<CONVERSATION_HISTORY>" ++ nl
  ++ history_blocks 0 history
  ++ "</CONVERSATION_HISTORY>" ++ nl.

Definition please_analyze : string :=
  nl ++ "Please analyze the conversation history and generate an improved version that addresses all the issues mentioned, following the instructions in the <self_correction> section.".

(** [full_prompt]; the text of the system prompt is a parameter *)
Definition full_prompt (system_prompt prompt url html_content : string)
  (history : list history_entry) (structure_map : option string) : string :=
  let opening : list string :=
    [system_prompt; nl ++ "TARGET_URL: " ++ url; nl ++ "USER_REQUEST: " ++ prompt] in
  let map_part : list string :=
    match structure_map with
    | Some m => if is_empty m then [] else [nl ++ "HTML_STRUCTURE_MAP:" ++ nl ++ m]
    | None => []
    end in
  let snapshot : list string := [nl ++ "HTML_SNAPSHOT:" ++ nl ++ html_content] in
  let history_part : list string :=
    match history with
    | [] => []
    | _ :: _ => [history_str history; please_analyze]
    end in
  join nl (opening ++ map_part ++ snapshot ++ history_part)%list.

Definition msg_no_keys : string := "No API keys provided in settings.".
Definition msg_all_failed : string :=
  "All available API keys failed. Please check your keys or the server logs.".

(** The body of the [try] for one key.  [api key model prompt] is the
    client: the texts of the chunks it streams, or the exception it
    raises. *)
Definition attempt_with_key (api : json -> json -> string -> res (list string))
  (L : Lib) (model_name : json) (prompt_text : string) (api_key : json) : res json :=
  if negb (truthy api_key) then Raise "API key is not provided"
  else
    chunks <- api api_key model_name prompt_text ;;
    let full_response_text := String.concat EmptyString chunks in
    if is_empty (strip full_response_text)
    then Raise "Received an empty response from the API."
    else
      match json_loads L full_response_text with
      | JSONDecodeError => Raise "JSONDecodeError"
      | JsonRaise msg => Raise msg
      | JsonOk result =>
          has_script <- py_in "scraper_py" result ;;
          if negb has_script
          then Raise "Invalid response structure: missing required keys"
          else
            has_requirements <- py_in "requirements_txt" result ;;
            if negb has_requirements
            then Raise "Invalid response structure: missing required keys"
            else Ret result
      end.

(** the loop over the keys: what the function returns or raises, and the
    keys it has tried *)
Fixpoint try_keys (api : json -> json -> string -> res (list string))
  (L : Lib) (model_name : json) (prompt_text : string) (keys : list json)
  : res json * list json :=
  match keys with
  | [] => (Raise msg_all_failed, [])
  | api_key :: rest =>
      match mask_check api_key with
      | Raise e => (Raise e, [])
      | Ret _ =>
          match attempt_with_key api L model_name prompt_text api_key with
          | Ret result => (Ret result, [api_key])
          | Raise _ =>
              let '(r, tried) := try_keys api L model_name prompt_text rest in
              (r, api_key :: tried)
          end
      end
  end.

Definition generate_script (api : json -> json -> string -> res (list string))
  (L : Lib) (system_prompt prompt url html_content : string) (cfg : settings)
  (history : list history_entry) (structure_map : option string)
  : res json * list json :=
  let api_keys := dict_get "apiKeys" (JList []) cfg in
  let model_name := dict_get "model" (JStr MODEL_NAME) cfg in
  if negb (truthy api_keys) then (Raise msg_no_keys, [])
  else
    let prompt_text :=
      full_prompt system_prompt prompt url html_content history structure_map in
    match iterate api_keys with
    | Raise e => (Raise e, [])
    | Ret keys => try_keys api L model_name prompt_text keys
    end.

End Gemini.

(* ===================================================================== *)
(** * Vocabulary of the further statements                                *)
(* ===================================================================== *)

(** what the requests of a job that has made [k] attempts carry *)
Definition requests_so_far (user_prompt url : string) (cfg : settings)
  (structure_map : string) (k : nat) (st : loop_state) : Prop :=
  Forall (fun q => g_prompt q = user_prompt /\ g_url q = url /\ g_settings q = cfg)
         (requests st)
  /\ map g_structure_map (requests st)
     = map (fun i => if (i =? 0)%nat then Some structure_map else None) (seq 0 k).

Definition samples_bounded (st : loop_state) : Prop :=
  Forall (fun e => len (h_stdout e) <= 2003) (history st).

(** the loop variables after [k] attempts, with what the requests carry
    and how long the samples are *)
Definition progress (L : Lib) (user_prompt url : string) (cfg : settings)
  (html_content structure_map excerpt0 : string) (k : nat) (st : loop_state)
  : Prop :=
  after_attempts L html_content excerpt0 k st
  /\ requests_so_far user_prompt url cfg structure_map k st
  /\ samples_bounded st.

(** the attempt that ended the job returned with an archive of the
    working directory, for a run that passed validation or for a run that
    left the marker *)
Definition last_attempt_returned (W : World) (L : Lib)
  (user_prompt run_id : string) (k : nat) (run : job_run) : Prop :=
  exists x zip_path,
    x = run_script_in_dir (subprocess_run W k) (temp_dir (final run)) /\
    _create_zip_package W k (temp_dir (final run)) run_id = Ret zip_path /\
    if (exit_code x =? 0) && negb (is_empty (strip (stdout x)))
    then valid (validate_scraper_results L (stdout x) user_prompt) = true /\
         result run
         = JobSuccess msg_success (_truncate_preview (stdout x) 500)
             (download_url_of run_id) zip_path
    else contains playwright_marker (lower (stderr x)) = true /\
         result run
         = JobActionRequired msg_action_required (download_url_of run_id) zip_path.

(** what holds of every job that went into the loop *)
Definition job_report (W : World) (L : Lib) (user_prompt url : string)
  (cfg : settings) (structure_map run_id : string) (run : job_run) : Prop :=
  let st := final run in
  requests_so_far user_prompt url cfg structure_map (List.length (requests st)) st
  /\ samples_bounded st
  /\ map h_html_snippet (history st)
     = firstn (List.length (history st)) (map g_html_content (requests st))
  /\ ((List.length (requests st) = max_attempts
       /\ List.length (history st) = max_attempts
       /\ result run = result (after_loop st))
      \/ exists k, (k < max_attempts)%nat
                   /\ List.length (requests st) = S k
                   /\ List.length (history st) = k
                   /\ last_attempt_returned W L user_prompt run_id k run).

(** a child that the structure map lists: a tag with a name *)
Definition named_tag (n : node) : bool :=
  match n with
  | Tag name _ _ => negb (is_empty name)
  | NavigableString _ _ => false
  end.

(** the line that stands for the children that the map leaves out *)
Definition more_marker (indent : string) : string :=
  indent ++ "  [...and more...]" ++ nl.

(** the count rule of the validator lets a list through *)
Definition count_rule_passes (objective : string) (data : list json) : Prop :=
  match search_digits objective with
  | None => True
  | Some digits =>
      (requested_count <- py_int digits ;;
       lt_half (Z.of_nat (List.length data)) requested_count) = Ret false
  end.

(** the test of the image rule on one record *)
Definition shows_url (item : json) : bool :=
  contains "url" (lower (py_str item)) || contains "http" (py_str item).

(** [key in v] holds *)
Definition has_field (key : string) (v : json) : Prop :=
  Gemini.py_in key v = Ret true.

(** a history entry without the excerpt it was made with *)
Definition without_snippet (e : history_entry) : history_entry :=
  {| h_reason := h_reason e; h_code := h_code e; h_stdout := h_stdout e;
     h_stderr := h_stderr e; h_html_snippet := EmptyString |}.

(* ===================================================================== *)
(** * Further inputs to run the code on                                   *)
(* ===================================================================== *)

Module MoreExamples.

Import Reference Examples.

(** [pip] fails, and the script would run into the time limit *)
Definition install_failure_then_timeout (c : command) (dir : workdir) : proc_outcome :=
  match c with
  | PipInstall => Completed 1 EmptyString "boom"
  | PythonScraper => TimeoutExpired
  end.

(** a list of twelve items *)
Definition long_list : node := Tag "ul" [] (repeat (Tag "li" [] []) 12).

Definition one_link : string := "[" ++ dquote ++ "http://x/a.png" ++ dquote ++ "]".

(** a paragraph with a CDATA section and a comment between its words *)
Definition cdata_paragraph : node :=
  Tag "p" []
    [NavigableString KText "a"; NavigableString KCData "b";
     NavigableString (KPre "<!--" "-->") "no"; NavigableString KText "c"].

Definition page_with_script : string :=
  "<html><body><script>x</script><p>hi</p></body></html>".

Definition script_soup : node := Eval vm_compute in parse page_with_script.

Definition table_body : string :=
  "<body><div><p>hi</p></div><div><div><table><tr><td>a</td><td>b</td></tr></table></div></div></body>".

Definition body_soup : node := Eval vm_compute in parse table_body.

(** the answer of the model: an object with the two fields *)
Definition answer : string :=
  "{" ++ dquote ++ "scraper_py" ++ dquote ++ ": " ++ dquote ++ "print(1)" ++ dquote
  ++ ", " ++ dquote ++ "requirements_txt" ++ dquote ++ ": " ++ dquote ++ dquote ++ "}".

(** a client that accepts the key [good] only *)
Definition picky_api (key model : json) (prompt : string) : res (list string) :=
  match key with
  | JStr "good" => Ret [answer]
  | _ => Raise "403"
  end.

Definition two_keys : settings := [("apiKeys", JList [JStr "bad"; JStr "good"])].
Definition bad_keys : settings := [("apiKeys", JList [JStr "bad"; JStr "worse"])].

Definition failure_with (snippet : string) : history_entry :=
  {| h_reason := "The scraper returned an empty list."; h_code := "print('[]')";
     h_stdout := "[]"; h_stderr := EmptyString; h_html_snippet := snippet |}.

(** what the reference parser makes of [answer] *)
Definition parsed_answer : json :=
  Eval vm_compute in
    match json_loads lib answer with
    | JsonOk v => v
    | _ => JNull
    end.

(** the [p] element of [page_with_script] after the clean-up *)
Definition paragraph : elem :=
  Eval vm_compute in
    match find (name_is "p") (root (decompose_all non_content_tags script_soup)) with
    | Some e => e
    | None => root script_soup
    end.

Definition no_request : gen_request :=
  {| g_prompt := EmptyString; g_url := EmptyString; g_html_content := EmptyString;
     g_settings := []; g_history := []; g_structure_map := None |}.

(** the second request and the second failure of the job in which the
    script crashes every time *)
Definition second_request : gen_request :=
  Eval vm_compute in
    nth 1 (requests (final (run_scraping_job crashing_world lib "get the table" url [])))
        no_request.

Definition second_failure : history_entry :=
  Eval vm_compute in
    nth 1 (history (final (run_scraping_job crashing_world lib "get the table" url [])))
        empty_entry.

End MoreExamples.

(* ===================================================================== *)
(** * Properties                                                          *)
(* ===================================================================== *)

(** ** Strings *)

Lemma lstrip_blank s : is_empty (lstrip s) = blank s.
Proof.
  induction s as [|c s IH]; simpl; [reflexivity|].
  destruct (isspace c); simpl; [exact IH | reflexivity].
Qed.

Lemma rstrip_blank s : blank (rstrip s) = blank s.
Proof.
  induction s as [|c s IH]; simpl; [reflexivity|].
  destruct (is_empty (rstrip s)) eqn:E, (isspace c) eqn:Hc; simpl;
    rewrite ?Hc; try rewrite IH; try reflexivity.
  destruct (rstrip s); [exact IH | discriminate].
Qed.

(** [s.strip()] is empty exactly when [s] has no visible character *)
Lemma strip_blank s : is_empty (strip s) = blank s.
Proof. unfold strip. now rewrite lstrip_blank, rstrip_blank. Qed.

Lemma lstrip_head s :
  lstrip s = EmptyString \/ exists c t, lstrip s = String c t /\ isspace c = false.
Proof.
  induction s as [|c s IH]; simpl; [now left|].
  destruct (isspace c) eqn:Hc; [exact IH | right; eauto].
Qed.

Lemma strip_visible c t : isspace c = false -> is_empty (strip (String c t)) = false.
Proof. intros Hc. rewrite strip_blank. simpl. now rewrite Hc. Qed.

Lemma split_on_head c t :
  isspace c = false ->
  exists h rest, split_on (ascii_of_nat 10) (String c t) = String c h :: rest.
Proof.
  intros Hc. simpl.
  destruct (Ascii.eqb c (ascii_of_nat 10)) eqn:E.
  - apply Ascii.eqb_eq in E. subst c. discriminate Hc.
  - destruct (split_on (ascii_of_nat 10) t); eauto.
Qed.

(** the first line of a stripped, non-empty output is visible *)
Lemma some_line_visible s :
  blank s = false ->
  existsb (fun line => negb (is_empty (strip line)))
          (split_on (ascii_of_nat 10) (strip s)) = true.
Proof.
  intros Hs. rewrite <- strip_blank in Hs.
  destruct (lstrip_head (rstrip s)) as [E | (c & t & E & Hc)];
    change (lstrip (rstrip s)) with (strip s) in E; rewrite E in *.
  - discriminate.
  - destruct (split_on_head c t Hc) as (h & rest & ->).
    cbn [existsb]. now rewrite (strip_visible _ _ Hc).
Qed.

Lemma split_on_length sep s : (0 < List.length (split_on sep s))%nat.
Proof.
  destruct s as [|c s]; simpl; [lia|].
  destruct (Ascii.eqb c sep); simpl; [lia|].
  destruct (split_on sep s); simpl; lia.
Qed.

Lemma len_append s t : len (s ++ t) = len s + len t.
Proof.
  unfold len. rewrite <- Nat2Z.inj_add. f_equal.
  induction s as [|c s IH]; simpl; [reflexivity | now rewrite IH].
Qed.

Lemma length_substring_le n : forall s, (String.length (substring 0 n s) <= n)%nat.
Proof.
  induction n as [|n IH]; intros [|c s]; simpl; try lia.
  specialize (IH s). lia.
Qed.

Lemma length_substring_all n : forall s,
  (n <= String.length s)%nat -> String.length (substring 0 n s) = n.
Proof.
  induction n as [|n IH]; intros [|c s] H; simpl in *; try lia.
  rewrite IH; lia.
Qed.

Lemma len_take_le n s : 0 <= n -> len (take n s) <= n.
Proof.
  intros Hn. unfold len, take.
  pose proof (length_substring_le (Z.to_nat n) s). lia.
Qed.

Lemma len_take_all n s : 0 <= n <= len s -> len (take n s) = n.
Proof.
  unfold len, take. intros Hn.
  rewrite length_substring_all; lia.
Qed.

(** ** Floats *)

Lemma float_of_int_small n : n < 2 ^ 53 -> float_of_int n = Ret n.
Proof.
  intros Hn. unfold float_of_int.
  assert (Z.log2 n + 1 <= 53) as Hb.
  { destruct (Z.le_gt_cases n 0) as [Hle | Hpos].
    - rewrite (Z.log2_nonpos n Hle). lia.
    - assert (Z.log2 n < 53) by (apply Z.log2_lt_pow2; lia). lia. }
  apply Z.leb_le in Hb. now rewrite Hb.
Qed.

(** below the threshold of overflow a conversion succeeds, and a large
    integer stays large *)
Lemma float_of_int_large n :
  2 ^ 53 <= n -> n < 2 ^ 1024 - 2 ^ 970 ->
  exists f, float_of_int n = Ret f /\ 2 ^ 53 <= f.
Proof.
  intros Hlo Hhi. unfold float_of_int.
  assert (0 < n) as Hpos by lia.
  pose proof (Z.log2_spec n Hpos) as [Hb1 Hb2].
  assert (53 <= Z.log2 n) as Hb53 by (apply Z.log2_le_pow2; lia).
  assert (Z.log2 n < 1024) as Hb1024 by (apply Z.log2_lt_pow2; lia).
  set (b := Z.log2 n) in *.
  destruct (b + 1 <=? 53) eqn:E; [apply Z.leb_le in E; lia|]. clear E.
  replace (b + 1 - 53) with (b - 52) by lia.
  set (e := b - 52).
  assert (1 <= e <= 971) as He by (unfold e; lia).
  rewrite Z.shiftr_div_pow2 by lia.
  rewrite !Z.shiftl_mul_pow2 by lia.
  set (P := 2 ^ e).
  set (half := 2 ^ (e - 1)).
  assert (P = 2 * half) as HP.
  { unfold P, half. replace e with (1 + (e - 1)) at 1 by lia.
    rewrite Z.pow_add_r by lia. reflexivity. }
  assert (0 < half) as Hhalf by (unfold half; apply Z.pow_pos_nonneg; lia).
  assert (half <= 2 ^ 970) as Hhalf970
    by (unfold half; apply Z.pow_le_mono_r; lia).
  assert (2 ^ b = 2 ^ 52 * P) as HbP.
  { unfold P, e. rewrite <- Z.pow_add_r by lia. f_equal. lia. }
  set (q := n / P).
  assert (P * q <= n < P * q + P) as Hq.
  { pose proof (Z.div_mod n P ltac:(lia)) as Hdm.
    pose proof (Z.mod_pos_bound n P ltac:(lia)) as Hm.
    fold q in Hdm. lia. }
  assert (2 ^ 52 <= q) as Hq52.
  { unfold q. apply Z.div_le_lower_bound; lia. }
  rewrite Z.mul_1_l.
  set (r := n - q * P).
  set (q' := if (half <? r) || ((r =? half) && Z.odd q) then q + 1 else q).
  assert (q <= q' /\ q' * P <= n + half) as [Hq'1 Hq'2].
  { unfold q'. destruct ((half <? r) || ((r =? half) && Z.odd q)) eqn:Hround.
    - split; [lia|].
      assert (half <= r) as Hr.
      { apply orb_true_iff in Hround as [H | H].
        - apply Z.ltb_lt in H. lia.
        - apply andb_true_iff in H as [H _]. apply Z.eqb_eq in H. lia. }
      unfold r in Hr. lia.
    - split; [lia|]. lia. }
  destruct (2 ^ 1024 <=? q' * P) eqn:Eov.
  - apply Z.leb_le in Eov. lia.
  - eexists; split; [reflexivity|].
    assert (2 ^ 52 * P <= q' * P) by (apply Z.mul_le_mono_nonneg_r; lia).
    lia.
Qed.

(** where the count and the number are of a size that occurs, the test
    [count < n * 0.5] is the test of the integers *)
Lemma lt_half_exact count n :
  0 <= count < 2 ^ 52 -> n < 2 ^ 1024 - 2 ^ 970 ->
  lt_half count n = Ret (2 * count <? n).
Proof.
  intros Hc Hn. unfold lt_half.
  destruct (Z.lt_ge_cases n (2 ^ 53)) as [Hs | Hl].
  - now rewrite float_of_int_small.
  - destruct (float_of_int_large n Hl Hn) as (f & -> & Hf). cbn [bind]. f_equal.
    transitivity true; [apply Z.ltb_lt | symmetry; apply Z.ltb_lt]; lia.
Qed.

(** ** Previews *)

Lemma len_truncate_preview data m : 0 <= m -> len (_truncate_preview data m) <= m + 3.
Proof.
  intros Hm. unfold _truncate_preview.
  destruct (len data <=? m) eqn:E.
  - apply Z.leb_le in E. lia.
  - apply Z.leb_gt in E. rewrite len_append, len_take_all by lia. cbn. lia.
Qed.

Lemma prefix_substring n : forall s, prefix (substring 0 n s) s = true.
Proof.
  induction n as [|n IH]; intros [|c s]; cbn; auto.
  rewrite IH. destruct (ascii_dec c c); [reflexivity | congruence].
Qed.

(** X1.  A preview is at most three characters longer than the limit.
    Data that fits is returned as it is; data that does not fit is cut to
    the limit, and three dots are added. *)
Theorem preview_is_bounded (data : string) (max_length : Z) :
  0 <= max_length ->
  len (_truncate_preview data max_length) <= max_length + 3
  /\ (len data <= max_length -> _truncate_preview data max_length = data)
  /\ (max_length < len data ->
      exists kept, _truncate_preview data max_length = kept ++ "..."
                   /\ len kept = max_length /\ prefix kept data = true).
Proof.
  intros Hm. split; [now apply len_truncate_preview|].
  unfold _truncate_preview.
  destruct (len data <=? max_length) eqn:E.
  - apply Z.leb_le in E. split; [reflexivity | lia].
  - apply Z.leb_gt in E. split; [lia|].
    intros _. exists (take max_length data). split; [reflexivity|].
    split; [apply len_take_all; lia | apply prefix_substring].
Qed.

Lemma preview_is_bounded_witness :
  len (_truncate_preview "abcdefgh" 5) <= 8
  /\ exists kept, _truncate_preview "abcdefgh" 5 = kept ++ "..."
                  /\ len kept = 5 /\ prefix kept "abcdefgh" = true.
Proof.
  destruct (preview_is_bounded "abcdefgh" 5) as (H1 & _ & H3); [lia|].
  split; [exact H1 | apply H3; reflexivity].
Defined.

(** ** The validator *)

Lemma image_rule_some data objective v :
  image_rule data objective = Some v ->
  v = {| valid := false; feedback := fb_no_urls |}.
Proof.
  unfold image_rule.
  repeat match goal with
         | |- context [if ?b then _ else _] => destruct b
         end; congruence.
Qed.

(** no way through the list branch ends in the generic verdict *)
Lemma validate_list_not_generic data objective :
  try_except (validate_list data objective)
             (fun e => {| valid := false; feedback := fb_error e |})
  <> generic_verdict.
Proof.
  unfold validate_list, lt_half, bind, generic_verdict.
  destruct (Z.of_nat (List.length data) =? 0); [cbn; discriminate|].
  destruct (search_digits objective) as [digits|].
  - destruct (py_int digits) as [requested_count|msg]; [|cbn; discriminate].
    destruct (float_of_int requested_count) as [f|msg]; [|cbn; discriminate].
    destruct (2 * Z.of_nat (List.length data) <? f); [cbn; discriminate|].
    destruct (image_rule data objective) as [v|] eqn:E; cbn; [|discriminate].
    apply image_rule_some in E. subst v. discriminate.
  - destruct (image_rule data objective) as [v|] eqn:E; cbn; [|discriminate].
    apply image_rule_some in E. subst v. discriminate.
Qed.

(** C10, amended.  An output with a visible character that [json.loads]
    rejects with [JSONDecodeError] is valid, and the feedback gives the
    number of its lines.  An output on which [json.loads] raises another
    exception is invalid, and the feedback gives the text of the exception.
    The generic invalid verdict is returned exactly for an output (with a
    visible character) that parses to a JSON value which is neither a list
    nor an object. *)
Theorem plain_text_is_accepted (L : Lib) (out objective : string) :
  (json_loads L out = JSONDecodeError -> blank out = false ->
   validate_scraper_results L out objective =
   {| valid := true;
      feedback := fb_lines (Z.of_nat (List.length
                    (split_on (ascii_of_nat 10) (strip out)))) |})
  /\
  (forall msg, json_loads L out = JsonRaise msg -> blank out = false ->
   validate_scraper_results L out objective
   = {| valid := false; feedback := fb_error msg |})
  /\
  (validate_scraper_results L out objective = generic_verdict
   <-> blank out = false /\
       exists v, json_loads L out = JsonOk v /\ scalar v = true).
Proof.
  split; [|split].
  - intros Hj Hb. unfold validate_scraper_results.
    rewrite strip_blank, Hb, Hj. cbn [try_except].
    rewrite (some_line_visible _ Hb).
    pose proof (split_on_length (ascii_of_nat 10) (strip out)) as Hlen.
    destruct (0 <? Z.of_nat _) eqn:E; [reflexivity|].
    apply Z.ltb_ge in E. lia.
  - intros msg Hj Hb. unfold validate_scraper_results.
    rewrite strip_blank, Hb, Hj. reflexivity.
  - unfold validate_scraper_results. rewrite strip_blank.
    destruct (blank out) eqn:Hb.
    + cbn. split; [discriminate | intros [H _]; discriminate].
    + destruct (json_loads L out) as [v | | msg] eqn:Hj.
      * destruct v as [ | b | z | r | s | items | fields];
          try (cbn; split;
               [intros _; split; [reflexivity|eexists; split; reflexivity]
               | reflexivity]).
        -- split.
           ++ intros H. now apply validate_list_not_generic in H.
           ++ intros [_ (v & Hv & Hs)]. injection Hv as <-. discriminate.
        -- split.
           ++ destruct fields; cbn; discriminate.
           ++ intros [_ (v & Hv & Hs)]. injection Hv as <-. discriminate.
      * rewrite (some_line_visible _ Hb).
        pose proof (split_on_length (ascii_of_nat 10) (strip out)) as Hlen.
        destruct (0 <? Z.of_nat _) eqn:E; [|apply Z.ltb_ge in E; lia].
        cbn. split; [discriminate | intros [_ (v & Hv & _)]; discriminate].
      * cbn. split; [discriminate | intros [_ (v & Hv & _)]; discriminate].
Qed.

(** Two lines of plain text are valid, and so reported. *)
Lemma plain_text_is_accepted_witness :
  validate_scraper_results Reference.lib Examples.two_lines "get text"
  = {| valid := true; feedback := "Successfully extracted 2 lines of data" |}.
Proof.
  apply (proj1 (plain_text_is_accepted Reference.lib Examples.two_lines "get text"));
    reflexivity.
Defined.

(** C10 as stated fails: 1100 opening brackets have a visible character
    and are no JSON, yet they are not accepted as plain text.  [json.loads]
    runs out of stack before it finds the text broken, and the verdict is
    invalid, with the text of that error. *)
Lemma deep_brackets_are_rejected :
  blank Examples.deep_brackets = false
  /\ json_loads Reference.lib Examples.deep_brackets
     = JsonRaise "maximum recursion depth exceeded while decoding a JSON array from a unicode string"
  /\ validate_scraper_results Reference.lib Examples.deep_brackets "get text"
     = {| valid := false;
          feedback := "Error validating results: maximum recursion depth exceeded while decoding a JSON array from a unicode string" |}.
Proof.
  split; [|split]; vm_compute; reflexivity.
Qed.

(** C5, amended.  Let an output with a visible character parse as a JSON
    list of fewer than 2^52 records, and let the first decimal number [N]
    of the objective be written with at most 4300 digits and be one that a
    double can hold.  An empty list is invalid.  A list that is not empty
    is invalid, with the two counts in the feedback, when its length is
    below [N * 0.5]; it is valid, with its length in the feedback, when its
    length is at least [N * 0.5] and the image rule does not reject it. *)
Theorem requested_count_rule (L : Lib) (out objective digits : string)
  (data : list json) :
  blank out = false ->
  json_loads L out = JsonOk (JList data) ->
  search_digits objective = Some digits ->
  len digits <= 4300 ->
  int_of_digits digits < 2 ^ 1024 - 2 ^ 970 ->
  Z.of_nat (List.length data) < 2 ^ 52 ->
  let N := int_of_digits digits in
  let count := Z.of_nat (List.length data) in
  let verdict := validate_scraper_results L out objective in
  (data = [] -> verdict = {| valid := false; feedback := fb_empty_list |}) /\
  (data <> [] -> 2 * count < N ->
   verdict = {| valid := false; feedback := fb_only_found count N |}) /\
  (data <> [] -> N <= 2 * count -> image_rule data objective = None ->
   verdict = {| valid := true; feedback := fb_items count |}).
Proof.
  intros Hb Hj Hd Hdigits HN Hc N count verdict.
  assert (Hv : verdict
               = try_except (validate_list data objective)
                   (fun e => {| valid := false; feedback := fb_error e |})).
  { unfold verdict, validate_scraper_results. now rewrite strip_blank, Hb, Hj. }
  assert (Hint : py_int digits = Ret N).
  { unfold py_int, int_max_str_digits.
    destruct (4300 <? len digits) eqn:E; [apply Z.ltb_lt in E; lia | reflexivity]. }
  rewrite Hv. unfold validate_list. rewrite Hd, Hint. fold count.
  cbn [bind].
  rewrite (lt_half_exact count N) by (unfold count, N; lia).
  cbn [bind].
  split; [|split].
  - intros ->. reflexivity.
  - intros Hne Hlt.
    destruct (count =? 0) eqn:E0.
    + apply Z.eqb_eq in E0. destruct data; [congruence | discriminate E0].
    + apply Z.ltb_lt in Hlt. rewrite Hlt. reflexivity.
  - intros Hne Hge Himg.
    destruct (count =? 0) eqn:E0.
    + apply Z.eqb_eq in E0. destruct data; [congruence | discriminate E0].
    + apply Z.ltb_ge in Hge. rewrite Hge. cbn. now rewrite Himg.
Qed.

(** An empty list, three records where ten are asked for, six records
    where five are asked for. *)
Lemma requested_count_rule_witness :
  validate_scraper_results Reference.lib "[]" "get 5 items"
  = {| valid := false; feedback := fb_empty_list |}
  /\ validate_scraper_results Reference.lib Examples.three_records "get 10 items"
     = {| valid := false;
          feedback := "Only found 3 items, but 10 were requested. The scraper may need better selectors." |}
  /\ validate_scraper_results Reference.lib Examples.six_records "get 5 items"
     = {| valid := true; feedback := "Successfully extracted 6 items" |}.
Proof.
  split; [|split].
  - apply (requested_count_rule Reference.lib "[]" "get 5 items" "5" []);
      try reflexivity; vm_compute; discriminate.
  - apply (requested_count_rule Reference.lib Examples.three_records
             "get 10 items" "10"
             [JDict [("a", JInt 1)]; JDict [("a", JInt 2)]; JDict [("a", JInt 3)]]);
      try reflexivity; try discriminate; vm_compute; discriminate.
  - apply (requested_count_rule Reference.lib Examples.six_records
             "get 5 items" "5" (repeat (JDict [("a", JInt 1)]) 6));
      try reflexivity; try discriminate; vm_compute; discriminate.
Defined.

(** C5 as stated fails three times.  Nothing is less than half of zero,
    yet an empty list is invalid when zero items are asked for.  One record
    against a number too large for a double is invalid with the text of an
    arithmetic error as feedback, not with the counts.  And six records
    against the number five written with 4301 digits are invalid, with the
    text of a conversion error, although six is more than half of five. *)
Lemma requested_count_rule_fails :
  (json_loads Reference.lib "[]" = JsonOk (JList [])
   /\ search_digits "get 0 items" = Some "0"
   /\ image_rule [] "get 0 items" = None
   /\ int_of_digits "0" <= 2 * Z.of_nat (List.length (@nil json))
   /\ valid (validate_scraper_results Reference.lib "[]" "get 0 items") = false)
  /\
  (json_loads Reference.lib ("[" ++ Examples.record_text 1 ++ "]")
   = JsonOk (JList [JDict [("a", JInt 1)]])
   /\ option_map int_of_digits (search_digits Examples.huge_objective)
      = Some (10 ^ 309)
   /\ validate_scraper_results Reference.lib ("[" ++ Examples.record_text 1 ++ "]")
        Examples.huge_objective
      = {| valid := false;
           feedback := "Error validating results: int too large to convert to float" |})
  /\
  (json_loads Reference.lib Examples.six_records
   = JsonOk (JList (repeat (JDict [("a", JInt 1)]) 6))
   /\ option_map int_of_digits (search_digits Examples.padded_objective) = Some 5
   /\ option_map len (search_digits Examples.padded_objective) = Some 4301
   /\ validate_scraper_results Reference.lib Examples.six_records
        Examples.padded_objective
      = {| valid := false;
           feedback := "Error validating results: Exceeds the limit (4300 digits) for integer string conversion: value has 4301 digits; use sys.set_int_max_str_digits() to increase the limit" |}).
Proof.
  split; [|split].
  - repeat split; try reflexivity; try discriminate; vm_compute; reflexivity.
  - split; [|split]; vm_compute; reflexivity.
  - split; [|split; [|split]]; vm_compute; reflexivity.
Qed.

(** ** The execution adapter *)

(** C8, amended.  [run_script_in_dir] is a total function into the records
    [{stdout, stderr, exit_code}].  A script that ran is returned as it
    ended, whatever its exit code.  A time-out of either subprocess is
    returned with exit code 1 and the fixed message.  A failed [pip] is
    returned with exit code 1, no output, and a message that starts with
    "Failed to install dependencies: ", which is not the record of a
    time-out; any other exception is returned with its own message. *)
Theorem run_script_in_dir_outcomes
  (run : command -> workdir -> proc_outcome) (path : workdir) :
  let r := run_script_in_dir run path in
  (forall out err rc script_out script_err,
     run PipInstall path = Completed 0 out err ->
     run PythonScraper path = Completed rc script_out script_err ->
     r = {| stdout := script_out; stderr := script_err; exit_code := rc |})
  /\
  (run PipInstall path = TimeoutExpired \/
   (exists out err, run PipInstall path = Completed 0 out err
                    /\ run PythonScraper path = TimeoutExpired) ->
   r = timeout_result)
  /\
  (forall rc out err,
     run PipInstall path = Completed rc out err -> rc <> 0 ->
     r = {| stdout := EmptyString;
            stderr := "Failed to install dependencies: " ++ strip (err ++ nl ++ out);
            exit_code := 1 |}
     /\ r <> timeout_result)
  /\
  (forall msg,
     run PipInstall path = ProcError msg \/
     (exists out err, run PipInstall path = Completed 0 out err
                      /\ run PythonScraper path = ProcError msg) ->
     r = {| stdout := EmptyString; stderr := msg; exit_code := 1 |}).
Proof.
  cbv zeta. unfold run_script_in_dir. split; [|split; [|split]].
  - intros out err rc so se Hp Hs. now rewrite Hp, Hs.
  - intros [Hp | (out & err & Hp & Hs)]; [now rewrite Hp | now rewrite Hp, Hs].
  - intros rc out err Hp Hrc. rewrite Hp.
    destruct (rc =? 0) eqn:E; [apply Z.eqb_eq in E; contradiction|].
    split; [reflexivity|]. cbn. unfold timeout_result. discriminate.
  - intros msg [Hp | (out & err & Hp & Hs)]; [now rewrite Hp | now rewrite Hp, Hs].
Qed.

(** A crash of the script, a time-out of [pip], a failure of [pip]. *)
Lemma run_script_in_dir_outcomes_witness :
  run_script_in_dir (subprocess_run Examples.crashing_world 0) empty_dir
  = {| stdout := EmptyString; stderr := "Traceback"; exit_code := 1 |}
  /\ run_script_in_dir (fun _ _ => TimeoutExpired) empty_dir = timeout_result
  /\ run_script_in_dir Examples.install_failure empty_dir
     = {| stdout := EmptyString; stderr := "Failed to install dependencies: boom";
          exit_code := 1 |}.
Proof.
  split; [|split].
  - apply (proj1 (run_script_in_dir_outcomes
                    (subprocess_run Examples.crashing_world 0) empty_dir)
             EmptyString EmptyString 1 EmptyString "Traceback"); reflexivity.
  - apply (proj1 (proj2 (run_script_in_dir_outcomes
                           (fun _ _ => TimeoutExpired) empty_dir))).
    left. reflexivity.
  - apply (proj1 (proj2 (proj2 (run_script_in_dir_outcomes
                                  Examples.install_failure empty_dir)))
             1 EmptyString "boom"); [reflexivity | discriminate].
Defined.

(** C8 as stated fails: a failure of [pip] and a failure of the script can
    come back as one and the same record. *)
Lemma install_failure_is_not_distinct :
  (exists out err, Examples.install_failure PipInstall empty_dir = Completed 1 out err)
  /\ (exists out err, Examples.script_failure PipInstall empty_dir = Completed 0 out err)
  /\ (exists out err, Examples.script_failure PythonScraper empty_dir = Completed 1 out err)
  /\ run_script_in_dir Examples.install_failure empty_dir
     = run_script_in_dir Examples.script_failure empty_dir.
Proof.
  repeat split; try (do 2 eexists; reflexivity).
Qed.

(** ** The tree of a document *)

Lemma node_induction (P : node -> Prop) :
  (forall k s, P (NavigableString k s)) ->
  (forall name attrs cs, Forall P cs -> P (Tag name attrs cs)) ->
  forall n, P n.
Proof.
  intros Hs Ht. fix IH 1. intros [k s | name attrs cs]; [apply Hs|].
  apply Ht. induction cs as [|c cs IHcs]; constructor; [apply IH | exact IHcs].
Qed.

Lemma descendants_tag anc name attrs cs :
  descendants anc (Tag name attrs cs)
  = flat_map (fun c => (c, Tag name attrs cs :: anc)
                       :: descendants (Tag name attrs cs :: anc) c) cs.
Proof.
  cbn [descendants]. generalize (Tag name attrs cs :: anc). intros above.
  induction cs as [|c cs IH]; [reflexivity|].
  cbn [flat_map]. rewrite <- IH. reflexivity.
Qed.

(** an element below [n] is a child of [n] or lies below a child of [n] *)
Lemma in_descendants anc n d :
  In d (descendants anc n) <->
  exists c, In c (contents_of n)
            /\ (d = (c, n :: anc) \/ In d (descendants (n :: anc) c)).
Proof.
  destruct n as [k s | name attrs cs].
  - cbn. split; [tauto | intros (c & [] & _)].
  - rewrite descendants_tag, in_flat_map. cbn [contents_of In].
    split; intros (c & Hc & H); exists c; (split; [exact Hc|]);
      destruct H as [H | H]; auto.
Qed.

(** the parent of an element is the element the traversal started from,
    or an element of the traversal itself *)
Lemma parent_is_an_element n : forall anc d p up,
  In (d, p :: up) (descendants anc n) ->
  (p = n /\ up = anc) \/ In (p, up) (descendants anc n).
Proof.
  induction n as [k s | name attrs cs IH] using node_induction;
    intros anc d p up H; [destruct H|].
  apply in_descendants in H as (c & Hc & [H | H]).
  - injection H as _ -> ->. auto.
  - right. rewrite Forall_forall in IH.
    apply in_descendants. exists c. split; [exact Hc|].
    destruct (IH c Hc _ _ _ _ H) as [[-> ->] | H']; auto.
Qed.

(** an element lies below its parent *)
Lemma element_below_parent n : forall anc d p up,
  In (d, p :: up) (descendants anc n) -> In (d, p :: up) (descendants up p).
Proof.
  induction n as [k s | name attrs cs IH] using node_induction;
    intros anc d p up H; [destruct H|].
  pose proof H as H0.
  apply in_descendants in H as (c & Hc & [H | H]).
  - injection H as _ -> ->. exact H0.
  - rewrite Forall_forall in IH. eapply IH; eauto.
Qed.

Lemma descendants_trans n : forall anc e d,
  In e (descendants anc n) -> In d (descendants (snd e) (fst e)) ->
  In d (descendants anc n).
Proof.
  induction n as [k s | name attrs cs IH] using node_induction;
    intros anc e d H Hd; [destruct H|].
  apply in_descendants in H as (c & Hc & [-> | H]);
    apply in_descendants; exists c; (split; [exact Hc|]); right.
  - exact Hd.
  - rewrite Forall_forall in IH. eapply IH; eauto.
Qed.

Lemma hd_error_in {A : Type} (l : list A) (x : A) : hd_error l = Some x -> In x l.
Proof. destruct l; [discriminate|]. intros H. injection H as ->. now left. Qed.

Lemma find_in p e d : find p e = Some d -> In d (descendants_of e).
Proof.
  unfold find, find_all. intros H. apply hd_error_in in H.
  now apply filter_In in H.
Qed.

Lemma decompose_all_tag names name attrs cs :
  decompose_all names (Tag name attrs cs)
  = Tag name attrs
      (map (decompose_all names) (filter (fun c => negb (name_in names c)) cs)).
Proof.
  cbn [decompose_all]. f_equal.
  induction cs as [|c cs IH]; [reflexivity|].
  cbn [filter]. destruct (name_in names c); cbn [negb map]; now rewrite <- IH.
Qed.

Lemma decompose_all_name names n :
  name_in names (decompose_all names n) = name_in names n.
Proof. destruct n; reflexivity. Qed.

Lemma filter_map_keep {A : Type} (f : A -> bool) (g : A -> A) (l : list A) :
  (forall x, f (g x) = f x) ->
  filter f (map g (filter f l)) = map g (filter f l).
Proof.
  intros Hfg. induction l as [|x l IH]; [reflexivity|].
  cbn [filter]. destruct (f x) eqn:E; [|exact IH].
  cbn [map filter]. rewrite Hfg, E. now rewrite IH.
Qed.

(** X12.  After the elements with the given names have been removed from
    a tree, no element below its top has one of these names, at any depth. *)
Theorem decompose_all_leaves_none (names : list string) (n : node) :
  forall anc d,
    In d (descendants anc (decompose_all names n)) ->
    name_in names (fst d) = false.
Proof.
  induction n as [k s | name attrs cs IH] using node_induction;
    intros anc d H; [destruct H|].
  rewrite decompose_all_tag in H.
  apply in_descendants in H as (c' & Hc' & H).
  cbn [contents_of] in Hc'. apply in_map_iff in Hc' as (c & <- & Hc).
  apply filter_In in Hc as [Hc Hkeep]. apply negb_true_iff in Hkeep.
  destruct H as [-> | H].
  - cbn [fst]. now rewrite decompose_all_name.
  - rewrite Forall_forall in IH. eapply IH; eauto.
Qed.

Lemma decompose_all_leaves_none_witness :
  name_in non_content_tags (fst MoreExamples.paragraph) = false.
Proof.
  apply (decompose_all_leaves_none non_content_tags MoreExamples.script_soup []
           MoreExamples.paragraph).
  apply (find_in (name_is "p")
           (root (decompose_all non_content_tags MoreExamples.script_soup))).
  vm_compute. reflexivity.
Defined.

(** X13.  Removing the elements with the given names a second time
    changes nothing. *)
Theorem decompose_all_idempotent (names : list string) (n : node) :
  decompose_all names (decompose_all names n) = decompose_all names n.
Proof.
  induction n as [k s | name attrs cs IH] using node_induction; [reflexivity|].
  rewrite !decompose_all_tag. f_equal.
  rewrite filter_map_keep
    by (intros x; now rewrite decompose_all_name).
  rewrite map_map. apply map_ext_in. intros c Hc.
  apply filter_In in Hc as [Hc _].
  rewrite Forall_forall in IH. now apply IH.
Qed.

(** the text of an element counts its CDATA sections and leaves out its
    comments; both are printed as they were written *)
Lemma cdata_counts_as_text :
  get_text " " (root MoreExamples.cdata_paragraph) = "a b c"
  /\ str (root MoreExamples.cdata_paragraph) = "<p>a<![CDATA[b]]><!--no-->c</p>".
Proof. split; reflexivity. Qed.

(** ** The context expander *)

(** C7, amended.  [_expand_html_context] is a total function into the
    strings.  When the previous excerpt has no element other than [html]
    and [body], when its first such element has no text, or when no string
    of the full document matches that text, the result is the [body] of the
    full document, and the document as it was given when it has no [body].
    When a parser raises, the result is the document as it was given. *)
Theorem expander_falls_back (L : Lib) (full_html last_snippet : string) :
  (forall full_soup snippet_soup,
     BeautifulSoup L full_html = Ret full_soup ->
     BeautifulSoup L last_snippet = Ret snippet_soup ->
     let anchor :=
       find (fun tag => negb (name_is "html" tag) && negb (name_is "body" tag))
            (root snippet_soup) in
     (anchor = None \/
      exists first, anchor = Some first /\
        (get_text " " first = EmptyString \/
         find_all_text (firstn 15 (split (get_text " " first))) (root full_soup) = [])) ->
     _expand_html_context L full_html last_snippet
     = match find (name_is "body") (root full_soup) with
       | Some body => str body
       | None => full_html
       end)
  /\
  ((exists e, BeautifulSoup L full_html = Raise e) \/
   (exists e, BeautifulSoup L last_snippet = Raise e) ->
   _expand_html_context L full_html last_snippet = full_html).
Proof.
  split.
  - intros full_soup snippet_soup Hf Hs anchor Hcase.
    unfold _expand_html_context. rewrite Hf, Hs. cbn [bind try_except].
    unfold expansion_of. fold anchor.
    destruct Hcase as [-> | (first & -> & [Ht | Hm])]; [reflexivity | |].
    + rewrite Ht. reflexivity.
    + destruct (is_empty (get_text " " first)); [reflexivity|].
      rewrite Hm. reflexivity.
  - unfold _expand_html_context.
    intros [(e & ->) | (e & He)]; [reflexivity|].
    destruct (BeautifulSoup L full_html); [|reflexivity].
    cbn [bind]. rewrite He. reflexivity.
Qed.

(** The text of the first element of the excerpt is spread over two cells
    of the table and matches no single string of the page: the result is
    the body. *)
Lemma expander_falls_back_witness :
  _expand_html_context Reference.lib Examples.table_page Examples.table_cells
  = "<body><div><p>hi</p></div><div><div><table><tr><td>a</td><td>b</td></tr></table></div></div></body>".
Proof.
  rewrite (proj1 (expander_falls_back Reference.lib Examples.table_page
                    Examples.table_cells)
             Examples.table_soup Examples.cells_soup).
  - vm_compute. reflexivity.
  - vm_compute. reflexivity.
  - vm_compute. reflexivity.
  - right. eexists. split; [vm_compute; reflexivity|].
    right. vm_compute. reflexivity.
Defined.

(** C7 as stated fails: a page without a [body] has no body to return,
    and the expander returns the page. *)
Lemma expander_without_body :
  BeautifulSoup Reference.lib Examples.page_without_body
  = Ret (Tag document_name [] [Tag "p" [] [NavigableString KText "hi"]])
  /\ BeautifulSoup Reference.lib EmptyString = Ret (Tag document_name [] [])
  /\ find (fun tag => negb (name_is "html" tag) && negb (name_is "body" tag))
          (root (Tag document_name [] [])) = None
  /\ find (name_is "body")
          (root (Tag document_name [] [Tag "p" [] [NavigableString KText "hi"]]))
     = None
  /\ _expand_html_context Reference.lib Examples.page_without_body EmptyString
     = Examples.page_without_body.
Proof.
  repeat split; vm_compute; reflexivity.
Qed.

(** ** The relevance reducer *)

Lemma is_empty_append a b : is_empty (a ++ b) = is_empty a && is_empty b.
Proof. destruct a; reflexivity. Qed.

Lemma join_last_visible sep x : forall l,
  is_empty x = false -> is_empty (join sep (l ++ [x])) = false.
Proof.
  induction l as [|p l IH]; intros Hx; [exact Hx|].
  specialize (IH Hx). cbn [app]. destruct (l ++ [x])%list as [|q r] eqn:E.
  - destruct l; discriminate E.
  - change (join sep (p :: q :: r)) with (p ++ sep ++ join sep (q :: r)).
    rewrite !is_empty_append, IH. now rewrite !andb_false_r.
Qed.

Lemma join_separated sep l :
  is_empty sep = false -> (2 <= List.length l)%nat -> is_empty (join sep l) = false.
Proof.
  intros Hsep Hl. destruct l as [|a [|b l]]; cbn [List.length] in Hl; try lia.
  cbn [join]. rewrite !is_empty_append, Hsep. now rewrite andb_false_r.
Qed.

Lemma take_visible n s :
  0 < n -> is_empty s = false -> is_empty (take n s) = false.
Proof.
  intros Hn Hs. unfold take.
  destruct (Z.to_nat n) as [|k] eqn:E; [lia|].
  destruct s; [discriminate | reflexivity].
Qed.

Lemma hd_error_filter {A : Type} (f : A -> bool) (l : list A) (x : A) :
  hd_error (filter f l) = Some x -> f x = true.
Proof.
  intros H. assert (In x (filter f l)) as Hin.
  { destruct (filter f l); [discriminate|]. injection H as ->. now left. }
  apply filter_In in Hin. tauto.
Qed.

(** what [find] returns is a tag that satisfies the predicate *)
Lemma find_some p e d : find p e = Some d -> is_tag (fst d) = true /\ p (fst d) = true.
Proof.
  intros H. apply hd_error_filter in H. now apply andb_true_iff in H.
Qed.

(** a [body] element prints as text that starts with its start tag *)
Lemma str_body_visible e : name_is "body" (fst e) = true -> is_empty (str e) = false.
Proof.
  unfold str. destruct e as [[k s | name attrs cs] anc]; cbn [fst snd name_is];
    [discriminate|].
  intros H. apply String.eqb_eq in H. subst name.
  destruct cs; reflexivity.
Qed.

Lemma truncation_marker_length : len truncation_marker = 22.
Proof. reflexivity. Qed.

(** *** What is printed of an element *)

Lemma render_tag_visible parent_name name attrs cs :
  String.eqb name document_name = false ->
  is_empty (render parent_name (Tag name attrs cs)) = false.
Proof.
  intros H. cbn [render]. rewrite H.
  destruct cs; [destruct (mem name empty_element_tags)|]; reflexivity.
Qed.

Lemma named_tag_visible parent_name c :
  is_tag c = true -> name_is document_name c = false ->
  is_empty (render parent_name c) = false.
Proof.
  destruct c as [k s | name attrs cs]; [discriminate|].
  intros _ H. now apply render_tag_visible.
Qed.

Lemma str_visible e :
  is_tag (fst e) = true -> name_is document_name (fst e) = false ->
  is_empty (str e) = false.
Proof. intros Ht Hn. unfold str. now apply named_tag_visible. Qed.

(** an element with a child that is printed is printed itself *)
Lemma str_visible_child e c :
  In c (contents_of (fst e)) ->
  is_tag c = true -> name_is document_name c = false ->
  is_empty (str e) = false.
Proof.
  destruct e as [[k s | name attrs cs] up]; cbn [fst contents_of]; [intros []|].
  intros Hc Ht Hn. unfold str. cbn [fst snd].
  generalize (match up with Tag nm _ _ :: _ => nm | _ => EmptyString end).
  intros parent_name. cbn [render].
  destruct (String.eqb name document_name).
  - induction cs as [|c0 cs IH]; [destruct Hc|].
    rewrite is_empty_append. destruct Hc as [-> | Hc].
    + now rewrite (named_tag_visible name c Ht Hn).
    + rewrite (IH Hc). apply andb_false_r.
  - destruct cs; [destruct Hc | reflexivity].
Qed.

(** *** Elements and their ancestors *)

Lemma ancestors_longer n : forall anc e,
  In e (descendants anc n) -> (List.length anc < List.length (snd e))%nat.
Proof.
  induction n as [k s | name attrs cs IH] using node_induction;
    intros anc e H; [destruct H|].
  apply in_descendants in H as (c & Hc & [-> | H]); [cbn; lia|].
  rewrite Forall_forall in IH. specialize (IH c Hc _ _ H). cbn in IH. lia.
Qed.

(** an element is one of the contents of its parent *)
Lemma child_of_parent n anc d p up :
  In (d, p :: up) (descendants anc n) -> In d (contents_of p).
Proof.
  intros H. apply element_below_parent in H.
  apply in_descendants in H as (c & Hc & [H | H]).
  - now injection H as ->.
  - apply ancestors_longer in H. cbn in H. lia.
Qed.

Lemma parent_is_tag n anc d p up :
  In (d, p :: up) (descendants anc n) -> is_tag p = true.
Proof.
  intros H. apply child_of_parent in H. destruct p; [destruct H | reflexivity].
Qed.

(** the elements of a cleaned document come from the document *)
Lemma descendants_decompose names n : forall anc d,
  In d (descendants anc (decompose_all names n)) ->
  forall anc', exists d',
    In d' (descendants anc' n) /\ fst d = decompose_all names (fst d').
Proof.
  induction n as [k s | name attrs cs IH] using node_induction;
    intros anc d H anc'; [destruct H|].
  rewrite decompose_all_tag in H.
  apply in_descendants in H as (c' & Hc' & H).
  cbn [contents_of] in Hc'. apply in_map_iff in Hc' as (c & <- & Hc).
  apply filter_In in Hc as [Hc _].
  destruct H as [-> | H].
  - exists (c, Tag name attrs cs :: anc'). split; [|reflexivity].
    apply in_descendants. exists c. cbn [contents_of]. auto.
  - rewrite Forall_forall in IH.
    destruct (IH c Hc _ _ H (Tag name attrs cs :: anc')) as (d' & Hd' & Hfst).
    exists d'. split; [|exact Hfst].
    apply in_descendants. exists c. cbn [contents_of]. auto.
Qed.

Lemma proper_cleaned names parsed d :
  proper parsed = true ->
  In d (descendants [] (decompose_all names parsed)) ->
  name_is document_name (fst d) = false.
Proof.
  intros Hp Hd. destruct (descendants_decompose _ _ _ _ Hd []) as (d' & Hd' & ->).
  unfold proper in Hp. rewrite forallb_forall in Hp.
  apply Hp, negb_true_iff in Hd'. now destruct (fst d').
Qed.

(** *** The parts of an excerpt *)

Lemma matches_tag s e : matches s e = true -> is_tag (fst e) = true.
Proof.
  destruct s as [s | p c]; cbn [matches]; intros H.
  - unfold matches_simple in H. now apply andb_true_iff in H.
  - apply andb_true_iff in H as [H _]. unfold matches_simple in H.
    now apply andb_true_iff in H.
Qed.

Lemma first_match_in selectors soup area :
  first_match selectors soup = Some area ->
  In area (descendants_of soup) /\ is_tag (fst area) = true.
Proof.
  induction selectors as [|s rest IH]; [discriminate|]. cbn [first_match].
  destruct (select_one s soup) as [a|] eqn:E; [|exact IH].
  intros H. injection H as ->. unfold select_one in E.
  apply hd_error_in in E. apply filter_In in E as [Hin Hm].
  split; [exact Hin | now apply matches_tag in Hm].
Qed.

Lemma in_firstn {A : Type} (x : A) : forall n l, In x (firstn n l) -> In x l.
Proof.
  induction n as [|n IH]; intros [|a l] H; try destruct H as [-> | H];
    try (now left); try contradiction.
  right. now apply IH.
Qed.

Lemma unique_by_in {A : Type} (eqb : A -> A -> bool) (x : A) : forall l seen,
  In x (unique_by eqb seen l) -> In x l.
Proof.
  induction l as [|a l IH]; intros seen H; [destruct H|]. cbn [unique_by] in H.
  destruct (existsb (eqb a) seen).
  - right. eapply IH; eauto.
  - destruct H as [-> | H]; [now left | right; eapply IH; eauto].
Qed.

(** the search scope lies in the document *)
Lemma search_scope_in top :
  let soup := root top in
  search_scope_of soup = soup \/ In (search_scope_of soup) (descendants [] top).
Proof.
  cbv zeta. unfold search_scope_of.
  destruct (first_match main_selectors (root top)) as [area|] eqn:E.
  - right. now apply first_match_in in E as [H _].
  - destruct (find (name_is "body") (root top)) as [body|] eqn:Eb; [|now left].
    right. now apply find_in in Eb.
Qed.

Lemma in_scope_in_document top e :
  In e (descendants_of (search_scope_of (root top))) -> In e (descendants [] top).
Proof.
  intros H. destruct (search_scope_in top) as [E | Hin].
  - now rewrite E in H.
  - eapply descendants_trans; eauto.
Qed.

(** a context block is an element with a child that is printed *)
Lemma context_visible top e ctx :
  (forall d, In d (descendants [] top) -> name_is document_name (fst d) = false) ->
  In e (descendants [] top) -> is_tag (fst e) = true ->
  In ctx (context_of e) -> is_empty (str ctx) = false.
Proof.
  intros Hproper He Ht Hctx. destruct e as [d anc]. cbn [fst] in Ht.
  unfold context_of in Hctx. cbn [snd] in Hctx.
  assert (Hd : is_empty (str (d, anc)) = false -> True) by auto.
  destruct anc as [|parent [|grandparent up]]; [destruct Hctx | |].
  - destruct (negb (name_in ["body"; "html"] parent)); [|destruct Hctx].
    destruct Hctx as [<- | []].
    apply (str_visible_child _ d); [|exact Ht|exact (Hproper _ He)].
    cbn [fst]. eapply child_of_parent; eauto.
  - assert (Hpar : In (parent, grandparent :: up) (descendants [] top)).
    { destruct (parent_is_an_element _ _ _ _ _ He) as [[_ H] | H];
        [discriminate H | exact H]. }
    destruct (negb (name_in ["body"; "html"] grandparent)).
    + destruct Hctx as [<- | []].
      apply (str_visible_child _ parent).
      * cbn [fst]. eapply child_of_parent; eauto.
      * eapply parent_is_tag; eauto.
      * exact (Hproper _ Hpar).
    + destruct (negb (name_in ["body"; "html"] parent)); [|destruct Hctx].
      destruct Hctx as [<- | []].
      apply (str_visible_child _ d); [|exact Ht|exact (Hproper _ He)].
      cbn [fst]. eapply child_of_parent; eauto.
Qed.

Lemma head_parts_visible soup :
  Forall (fun part => is_empty part = false) (head_parts soup).
Proof.
  unfold head_parts. destruct (find (name_is "head") soup) as [head|]; [|constructor].
  apply Forall_app. split.
  - destruct (find (name_is "title") head) as [title|] eqn:E; [|constructor].
    destruct (string_of (fst title)) as [s|]; [|constructor].
    destruct (is_empty s); constructor; [|constructor].
    apply find_some in E as [Ht Hn]. apply str_visible; [exact Ht|].
    destruct (fst title) as [|name ? ?]; [discriminate|].
    cbn in Hn |- *. apply String.eqb_eq in Hn. now subst name.
  - destruct (find _ head) as [meta_desc|] eqn:E; [|constructor].
    destruct (truthy_attr _); constructor; [|constructor].
    apply find_some in E as [Ht Hn]. apply andb_true_iff in Hn as [Hn _].
    apply str_visible; [exact Ht|].
    destruct (fst meta_desc) as [|name ? ?]; [discriminate|].
    cbn in Hn |- *. apply String.eqb_eq in Hn. now subst name.
Qed.

(** every part of an excerpt has a character *)
Lemma parts_visible L parsed objective :
  proper parsed = true ->
  Forall (fun part => is_empty part = false) (output_parts_of L parsed objective).
Proof.
  intros Hp. unfold output_parts_of. cbv zeta.
  set (top := decompose_all non_content_tags parsed).
  assert (Hproper : forall d, In d (descendants [] top) ->
                              name_is document_name (fst d) = false).
  { intros d Hd. eapply proper_cleaned; eauto. }
  assert (Hst : Forall (fun part => is_empty part = false)
                  (staged_parts L (root top) objective)).
  { unfold staged_parts. cbv zeta.
    fold (search_scope_of (root top)).
    set (relevant := match active_selectors (lower objective) with
                     | [] => []
                     | _ :: _ => flat_map _ _
                     end).
    assert (Hrel : forall e, In e relevant ->
                     In e (descendants [] top) /\ is_tag (fst e) = true).
    { intros e He. unfold relevant in He.
      destruct (active_selectors (lower objective)); [destruct He|].
      apply in_flat_map in He as (sel & _ & He). unfold select in He.
      apply in_firstn, filter_In in He as [He Hm].
      split; [now apply in_scope_in_document | now apply matches_tag in Hm]. }
    assert (Hctx : Forall (fun part => is_empty part = false)
                     (head_parts (root top)
                      ++ map str (firstn 30 (unique_elements
                           (flat_map context_of (unique_elements relevant)))))%list).
    { apply Forall_app. split; [apply head_parts_visible|].
      apply Forall_forall. intros part Hpart.
      apply in_map_iff in Hpart as (ctx & <- & Hc).
      apply in_firstn, unique_by_in, in_flat_map in Hc as (e & He & Hc).
      apply unique_by_in, Hrel in He as [He Ht].
      eapply context_visible; eauto. }
    destruct (first_match main_selectors (root top)) as [area|] eqn:E; [|exact Hctx].
    destruct relevant; [|exact Hctx].
    apply Forall_app. split; [apply head_parts_visible|].
    constructor; [|constructor].
    apply first_match_in in E as [Hin Ht]. apply str_visible; [exact Ht|].
    now apply Hproper. }
  destruct (Z.of_nat (List.length _) <=? 2); [|exact Hst].
  destruct (find (name_is "body") (root top)) as [body|] eqn:Eb; [|exact Hst].
  apply Forall_app. split; [exact Hst|]. constructor; [|constructor].
  apply take_visible; [lia|]. apply str_body_visible.
  now apply find_some in Eb.
Qed.

Lemma join_visible sep l :
  l <> [] -> Forall (fun part => is_empty part = false) l ->
  is_empty (join sep l) = false.
Proof.
  intros Hne Hall. destruct l as [|p l]; [contradiction|].
  inversion Hall as [|? ? Hp _]; subst.
  destruct l; cbn [join]; [exact Hp|]. rewrite is_empty_append, Hp. reflexivity.
Qed.

Lemma is_empty_eq s : is_empty s = true <-> s = EmptyString.
Proof. destruct s; split; intros H; try reflexivity; discriminate. Qed.

(** C4, amended.  The excerpt is never longer than 75,022 characters.
    When the page is parsed, the parts that were collected are joined with
    blank lines between them.  Content of at most 75,000 characters is the
    excerpt as it is; longer content is cut to its first 75,000 characters,
    and the 22 characters of the truncation marker are appended after the
    cut.  When the parser raises, the excerpt is the first 15,000 characters
    of the page.  The excerpt is not empty whenever the page, once its
    non-content elements are removed, has a [body] element; and for a page
    as a parser returns it, the excerpt is empty only when no part was
    collected at all. *)
Theorem excerpt_is_bounded (L : Lib) (html objective : string) :
  let excerpt := extract_relevant_html L html objective in
  len excerpt <= 75022
  /\ (forall e, BeautifulSoup L html = Raise e -> excerpt = take 15000 html)
  /\ (forall parsed,
        BeautifulSoup L html = Ret parsed ->
        let parts := output_parts_of L parsed objective in
        let combined := join (nl ++ nl) parts in
        (len combined <= 75000 -> excerpt = combined)
        /\ (75000 < len combined ->
            excerpt = take 75000 combined ++ truncation_marker
            /\ len (take 75000 combined) = 75000
            /\ prefix (take 75000 combined) combined = true
            /\ len excerpt = 75022)
        /\ (forall body,
              find (name_is "body") (root (decompose_all non_content_tags parsed))
              = Some body ->
              excerpt <> EmptyString)
        /\ (proper parsed = true -> (excerpt = EmptyString <-> parts = []))).
Proof.
  cbv zeta. unfold extract_relevant_html.
  destruct (BeautifulSoup L html) as [parsed | e] eqn:Hp; cbn [bind try_except].
  - set (combined := join (nl ++ nl) (output_parts_of L parsed objective)).
    assert (Hcut : 75000 < len combined -> len (take max_len combined) = max_len).
    { intros H. apply len_take_all. unfold max_len. lia. }
    assert (Hcase : (len combined <= 75000 /\ (max_len <? len combined) = false)
                    \/ (75000 < len combined /\ (max_len <? len combined) = true)).
    { unfold max_len. destruct (75000 <? len combined) eqn:E.
      - right. apply Z.ltb_lt in E. auto.
      - left. apply Z.ltb_ge in E. auto. }
    split; [|split; [discriminate|]].
    + destruct Hcase as [[Hle ->] | [Hgt ->]]; cbn [try_except].
      * lia.
      * rewrite len_append, (Hcut Hgt), truncation_marker_length. unfold max_len. lia.
    + intros parsed' Hparsed. injection Hparsed as <-. fold combined.
      split; [|split; [|split]].
      * intros Hle. destruct Hcase as [[_ ->] | [Hgt _]]; [reflexivity | lia].
      * intros Hgt. destruct Hcase as [[Hle _] | [_ ->]]; [lia|]. cbn [try_except].
        split; [reflexivity|]. split; [exact (Hcut Hgt)|].
        split; [apply prefix_substring|].
        rewrite len_append, (Hcut Hgt), truncation_marker_length. reflexivity.
      * intros body Hbody.
        assert (Hvis : is_empty combined = false).
        { unfold combined, output_parts_of. cbv zeta. rewrite Hbody.
          destruct (find_some _ _ _ Hbody) as [_ Hname].
          destruct (Z.of_nat (List.length _) <=? 2) eqn:E.
          - apply join_last_visible, take_visible; [lia|].
            now apply str_body_visible.
          - apply Z.leb_gt in E. apply join_separated; [reflexivity | lia]. }
        destruct (max_len <? len combined); cbn [try_except].
        -- intros H. apply (f_equal is_empty) in H.
           rewrite is_empty_append in H. cbn in H.
           now rewrite andb_false_r in H.
        -- intros H. rewrite H in Hvis. discriminate.
      * intros Hproper. split.
        -- intros Hempty.
           destruct (output_parts_of L parsed objective) as [|p l] eqn:Eparts;
             [reflexivity|].
           assert (Hvis : is_empty combined = false).
           { unfold combined. apply join_visible; [discriminate|].
             rewrite <- Eparts. now apply parts_visible. }
           destruct (max_len <? len combined); cbn [try_except] in Hempty.
           ++ apply (f_equal is_empty) in Hempty.
              rewrite is_empty_append in Hempty. cbn in Hempty.
              now rewrite andb_false_r in Hempty.
           ++ rewrite Hempty in Hvis. discriminate.
        -- intros Hparts. unfold combined. rewrite Hparts. reflexivity.
  - split; [|split].
    + pose proof (len_take_le 15000 html). lia.
    + reflexivity.
    + intros parsed H. discriminate H.
Qed.

(** The page with the table has a body.  Of the page that is a single
    paragraph no part is collected. *)
Lemma excerpt_is_bounded_witness :
  extract_relevant_html Reference.lib Examples.table_page "get the table"
  <> EmptyString
  /\ (extract_relevant_html Reference.lib Examples.page_without_body "get stuff"
      = EmptyString
      <-> output_parts_of Reference.lib (Examples.parse Examples.page_without_body)
            "get stuff" = []).
Proof.
  split.
  - refine (proj1 (proj2 (proj2
              (proj2 (proj2 (excerpt_is_bounded Reference.lib Examples.table_page
                               "get the table"))
                 Examples.table_soup _)))
              (Tag "body" [] (contents_of (hd (Tag "" [] []) (contents_of
                 (hd (Tag "" [] []) (contents_of Examples.table_soup))))),
               _)
              _);
      vm_compute; reflexivity.
  - refine (proj2 (proj2 (proj2
              (proj2 (proj2 (excerpt_is_bounded Reference.lib
                               Examples.page_without_body "get stuff"))
                 (Examples.parse Examples.page_without_body) _))) _);
      vm_compute; reflexivity.
Defined.

(** C4 as stated fails twice.  The excerpt of a page with a long main
    region has 75,022 characters; the excerpt of a page that consists of
    one paragraph, without a [body] around it, is empty. *)
Lemma excerpt_exceeds_maximum_and_can_be_empty :
  len (extract_relevant_html Reference.lib Examples.long_page "get stuff") = 75022
  /\ BeautifulSoup Reference.lib Examples.page_without_body
     = Ret (Tag document_name [] [Tag "p" [] [NavigableString KText "hi"]])
  /\ extract_relevant_html Reference.lib Examples.page_without_body "get stuff"
     = EmptyString.
Proof.
  split; [|split]; vm_compute; reflexivity.
Qed.

(** visiting a list in another order changes nothing when at most one of
    its members yields anything *)
Lemma flat_map_one_source {A B : Type} (f : A -> list B) (l1 l2 : list A) :
  Permutation l1 l2 ->
  (forall a b, In a l1 -> In b l1 -> f a <> [] -> f b <> [] -> a = b) ->
  flat_map f l1 = flat_map f l2.
Proof.
  induction 1 as [| x l l' Hp IH | x y l | l l' l'' Hp1 IH1 Hp2 IH2]; intros Hone.
  - reflexivity.
  - cbn [flat_map]. f_equal. apply IH.
    intros a b Ha Hb. apply Hone; now right.
  - cbn [flat_map].
    destruct (f x) as [|u us] eqn:Ex; [reflexivity|].
    destruct (f y) as [|v vs] eqn:Ey; [reflexivity|].
    assert (y = x) as ->.
    { apply Hone; [now left | right; now left | |]; congruence. }
    rewrite Ex in Ey. now injection Ey as -> ->.
  - rewrite IH1 by exact Hone. apply IH2.
    intros a b Ha Hb.
    apply Hone; [apply (Permutation_in a (Permutation_sym Hp1) Ha)
                | apply (Permutation_in b (Permutation_sym Hp1) Hb)].
Qed.

(** C9, amended.  The excerpt does not depend on the order in which the
    set of active selectors is iterated as long as at most one of these
    selectors matches an element of the search scope, and so in particular
    when the objective activates one selector or none: two runs that parse
    the page alike then return the same excerpt, whatever the orders of
    their sets are. *)
Theorem excerpt_with_one_source_is_stable (L1 L2 : Lib) (html objective : string) :
  BeautifulSoup L1 html = BeautifulSoup L2 html ->
  (forall l, Permutation (set_order L1 l) l) ->
  (forall l, Permutation (set_order L2 l) l) ->
  (forall parsed s1 s2,
     BeautifulSoup L1 html = Ret parsed ->
     let scope := search_scope_of (root (decompose_all non_content_tags parsed)) in
     In s1 (active_selectors (lower objective)) ->
     In s2 (active_selectors (lower objective)) ->
     select s1 20 scope <> [] -> select s2 20 scope <> [] -> s1 = s2) ->
  extract_relevant_html L1 html objective = extract_relevant_html L2 html objective.
Proof.
  intros Hparse H1 H2 Hone.
  unfold extract_relevant_html. rewrite <- Hparse.
  destruct (BeautifulSoup L1 html) as [parsed | e] eqn:Hp; [|reflexivity].
  cbn [bind]. specialize (Hone parsed).
  unfold output_parts_of, staged_parts. cbv zeta.
  fold (search_scope_of (root (decompose_all non_content_tags parsed))).
  set (scope := search_scope_of (root (decompose_all non_content_tags parsed))) in *.
  set (active := active_selectors (lower objective)) in *.
  assert (flat_map (fun selector => select selector 20 scope) (set_order L1 active)
          = flat_map (fun selector => select selector 20 scope) (set_order L2 active))
    as ->; [|reflexivity].
  apply flat_map_one_source.
  - eapply Permutation_trans; [apply H1 | apply Permutation_sym, H2].
  - intros a b Ha Hb.
    apply (Hone a b eq_refl); [apply (Permutation_in a (H1 active) Ha)
                              | apply (Permutation_in b (H1 active) Hb)].
Qed.

(** The objective activates the selectors of tables and of links; the page
    has a table and no link. *)
Lemma excerpt_with_one_source_is_stable_witness :
  extract_relevant_html Reference.lib Examples.table_page "table link"
  = extract_relevant_html Reference.lib_reversed Examples.table_page "table link".
Proof.
  apply (excerpt_with_one_source_is_stable Reference.lib Reference.lib_reversed
           Examples.table_page "table link").
  - reflexivity.
  - intros l. apply Permutation_refl.
  - intros l. apply Permutation_sym, Permutation_rev.
  - intros parsed s1 s2 Hp.
    assert (parsed = Examples.table_soup) as ->.
    { vm_compute in Hp. injection Hp as <-. reflexivity. }
    cbv zeta. intros H1 H2. vm_compute in H1. vm_compute in H2.
    destruct H1 as [<- | [<- | []]]; destruct H2 as [<- | [<- | []]];
      intros Ha Hb; try reflexivity; exfalso;
      [apply Hb | apply Ha]; vm_compute; reflexivity.
Defined.

(** C9 as stated fails: with the two selectors of "image link" visited in
    one order and in the other, the same page and the same objective give
    two excerpts. *)
Lemma excerpt_depends_on_set_order :
  BeautifulSoup Reference.lib = BeautifulSoup Reference.lib_reversed
  /\ active_selectors (lower "image link") = [tag "img"; tag "a"]
  /\ set_order Reference.lib_reversed [tag "img"; tag "a"] = [tag "a"; tag "img"]
  /\ extract_relevant_html Reference.lib Examples.gallery_page "image link"
     = "<div><p><img/></p></div>" ++ nl ++ nl ++ "<div><p><a>L</a></p></div>"
       ++ nl ++ nl
       ++ "<body><div><p><a>L</a></p></div><div><p><img/></p></div></body>"
  /\ extract_relevant_html Reference.lib_reversed Examples.gallery_page "image link"
     = "<div><p><a>L</a></p></div>" ++ nl ++ nl ++ "<div><p><img/></p></div>"
       ++ nl ++ nl
       ++ "<body><div><p><a>L</a></p></div><div><p><img/></p></div></body>".
Proof.
  split; [reflexivity|].
  split; [|split; [|split]]; vm_compute; reflexivity.
Qed.

(** ** The attempt loop *)

Lemma last_map {A B : Type} (f : A -> B) (l : list A) (d : A) :
  last (map f l) (f d) = f (last l d).
Proof.
  induction l as [|a l IH]; [reflexivity|].
  destruct l; [reflexivity|]. exact IH.
Qed.

Lemma last_cons {A : Type} (l : list A) : forall e d, last (e :: l) d = last l e.
Proof.
  induction l as [|a l IH]; intros e d; [reflexivity|].
  change (last (e :: a :: l) d) with (last (a :: l) d).
  rewrite (IH a d). destruct l; [reflexivity|]. symmetry. apply IH.
Qed.

Lemma firstn_snoc {A : Type} (l : list A) (x : A) i :
  (i <= List.length l)%nat -> firstn i (l ++ [x]) = firstn i l.
Proof.
  intros Hi. rewrite firstn_app.
  replace (i - List.length l)%nat with 0%nat by lia.
  cbn. apply app_nil_r.
Qed.

Lemma passed_snoc {A : Type} (h : list A) (e : A) k :
  List.length h = k ->
  map (fun i => firstn i (h ++ [e])) (seq 0 (S k))
  = (map (fun i => firstn i h) (seq 0 k) ++ [h])%list.
Proof.
  intros Hk. rewrite seq_S, map_app. cbn [map Nat.add]. f_equal.
  - apply map_ext_in. intros i Hi. apply in_seq in Hi.
    apply firstn_snoc. lia.
  - f_equal. rewrite firstn_snoc by lia. rewrite <- Hk. apply firstn_all.
Qed.

Lemma nth_error_map_seq {A : Type} (g : nat -> A) n i :
  (i < n)%nat -> nth_error (map g (seq 0 n)) i = Some (g i).
Proof.
  intros Hi. apply map_nth_error.
  rewrite (nth_error_nth' _ 0%nat) by (rewrite length_seq; lia).
  f_equal. rewrite seq_nth; lia.
Qed.

Lemma final_after_loop st : final (after_loop st) = st.
Proof. unfold after_loop. destruct (history st); reflexivity. Qed.

(** the dictionary that the code after the loop returns *)
Lemma after_loop_result st :
  history st <> [] ->
  result (after_loop st)
  = JobError msg_failed
      (Some ("Final attempt failed: " ++ h_reason (last (history st) empty_entry)
             ++ nl ++ nl ++ "STDERR:" ++ nl
             ++ h_stderr (last (history st) empty_entry))).
Proof.
  intros Hne. unfold after_loop.
  destruct (history st) as [|e rest]; [contradiction|].
  rewrite (last_cons rest e empty_entry). reflexivity.
Qed.

Section Loop.

Variables (W : World) (L : Lib).
Variables (user_prompt url : string) (cfg : settings).
Variables (html_content structure_map run_id excerpt0 : string).

Local Abbreviation body :=
  (attempt_body W L user_prompt url cfg html_content structure_map run_id).
Local Abbreviation run :=
  (run_of W L user_prompt url cfg html_content structure_map).
Local Abbreviation state := (state_at body (initial_state excerpt0)).
Local Abbreviation whole_loop :=
  (attempt_loop body (seq 0 max_attempts) (initial_state excerpt0)).

(** An attempt asks the oracle once, with the history as it stands and the
    excerpt of the attempt; then it returns, or it adds one entry to the
    history. *)
Lemma attempt_body_cases attempt st :
  (exists r st', body attempt st = Return r st'
                 /\ returns W L user_prompt html_content run_id attempt st r st')
  \/
  (exists st', body attempt st = break_if_last attempt st'
               /\ records L html_content attempt st st').
Proof.
  unfold attempt_body. cbv zeta.
  set (expand := retrying attempt st).
  set (st0 := if expand then set_relevant_html
                 (_expand_html_context L html_content (last_snippet st)) st else st).
  assert (Hh : history st0 = history st) by (unfold st0; destruct expand; reflexivity).
  assert (Hq : requests st0 = requests st) by (unfold st0; destruct expand; reflexivity).
  assert (Hx : relevant_html st0 = excerpt_of L html_content attempt st).
  { unfold st0, excerpt_of. fold expand. destruct expand; reflexivity. }
  set (request := {| g_prompt := user_prompt; g_url := url;
                     g_html_content := relevant_html st0; g_settings := cfg;
                     g_history := history st0;
                     g_structure_map := if expand then None else Some structure_map |}).
  assert (Hreq : forall st1,
             requests st1 = (requests st0 ++ [request])%list ->
             requested L html_content attempt st st1).
  { intros st1 H1. exists request. rewrite H1, Hq. cbn. rewrite Hh, Hx. auto. }
  assert (Hrec : forall e st1,
             history st1 = history st0 -> relevant_html st1 = relevant_html st0 ->
             requests st1 = (requests st0 ++ [request])%list ->
             h_html_snippet e = relevant_html st0 ->
             records L html_content attempt st (append_history e st1)).
  { intros e st1 H1 H2 H3 H4. exists e. cbn. rewrite H1, Hh, H4, H2, Hx.
    repeat split. destruct (Hreq st1 H3) as (q & Hq1 & Hq2 & Hq3).
    exists q. cbn. auto. }
  destruct (generate_script W attempt request) as [result | e].
  2:{ right. eexists. split; [reflexivity|]. apply Hrec; reflexivity. }
  destruct (open_write W attempt "scraper.py" (scraper_py result)) as [[] | e].
  2:{ right. eexists. split; [reflexivity|]. apply Hrec; reflexivity. }
  destruct (open_write W attempt "requirements.txt" (requirements_txt result))
    as [[] | e].
  2:{ right. eexists. split; [reflexivity|]. apply Hrec; reflexivity. }
  match goal with
  | |- context [run_script_in_dir ?f ?d] => set (x := run_script_in_dir f d)
  end.
  destruct ((exit_code x =? 0) && negb (is_empty (strip (stdout x)))) eqn:Hok.
  - destruct (valid (validate_scraper_results L (stdout x) user_prompt)) eqn:Hv.
    + match goal with
      | |- context [_create_zip_package ?a ?b ?c ?d] =>
          destruct (_create_zip_package a b c d) as [zip_path | e] eqn:Hz
      end.
      * left. do 2 eexists. split; [reflexivity|].
        split; [exact Hh|]. split; [exact Hx|].
        split; [apply Hreq; reflexivity|].
        exists x, zip_path. split; [reflexivity|]. split; [exact Hz|].
        fold x. rewrite Hok. auto.
      * right. eexists. split; [reflexivity|]. apply Hrec; reflexivity.
    + right. eexists. split; [reflexivity|]. apply Hrec; reflexivity.
  - destruct (contains playwright_marker (lower (stderr x))) eqn:Hm.
    + match goal with
      | |- context [_create_zip_package ?a ?b ?c ?d] =>
          destruct (_create_zip_package a b c d) as [zip_path | e] eqn:Hz
      end.
      * left. do 2 eexists. split; [reflexivity|].
        split; [exact Hh|]. split; [exact Hx|].
        split; [apply Hreq; reflexivity|].
        exists x, zip_path. split; [reflexivity|]. split; [exact Hz|].
        fold x. rewrite Hok. auto.
      * right. eexists. split; [reflexivity|]. apply Hrec; reflexivity.
    + right. eexists. split; [reflexivity|]. apply Hrec; reflexivity.
Qed.

Lemma excerpt_of_attempt k st :
  after_attempts L html_content excerpt0 k st ->
  excerpt_of L html_content k st = excerpt_at L html_content excerpt0 k.
Proof.
  intros [Hlen Hsn _ _ Hcur]. unfold excerpt_of, retrying.
  destruct k as [|k].
  - cbn. exact Hcur.
  - destruct (history st) as [|e h] eqn:Hh; [discriminate Hlen|].
    cbn [Nat.ltb Nat.leb andb].
    unfold last_snippet. rewrite Hh.
    rewrite <- (last_map h_html_snippet (e :: h) empty_entry), Hsn.
    change (h_html_snippet empty_entry) with EmptyString.
    assert (last (map (excerpt_at L html_content excerpt0) (seq 0 (S k))) EmptyString
            = excerpt_at L html_content excerpt0 k) as ->.
    { rewrite seq_S, map_app. cbn [map Nat.add]. apply last_last. }
    reflexivity.
Qed.

Lemma requests_after k st :
  after_attempts L html_content excerpt0 k st -> List.length (requests st) = k.
Proof.
  intros [_ _ Hex _ _].
  rewrite <- (length_map g_html_content), Hex, length_map, length_seq.
  reflexivity.
Qed.

Lemma records_step k st st' :
  after_attempts L html_content excerpt0 k st ->
  records L html_content k st st' ->
  after_attempts L html_content excerpt0 (S k) st'.
Proof.
  intros Hinv (entry & Hh & Hs & Hc & request & Hq & Hgh & Hgx).
  pose proof (excerpt_of_attempt _ _ Hinv) as Hx.
  destruct Hinv as [Hlen Hsn Hex Hpa Hcur].
  constructor.
  - rewrite Hh, length_app. cbn. lia.
  - rewrite Hh, map_app, seq_S, map_app, Hsn. cbn [map Nat.add].
    now rewrite Hs, Hx.
  - rewrite Hq, map_app, seq_S, map_app, Hex. cbn [map Nat.add].
    now rewrite Hgx, Hx.
  - rewrite Hq, map_app, Hh, (passed_snoc _ _ _ Hlen), Hpa. cbn [map].
    now rewrite Hgh.
  - cbn [Nat.pred]. now rewrite Hc.
Qed.

Lemma trace_of_after k st :
  after_attempts L html_content excerpt0 k st ->
  well_formed_trace L html_content excerpt0 st.
Proof.
  intros Hinv. pose proof (requests_after _ _ Hinv) as Hrq.
  destruct Hinv as [Hlen Hsn Hex Hpa Hcur]. unfold well_formed_trace.
  rewrite Hrq, Hlen. repeat split; auto.
Qed.

Lemma trace_of_return k st r st' :
  after_attempts L html_content excerpt0 k st ->
  returns W L user_prompt html_content run_id k st r st' ->
  well_formed_trace L html_content excerpt0 st'
  /\ List.length (requests st') = S k
  /\ List.length (history st') = k.
Proof.
  intros Hinv (Hh & Hc & (request & Hq & Hgh & Hgx) & _).
  pose proof (excerpt_of_attempt _ _ Hinv) as Hx.
  pose proof (requests_after _ _ Hinv) as Hrq.
  destruct Hinv as [Hlen Hsn Hex Hpa Hcur].
  assert (List.length (requests st') = S k) as Hn.
  { rewrite Hq, length_app. cbn. lia. }
  split; [|split; [exact Hn | now rewrite Hh]].
  unfold well_formed_trace. rewrite Hn, Hq, !map_app, seq_S, !map_app.
  cbn [map Nat.add]. rewrite Hex, Hgx, Hx, Hh, Hpa, Hgh, Hlen.
  split; [reflexivity|]. split; [|lia].
  do 2 f_equal. rewrite <- Hlen. symmetry. apply firstn_all.
Qed.

Lemma initial_after :
  after_attempts L html_content excerpt0 0 (initial_state excerpt0).
Proof. constructor; reflexivity. Qed.

(** however the loop ends, its requests are those of the invariant *)
Lemma loop_trace m : forall k st,
  after_attempts L html_content excerpt0 k st ->
  well_formed_trace L html_content excerpt0 (final (attempt_loop body (seq k m) st)).
Proof.
  induction m as [|m IH]; intros k st Hinv; cbn [seq attempt_loop].
  - rewrite final_after_loop. eapply trace_of_after; eauto.
  - destruct (attempt_body_cases k st)
      as [(r & st' & -> & Hret) | (st' & -> & Hrec)].
    + cbn. eapply trace_of_return; eauto.
    + pose proof (records_step _ _ _ Hinv Hrec) as Hinv'.
      unfold break_if_last. destruct (k =? max_attempts - 1)%nat.
      * rewrite final_after_loop. eapply trace_of_after; eauto.
      * apply IH. exact Hinv'.
Qed.

(** what a pass through the body of the loop does, by the run of the
    attempt *)
Lemma attempt_by_run attempt st :
  attempt_outcome W L user_prompt html_content run_id attempt st
    (run attempt st) (body attempt st).
Proof.
  unfold attempt_body. cbv zeta.
  set (expand := retrying attempt st).
  set (st0 := if expand then set_relevant_html
                 (_expand_html_context L html_content (last_snippet st)) st else st).
  assert (Hh : history st0 = history st) by (unfold st0; destruct expand; reflexivity).
  assert (Hx : relevant_html st0 = excerpt_of L html_content attempt st).
  { unfold st0, excerpt_of. fold expand. destruct expand; reflexivity. }
  assert (Hr : {| g_prompt := user_prompt; g_url := url;
                  g_html_content := relevant_html st0; g_settings := cfg;
                  g_history := history st0;
                  g_structure_map := if expand then None else Some structure_map |}
               = request_of L user_prompt url cfg html_content structure_map attempt st).
  { unfold request_of. fold expand. now rewrite Hx, Hh. }
  rewrite Hr. unfold run_of.
  set (request := request_of L user_prompt url cfg html_content structure_map attempt st).
  assert (Hexc : forall e st1 (P : history_entry -> Prop),
            history st1 = history st0 -> relevant_html st1 = relevant_html st0 ->
            P {| h_reason := reason_unexpected e;
                 h_code := match current_code st1 with
                           | Some c => c
                           | None => "Code not generated"
                           end;
                 h_stdout := EmptyString; h_stderr := e;
                 h_html_snippet := relevant_html st1 |} ->
            recorded L html_content attempt st (on_exception attempt e st1) P).
  { intros e st1 P H1 H2 HP. unfold on_exception.
    eexists _, _. split; [reflexivity|].
    split; [|split; [|exact HP]].
    + cbn [append_history set_history history]. now rewrite H1, Hh.
    + cbn [h_html_snippet]. now rewrite H2, Hx. }
  assert (Hfail : forall reason current x st1 (P : history_entry -> Prop),
            history st1 = history st0 -> relevant_html st1 = relevant_html st0 ->
            P (failure_entry reason current x st1) ->
            recorded L html_content attempt st
              (break_if_last attempt
                 (append_history (failure_entry reason current x st1) st1)) P).
  { intros reason current x st1 P H1 H2 HP.
    eexists _, _. split; [reflexivity|].
    split; [|split; [|exact HP]].
    + cbn [append_history set_history history]. now rewrite H1, Hh.
    + cbn [failure_entry h_html_snippet]. now rewrite H2, Hx. }
  destruct (generate_script W attempt request) as [answer | e];
    [|apply Hexc; cbn; auto].
  destruct (open_write W attempt "scraper.py" (scraper_py answer)) as [[] | e];
    [|apply Hexc; cbn; auto].
  destruct (open_write W attempt "requirements.txt" (requirements_txt answer))
    as [[] | e]; [|apply Hexc; cbn; auto].
  unfold attempt_outcome. cbv zeta.
  cbn [temp_dir set_temp_dir set_current_code add_request scraper_py_file
       requirements_txt_file].
  change {| scraper_py_file := Some (scraper_py answer);
            requirements_txt_file := Some (requirements_txt answer) |}
    with (files_of answer).
  set (x := run_script_in_dir (subprocess_run W attempt) (files_of answer)).
  rewrite strip_blank.
  destruct ((exit_code x =? 0) && negb (blank (stdout x))).
  - destruct (valid (validate_scraper_results L (stdout x) user_prompt)).
    + unfold _create_zip_package. fold (zip_path_of W run_id).
      destruct (zip_write W attempt (files_of answer)) as [[] | e]; cbn [bind].
      * eexists. split; reflexivity.
      * apply Hexc; cbn; auto.
    + apply Hfail; cbn; auto.
  - destruct (contains playwright_marker (lower (stderr x))).
    + unfold _create_zip_package. fold (zip_path_of W run_id).
      destruct (zip_write W attempt (files_of answer)) as [[] | e]; cbn [bind].
      * eexists. split; reflexivity.
      * apply Hexc; cbn; auto.
    + apply Hfail; cbn; auto.
Qed.


Lemma break_if_last_cases attempt st :
  (attempt <> max_attempts - 1 /\ break_if_last attempt st = Continue st)%nat
  \/ (attempt = max_attempts - 1 /\ break_if_last attempt st = Break st)%nat.
Proof.
  unfold break_if_last. destruct (attempt =? max_attempts - 1)%nat eqn:E.
  - right. apply Nat.eqb_eq in E. auto.
  - left. apply Nat.eqb_neq in E. auto.
Qed.

Lemma recorded_not_return attempt st s P r st' :
  recorded L html_content attempt st s P -> s <> Return r st'.
Proof.
  intros (st1 & entry & -> & _) H.
  destruct (break_if_last_cases attempt st1) as [[_ E] | [_ E]];
    rewrite E in H; discriminate H.
Qed.

(** a pass that ends in [continue] has left one more entry *)
Lemma continue_records k st st' :
  body k st = Continue st' ->
  records L html_content k st st' /\ k <> (max_attempts - 1)%nat.
Proof.
  intros E.
  destruct (attempt_body_cases k st) as [(r & st1 & E1 & _) | (st1 & E1 & Hrec)].
  - rewrite E in E1. discriminate E1.
  - rewrite E in E1.
    destruct (break_if_last_cases k st1) as [[Hk E2] | [_ E2]];
      rewrite E2 in E1; [|discriminate E1].
    injection E1 as ->. auto.
Qed.

Lemma break_records k st st' :
  body k st = Break st' ->
  records L html_content k st st' /\ k = (max_attempts - 1)%nat.
Proof.
  intros E.
  destruct (attempt_body_cases k st) as [(r & st1 & E1 & _) | (st1 & E1 & Hrec)].
  - rewrite E in E1. discriminate E1.
  - rewrite E in E1.
    destruct (break_if_last_cases k st1) as [[_ E2] | [Hk E2]];
      rewrite E2 in E1; [discriminate E1|].
    injection E1 as ->. auto.
Qed.

Lemma state_at_step k st :
  state (S k) = Some st <-> exists st0, state k = Some st0 /\ body k st0 = Continue st.
Proof.
  cbn [state_at]. split.
  - destruct (state_at _ _ k) as [st0|]; [|discriminate].
    destruct (body k st0) as [r st1 | st1 | st1] eqn:E; try discriminate.
    intros H. injection H as ->. eauto.
  - intros (st0 & -> & ->). reflexivity.
Qed.

(** the loop variables at the start of attempt [k] *)
Lemma state_at_after k : forall st,
  state k = Some st -> after_attempts L html_content excerpt0 k st.
Proof.
  induction k as [|k IH]; intros st H.
  - injection H as <-. apply initial_after.
  - apply state_at_step in H as (st0 & H0 & E).
    apply continue_records in E as [Hrec _].
    eapply records_step; eauto.
Qed.


(** how a loop ends: an attempt returns, or the last attempt breaks *)
Lemma loop_cases m : forall k st,
  (k + S m = max_attempts)%nat -> state k = Some st ->
  exists n st_n,
    (n < max_attempts)%nat /\ state n = Some st_n /\
    ((exists r st', body n st_n = Return r st'
                    /\ attempt_loop body (seq k (S m)) st
                       = {| result := r; final := st' |})
     \/ (exists st', n = (max_attempts - 1)%nat /\ body n st_n = Break st'
                     /\ attempt_loop body (seq k (S m)) st = after_loop st')).
Proof.
  induction m as [|m IH]; intros k st Hk Hst; cbn [seq attempt_loop].
  - destruct (body k st) as [r st' | st' | st'] eqn:E.
    + exists k, st. split; [lia|]. split; [exact Hst|]. left. eauto.
    + apply continue_records in E as [_ Hne]. lia.
    + pose proof (break_records _ _ _ E) as [_ Hlast].
      exists k, st. split; [lia|]. split; [exact Hst|]. right. eauto.
  - destruct (body k st) as [r st' | st' | st'] eqn:E.
    + exists k, st. split; [lia|]. split; [exact Hst|]. left. eauto.
    + apply (IH (S k) st'); [lia|]. apply state_at_step. eauto.
    + pose proof (break_records _ _ _ E) as [_ Hlast].
      exists k, st. split; [lia|]. split; [exact Hst|]. right. eauto.
Qed.


(** what an attempt that returns has done *)
Lemma return_inversion k st r st' :
  body k st = Return r st' ->
  exists answer x,
    run k st = Ran answer x
    /\ zip_write W k (files_of answer) = Ret tt
    /\ temp_dir st' = files_of answer
    /\ ((exit_code x = 0 /\ blank (stdout x) = false
         /\ valid (validate_scraper_results L (stdout x) user_prompt) = true
         /\ r = JobSuccess msg_success (_truncate_preview (stdout x) 500)
                  (download_url_of run_id) (zip_path_of W run_id))
        \/ ((exit_code x <> 0 \/ blank (stdout x) = true)
            /\ contains playwright_marker (lower (stderr x)) = true
            /\ r = JobActionRequired msg_action_required (download_url_of run_id)
                     (zip_path_of W run_id))).
Proof.
  intros E. pose proof (attempt_by_run k st) as H. rewrite E in H.
  destruct (run k st) as [e | answer x]; cbn [attempt_outcome] in H.
  { now apply recorded_not_return with (r := r) (st' := st') in H. }
  cbv zeta in H. exists answer, x. split; [reflexivity|].
  destruct ((exit_code x =? 0) && negb (blank (stdout x))) eqn:Hok.
  - apply andb_true_iff in Hok as [H0 Hb].
    apply Z.eqb_eq in H0. apply negb_true_iff in Hb.
    destruct (valid (validate_scraper_results L (stdout x) user_prompt)) eqn:Hv.
    + destruct (zip_write W k (files_of answer)) as [[] | e].
      * destruct H as (st1 & H & Hdir). injection H as <- <-. auto 10.
      * now apply recorded_not_return with (r := r) (st' := st') in H.
    + now apply recorded_not_return with (r := r) (st' := st') in H.
  - assert (exit_code x <> 0 \/ blank (stdout x) = true) as Hnot.
    { apply andb_false_iff in Hok as [H0 | Hb].
      - left. now apply Z.eqb_neq.
      - right. now apply negb_false_iff. }
    destruct (contains playwright_marker (lower (stderr x))) eqn:Hm.
    + destruct (zip_write W k (files_of answer)) as [[] | e].
      * destruct H as (st1 & H & Hdir). injection H as <- <-. auto 10.
      * now apply recorded_not_return with (r := r) (st' := st') in H.
    + now apply recorded_not_return with (r := r) (st' := st') in H.
Qed.

(** an attempt without a run, or with an unsuccessful run, is recorded
    with the reason and the standard error of its failure *)
Lemma unsuccessful_attempt k st :
  (forall answer x, run k st = Ran answer x -> unsuccessful L user_prompt x) ->
  recorded L html_content k st (body k st)
    (fun entry =>
       h_reason entry = fst (failure_report L user_prompt (run k st))
       /\ h_stderr entry = snd (failure_report L user_prompt (run k st))).
Proof.
  intros Hun. pose proof (attempt_by_run k st) as H.
  destruct (run k st) as [e | answer x]; cbn [attempt_outcome failure_report fst snd] in *.
  - destruct H as (st' & entry & H1 & H2 & H3 & H4 & _ & H5). exists st', entry. auto.
  - specialize (Hun answer x eq_refl). unfold unsuccessful in Hun. cbv zeta in H.
    destruct ((exit_code x =? 0) && negb (blank (stdout x))).
    + rewrite Hun in H.
      destruct H as (st' & entry & H1 & H2 & H3 & H4 & _ & _ & H5).
      exists st', entry. auto.
    + rewrite Hun in H.
      destruct H as (st' & entry & H1 & H2 & H3 & H4 & _ & _ & H5).
      exists st', entry. auto.
Qed.




(** a loop none of whose runs is successful *)
Lemma failing_loop :
  (forall k st answer x, (k < max_attempts)%nat -> state k = Some st ->
     run k st = Ran answer x -> unsuccessful L user_prompt x) ->
  exists st,
    state (max_attempts - 1) = Some st
    /\ List.length (requests (final whole_loop)) = max_attempts
    /\ List.length (history (final whole_loop)) = max_attempts
    /\ h_reason (last (history (final whole_loop)) empty_entry)
       = fst (failure_report L user_prompt (run (max_attempts - 1) st))
    /\ h_stderr (last (history (final whole_loop)) empty_entry)
       = snd (failure_report L user_prompt (run (max_attempts - 1) st))
    /\ result whole_loop = result (after_loop (final whole_loop)).
Proof.
  intros Hun.
  destruct (loop_cases (max_attempts - 1) 0 (initial_state excerpt0))
    as (n & st & Hn & Hst & Hcase); [reflexivity | reflexivity |].
  pose proof (unsuccessful_attempt n st (fun answer x => Hun n st answer x Hn Hst))
    as Hrec.
  destruct Hcase as [(r & st' & E & _) | (st' & -> & E & Hloop)].
  { now apply recorded_not_return with (r := r) (st' := st') in Hrec. }
  exists st. split; [exact Hst|].
  change (attempt_loop body (seq 0 (S (max_attempts - 1))) (initial_state excerpt0))
    with whole_loop in Hloop.
  rewrite Hloop, final_after_loop.
  destruct Hrec as (st1 & entry & E1 & Hh & _ & Hreason & Herr).
  rewrite E in E1.
  destruct (break_if_last_cases (max_attempts - 1) st1) as [[_ E2] | [_ E2]];
    rewrite E2 in E1; [discriminate E1|]. injection E1 as <-.
  pose proof (break_records _ _ _ E) as [Hrecords _].
  assert (Hinv : after_attempts L html_content excerpt0 max_attempts st').
  { change max_attempts with (S (max_attempts - 1)).
    eapply records_step; [apply state_at_after; exact Hst | exact Hrecords]. }
  split; [eapply requests_after; exact Hinv|].
  split; [exact (aa_history _ _ _ _ _ Hinv)|].
  rewrite Hh, last_last. auto.
Qed.

End Loop.

(** ** Jobs *)

(** the job of a page that was fetched is the loop *)
Lemma fetched_job (W : World) (L : Lib) (objective url html : string)
  (cfg : settings) :
  http_get W url = Fetched html ->
  run_scraping_job W L objective url cfg
  = attempt_loop
      (attempt_body W L objective url cfg html (create_html_structure_map L html)
         ("run_" ++ uuid_hex8 W))
      (seq 0 max_attempts)
      (initial_state (extract_relevant_html L html objective)).
Proof. intros Hf. unfold run_scraping_job. now rewrite Hf. Qed.

(** C1.  Let the page be fetched, and let the run of the script be
    unsuccessful in every attempt that the job makes and that gets as far
    as running the script: its output is rejected by the validator, or it
    failed and left no marker on stderr.  Then the job ends with status
    "error" after five attempts, with five entries in its history.  The
    last entry holds the reason and the standard error of the failure of
    the fifth attempt, and the error that the job returns quotes them. *)
Theorem failing_job_exhausts_attempts (W : World) (L : Lib)
  (objective url html : string) (cfg : settings) :
  http_get W url = Fetched html ->
  (forall k st answer x, (k < max_attempts)%nat ->
     job_state W L objective url cfg html k = Some st ->
     job_attempt W L objective url cfg html k st = Ran answer x ->
     unsuccessful L objective x) ->
  let run := run_scraping_job W L objective url cfg in
  status (result run) = "error"
  /\ List.length (requests (final run)) = 5%nat
  /\ List.length (history (final run)) = 5%nat
  /\ exists st,
       job_state W L objective url cfg html 4 = Some st
       /\ let report :=
            failure_report L objective (job_attempt W L objective url cfg html 4 st) in
          h_reason (last (history (final run)) empty_entry) = fst report
          /\ h_stderr (last (history (final run)) empty_entry) = snd report
          /\ result run
             = JobError msg_failed
                 (Some ("Final attempt failed: " ++ fst report ++ nl ++ nl
                        ++ "STDERR:" ++ nl ++ snd report)).
Proof.
  intros Hf Hun. cbv zeta. rewrite (fetched_job W L objective url html cfg Hf).
  destruct (failing_loop W L objective url cfg html (create_html_structure_map L html)
              ("run_" ++ uuid_hex8 W) (extract_relevant_html L html objective) Hun)
    as (st & Hst & Hrq & Hh & Hreason & Herr & Hres).
  assert (history (final (attempt_loop
            (attempt_body W L objective url cfg html (create_html_structure_map L html)
               ("run_" ++ uuid_hex8 W))
            (seq 0 max_attempts)
            (initial_state (extract_relevant_html L html objective)))) <> []) as Hne.
  { intros H. rewrite H in Hh. discriminate Hh. }
  rewrite Hres, (after_loop_result _ Hne), Hreason, Herr.
  split; [reflexivity|]. split; [exact Hrq|]. split; [exact Hh|].
  exists st. split; [exact Hst|]. auto.
Qed.

(** A script that prints an empty list five times. *)
Lemma failing_job_exhausts_attempts_witness :
  let run := run_scraping_job Examples.empty_list_world Reference.lib
               "get the table" Examples.url [] in
  status (result run) = "error"
  /\ List.length (requests (final run)) = 5%nat
  /\ List.length (history (final run)) = 5%nat
  /\ result run
     = JobError msg_failed
         (Some ("Final attempt failed: " ++ fb_empty_list ++ nl ++ nl
                ++ "STDERR:" ++ nl)).
Proof.
  cbv zeta.
  destruct (failing_job_exhausts_attempts Examples.empty_list_world Reference.lib
              "get the table" Examples.url Examples.table_page [])
    as (H1 & H2 & H3 & st & _ & _ & _ & H4).
  - reflexivity.
  - intros k st answer x _ _ Hrun.
    cbv [job_attempt run_of generate_script open_write subprocess_run
         Examples.empty_list_world Examples.world_of Examples.steady_oracle] in Hrun.
    injection Hrun as _ <-. vm_compute. reflexivity.
  - split; [exact H1|]. split; [exact H2|]. split; [exact H3|].
    rewrite H4.
    cbv [job_attempt run_of generate_script open_write subprocess_run
         Examples.empty_list_world Examples.world_of Examples.steady_oracle].
    vm_compute. reflexivity.
Defined.

(** The history that the oracle is given on attempt [i] has [i] entries:
    the first [i] entries of the history of the job, as they are at the
    end. *)
Lemma oracle_sees_prior_failures (W : World) (L : Lib)
  (objective url : string) (cfg : settings) :
  let run := run_scraping_job W L objective url cfg in
  forall i request,
    nth_error (requests (final run)) i = Some request ->
    g_history request = firstn i (history (final run))
    /\ List.length (g_history request) = i.
Proof.
  cbv zeta. unfold run_scraping_job.
  destruct (http_get W url) as [html | e | e];
    try (intros [|i] request H; discriminate H).
  intros i request Hnth.
  match type of Hnth with
  | nth_error (requests (final ?run)) _ = _ => set (st := final run) in *
  end.
  assert (Hwf : well_formed_trace L html (extract_relevant_html L html objective) st).
  { apply loop_trace, initial_after. }
  destruct Hwf as (_ & Hpa & Hle).
  assert (i < List.length (requests st))%nat as Hi
    by (apply nth_error_Some; congruence).
  pose proof (map_nth_error g_history _ _ Hnth) as Hm.
  rewrite Hpa, (nth_error_map_seq _ _ _ Hi) in Hm.
  injection Hm as Hm. split; [now symmetry|].
  rewrite <- Hm. apply firstn_length_le. lia.
Qed.

(** C2, at the failing input.  The oracle answers on attempt 0 and raises
    on attempt 1.  The history it is given on attempt 2 has two entries;
    the second, the record of attempt 1, carries the code of attempt 0,
    although no code was generated on attempt 1. *)
Theorem stale_code_is_recorded :
  let run := run_scraping_job Examples.quota_world Reference.lib
               "get the table" Examples.url [] in
  (forall request,
     generate_script Examples.quota_world 1 request = Raise "quota exceeded")
  /\ option_map (fun q => map (fun e => (h_reason e, h_code e)) (g_history q))
       (nth_error (requests (final run)) 2)
     = Some [(reason_execution_failed 1, "print(1)");
             (reason_unexpected "quota exceeded", "print(1)")].
Proof.
  split; [reflexivity|]. vm_compute. reflexivity.
Qed.




(** X21.  The excerpt of the first attempt is the one of the relevance
    reducer; the excerpt of every later attempt is the context expansion of
    the excerpt of the attempt before it. *)
Theorem retry_excerpts_are_expansions (W : World) (L : Lib)
  (objective url html : string) (cfg : settings) :
  http_get W url = Fetched html ->
  forall i request,
    nth_error (requests (final (run_scraping_job W L objective url cfg))) i
    = Some request ->
    g_html_content request
    = Nat.iter i (_expand_html_context L html)
        (extract_relevant_html L html objective).
Proof.
  intros Hf i request Hnth. unfold run_scraping_job in Hnth. rewrite Hf in Hnth.
  match type of Hnth with
  | nth_error (requests (final ?run)) _ = _ => set (st := final run) in *
  end.
  assert (Hwf : well_formed_trace L html (extract_relevant_html L html objective) st).
  { apply loop_trace, initial_after. }
  destruct Hwf as (Hex & _ & _).
  assert (i < List.length (requests st))%nat as Hi
    by (apply nth_error_Some; congruence).
  pose proof (map_nth_error g_html_content _ _ Hnth) as Hm.
  rewrite Hex, (nth_error_map_seq _ _ _ Hi) in Hm.
  injection Hm as Hm. now symmetry.
Qed.

(** The third attempt on the page with the table. *)
Lemma retry_excerpts_are_expansions_witness :
  option_map g_html_content
    (nth_error (requests (final (run_scraping_job Examples.crashing_world
                                   Reference.lib "get the table" Examples.url [])))
               2)
  = Some "<div><p>hi</p></div>".
Proof.
  destruct (nth_error _ 2) as [request|] eqn:E.
  - cbn [option_map]. f_equal.
    rewrite (retry_excerpts_are_expansions Examples.crashing_world Reference.lib
               "get the table" Examples.url Examples.table_page [] eq_refl
               2 request E).
    vm_compute. reflexivity.
  - vm_compute in E. discriminate E.
Defined.

(** C6, at the failing input.  On the page with the table, with a script
    that crashes every time, the excerpts of the five attempts have 167, 99,
    20, 20 and 20 characters.  The excerpt of the second attempt is the
    body; the expander, given the body, returns its first block, an element
    inside the excerpt it was to expand. *)
Lemma retry_excerpt_shrinks :
  let excerpts :=
    map g_html_content
      (requests (final (run_scraping_job Examples.crashing_world Reference.lib
                          "get the table" Examples.url []))) in
  map len excerpts = [167; 99; 20; 20; 20]
  /\ nth 1 excerpts EmptyString
     = "<body><div><p>hi</p></div><div><div><table><tr><td>a</td><td>b</td></tr></table></div></div></body>"
  /\ nth 2 excerpts EmptyString = "<div><p>hi</p></div>"
  /\ contains (nth 2 excerpts EmptyString) (nth 1 excerpts EmptyString) = true.
Proof.
  cbv zeta. split; [|split; [|split]]; vm_compute; reflexivity.
Qed.

(* ===================================================================== *)
(** * Further properties                                                  *)
(* ===================================================================== *)

(** ** The execution adapter *)

(** X2.  An exit code of 0 is only ever returned for a script that ran to
    its end after [pip] had succeeded, and then with the output of the
    script: none of the failures that the function turns into a record is
    reported with exit code 0. *)
Theorem exit_code_zero_is_a_finished_script
  (run : command -> workdir -> proc_outcome) (path : workdir) :
  exit_code (run_script_in_dir run path) = 0 ->
  exists out err script_out script_err,
    run PipInstall path = Completed 0 out err
    /\ run PythonScraper path = Completed 0 script_out script_err
    /\ run_script_in_dir run path
       = {| stdout := script_out; stderr := script_err; exit_code := 0 |}.
Proof.
  unfold run_script_in_dir.
  destruct (run PipInstall path) as [rc out err | | msg]; cbn; try discriminate.
  destruct (rc =? 0) eqn:E; cbn; try discriminate.
  apply Z.eqb_eq in E. subst rc.
  destruct (run PythonScraper path) as [rc2 so se | | msg]; cbn; try discriminate.
  intros ->. eauto 10.
Qed.

Lemma exit_code_zero_is_a_finished_script_witness :
  exists out err script_out script_err,
    subprocess_run Examples.chatty_world 0 PipInstall empty_dir = Completed 0 out err
    /\ subprocess_run Examples.chatty_world 0 PythonScraper empty_dir
       = Completed 0 script_out script_err
    /\ run_script_in_dir (subprocess_run Examples.chatty_world 0) empty_dir
       = {| stdout := script_out; stderr := script_err; exit_code := 0 |}.
Proof.
  apply (exit_code_zero_is_a_finished_script
           (subprocess_run Examples.chatty_world 0) empty_dir).
  reflexivity.
Defined.

(** X3.  When [pip] does not end with exit code 0, the script is not run:
    what is returned does not depend on what running it would do. *)
Theorem failed_install_skips_the_script
  (run1 run2 : command -> workdir -> proc_outcome) (path : workdir) :
  run1 PipInstall path = run2 PipInstall path ->
  (forall out err, run1 PipInstall path <> Completed 0 out err) ->
  run_script_in_dir run1 path = run_script_in_dir run2 path.
Proof.
  intros Heq Hfail. unfold run_script_in_dir. rewrite <- Heq.
  destruct (run1 PipInstall path) as [rc out err | | msg]; try reflexivity.
  destruct (rc =? 0) eqn:E; [|reflexivity].
  apply Z.eqb_eq in E. subst rc. now destruct (Hfail out err).
Qed.

Lemma failed_install_skips_the_script_witness :
  run_script_in_dir Examples.install_failure empty_dir
  = run_script_in_dir MoreExamples.install_failure_then_timeout empty_dir.
Proof.
  apply (failed_install_skips_the_script Examples.install_failure
           MoreExamples.install_failure_then_timeout empty_dir).
  - reflexivity.
  - intros out err. discriminate.
Defined.

(** ** The validator *)

(** X4.  A verdict is valid only for an output with a visible character
    that is a JSON list with a record in it, a JSON object with a field in
    it, or no JSON at all. *)
Theorem valid_verdict_is_sound (L : Lib) (out objective : string) :
  valid (validate_scraper_results L out objective) = true ->
  blank out = false
  /\ ((exists data, json_loads L out = JsonOk (JList data) /\ data <> [])
      \/ (exists fields, json_loads L out = JsonOk (JDict fields) /\ fields <> [])
      \/ json_loads L out = JSONDecodeError).
Proof.
  unfold validate_scraper_results. rewrite strip_blank.
  destruct (blank out); [cbn; discriminate|].
  intros H. split; [reflexivity|].
  destruct (json_loads L out) as [v | | msg];
    [| now right; right | cbn in H; discriminate].
  destruct v as [ | b | z | r | s | items | fields]; try (cbn in H; discriminate).
  - left. exists items. split; [reflexivity|].
    intros ->. cbn in H. discriminate.
  - right. left. exists fields. split; [reflexivity|].
    intros ->. cbn in H. discriminate.
Qed.

Lemma valid_verdict_is_sound_witness :
  blank Examples.six_records = false
  /\ ((exists data, json_loads Reference.lib Examples.six_records = JsonOk (JList data)
                    /\ data <> [])
      \/ (exists fields, json_loads Reference.lib Examples.six_records
                         = JsonOk (JDict fields) /\ fields <> [])
      \/ json_loads Reference.lib Examples.six_records = JSONDecodeError).
Proof.
  apply (valid_verdict_is_sound Reference.lib Examples.six_records "get 5 items").
  vm_compute. reflexivity.
Defined.

Lemma image_rule_sample data objective :
  image_rule data objective = image_rule (firstn 3 data) objective.
Proof.
  unfold image_rule.
  destruct (existsb _ image_keywords); [|reflexivity].
  assert (firstn 3 (firstn 3 data) = firstn 3 data) as ->.
  { rewrite firstn_firstn. reflexivity. }
  destruct data as [|a [|b [|c data]]]; reflexivity.
Qed.

(** X5.  The verdict on a JSON list depends on the number of its records
    and on its first three records only: two outputs that parse as lists
    of the same length with the same first three records get the same
    verdict. *)
Theorem verdict_depends_on_length_and_sample (L : Lib)
  (out1 out2 objective : string) (data1 data2 : list json) :
  blank out1 = false -> blank out2 = false ->
  json_loads L out1 = JsonOk (JList data1) ->
  json_loads L out2 = JsonOk (JList data2) ->
  List.length data1 = List.length data2 ->
  firstn 3 data1 = firstn 3 data2 ->
  validate_scraper_results L out1 objective
  = validate_scraper_results L out2 objective.
Proof.
  intros Hb1 Hb2 Hj1 Hj2 Hlen Hs. unfold validate_scraper_results.
  rewrite !strip_blank, Hb1, Hb2, Hj1, Hj2. f_equal.
  unfold validate_list. rewrite Hlen.
  rewrite (image_rule_sample data1), (image_rule_sample data2), Hs.
  reflexivity.
Qed.

Lemma verdict_depends_on_length_and_sample_witness :
  validate_scraper_results Reference.lib "[1, 2, 3, 4]" "get 4 images"
  = validate_scraper_results Reference.lib "[1, 2, 3, 5]" "get 4 images".
Proof.
  apply (verdict_depends_on_length_and_sample Reference.lib
           "[1, 2, 3, 4]" "[1, 2, 3, 5]" "get 4 images"
           [JInt 1; JInt 2; JInt 3; JInt 4] [JInt 1; JInt 2; JInt 3; JInt 5]);
    reflexivity.
Defined.

(** X6.  For an objective that names an image, a picture, a photo or an
    img, a list with records in it that the count rule lets through is
    valid exactly when one of its first three records, printed, contains
    "url" in any case or "http". *)
Theorem image_objective_needs_urls (L : Lib) (out objective : string)
  (data : list json) :
  blank out = false ->
  json_loads L out = JsonOk (JList data) ->
  data <> [] ->
  count_rule_passes objective data ->
  existsb (fun keyword => contains keyword (lower objective)) image_keywords = true ->
  validate_scraper_results L out objective
  = if existsb shows_url (firstn 3 data)
    then {| valid := true; feedback := fb_items (Z.of_nat (List.length data)) |}
    else {| valid := false; feedback := fb_no_urls |}.
Proof.
  intros Hb Hj Hne Hcount Hkw. unfold validate_scraper_results.
  rewrite strip_blank, Hb, Hj. cbn [negb]. unfold validate_list.
  destruct (Z.of_nat (List.length data) =? 0) eqn:E0.
  { apply Z.eqb_eq in E0. destruct data; [congruence | discriminate E0]. }
  assert (Himg : image_rule data objective
                 = if existsb shows_url (firstn 3 data) then None
                   else Some {| valid := false; feedback := fb_no_urls |}).
  { unfold image_rule. rewrite Hkw.
    assert ((0 <? Z.of_nat (List.length data)) = true) as ->.
    { apply Z.ltb_lt. apply Z.eqb_neq in E0. lia. }
    change (fun item => contains "url" (lower (py_str item))
                        || contains "http" (py_str item))
      with shows_url.
    destruct (existsb shows_url (firstn 3 data)); reflexivity. }
  unfold count_rule_passes in Hcount.
  destruct (search_digits objective) as [digits|].
  - destruct (py_int digits) as [requested_count|e]; [|discriminate Hcount].
    cbn [bind] in Hcount |- *. rewrite Hcount. cbn [bind try_except].
    rewrite Himg.
    destruct (existsb shows_url (firstn 3 data)); reflexivity.
  - cbn [bind try_except]. rewrite Himg.
    destruct (existsb shows_url (firstn 3 data)); reflexivity.
Qed.

Lemma image_objective_needs_urls_witness :
  validate_scraper_results Reference.lib MoreExamples.one_link "get image links"
  = {| valid := true; feedback := "Successfully extracted 1 items" |}
  /\ validate_scraper_results Reference.lib "[1, 2, 3, 4]" "get 4 images"
     = {| valid := false; feedback := fb_no_urls |}.
Proof.
  split.
  - apply (image_objective_needs_urls Reference.lib MoreExamples.one_link
             "get image links" [JStr "http://x/a.png"]);
      try reflexivity. discriminate.
  - apply (image_objective_needs_urls Reference.lib "[1, 2, 3, 4]" "get 4 images"
             [JInt 1; JInt 2; JInt 3; JInt 4]);
      try reflexivity. discriminate.
Defined.

(** ** The job *)

Section Details.

Variables (W : World) (L : Lib).
Variables (user_prompt url : string) (cfg : settings).
Variables (html_content structure_map run_id excerpt0 : string).

Local Abbreviation body :=
  (attempt_body W L user_prompt url cfg html_content structure_map run_id).
Local Abbreviation at_attempt :=
  (progress L user_prompt url cfg html_content structure_map excerpt0).
Local Abbreviation report :=
  (job_report W L user_prompt url cfg structure_map run_id).

(** what one pass through the body does to the trace and to the history *)
Lemma attempt_body_details attempt st :
  requests (step_state (body attempt st))
  = (requests st
     ++ [request_of L user_prompt url cfg html_content structure_map attempt st])%list
  /\ (history (step_state (body attempt st)) = history st
      \/ exists entry,
           history (step_state (body attempt st)) = (history st ++ [entry])%list
           /\ len (h_stdout entry) <= 2003).
Proof.
  unfold attempt_body. cbv zeta.
  set (expand := retrying attempt st).
  set (st0 := if expand then set_relevant_html
                 (_expand_html_context L html_content (last_snippet st)) st else st).
  assert (Hh : history st0 = history st) by (unfold st0; destruct expand; reflexivity).
  assert (Hq : requests st0 = requests st) by (unfold st0; destruct expand; reflexivity).
  assert (Hx : relevant_html st0 = excerpt_of L html_content attempt st).
  { unfold st0, excerpt_of. fold expand. destruct expand; reflexivity. }
  assert (Hr : {| g_prompt := user_prompt; g_url := url;
                  g_html_content := relevant_html st0; g_settings := cfg;
                  g_history := history st0;
                  g_structure_map := if expand then None else Some structure_map |}
               = request_of L user_prompt url cfg html_content structure_map attempt st).
  { unfold request_of. fold expand. now rewrite Hx, Hh. }
  rewrite Hr.
  set (request := request_of L user_prompt url cfg html_content structure_map attempt st).
  assert (Hbreak : forall e st1,
            requests st1 = (requests st0 ++ [request])%list ->
            history st1 = history st0 ->
            len (h_stdout e) <= 2003 ->
            requests (step_state (break_if_last attempt (append_history e st1)))
            = (requests st ++ [request])%list
            /\ (history (step_state (break_if_last attempt (append_history e st1)))
                = history st
                \/ exists entry,
                     history (step_state (break_if_last attempt (append_history e st1)))
                     = (history st ++ [entry])%list
                     /\ len (h_stdout entry) <= 2003)).
  { intros e st1 H1 H2 H3. unfold break_if_last.
    destruct (attempt =? max_attempts - 1)%nat; cbn; rewrite H1, H2, Hq, Hh;
      (split; [reflexivity | right; exists e; auto]). }
  assert (Hexc : forall e st1,
            requests st1 = (requests st0 ++ [request])%list ->
            history st1 = history st0 ->
            requests (step_state (on_exception attempt e st1))
            = (requests st ++ [request])%list
            /\ (history (step_state (on_exception attempt e st1)) = history st
                \/ exists entry,
                     history (step_state (on_exception attempt e st1))
                     = (history st ++ [entry])%list
                     /\ len (h_stdout entry) <= 2003)).
  { intros e st1 H1 H2. unfold on_exception. apply Hbreak; auto. cbn. lia. }
  assert (Hfail : forall reason current x st1,
            len (h_stdout (failure_entry reason current x st1)) <= 2003).
  { intros. cbn [failure_entry h_stdout]. apply (len_truncate_preview _ 2000). lia. }
  destruct (generate_script W attempt request) as [result | e];
    [|apply Hexc; reflexivity].
  destruct (open_write W attempt "scraper.py" (scraper_py result)) as [[] | e];
    [|apply Hexc; reflexivity].
  destruct (open_write W attempt "requirements.txt" (requirements_txt result))
    as [[] | e]; [|apply Hexc; reflexivity].
  match goal with
  | |- context [run_script_in_dir ?f ?d] => set (x := run_script_in_dir f d)
  end.
  destruct ((exit_code x =? 0) && negb (is_empty (strip (stdout x)))).
  - destruct (valid (validate_scraper_results L (stdout x) user_prompt)).
    + destruct (_create_zip_package _ _ _ _) as [zip_path | e];
        [|apply Hexc; reflexivity].
      cbn. rewrite Hq, Hh. auto.
    + apply Hbreak; auto.
  - destruct (contains playwright_marker (lower (stderr x))).
    + destruct (_create_zip_package _ _ _ _) as [zip_path | e];
        [|apply Hexc; reflexivity].
      cbn. rewrite Hq, Hh. auto.
    + apply Hbreak; auto.
Qed.

Lemma break_if_last_state attempt st : step_state (break_if_last attempt st) = st.
Proof. unfold break_if_last. now destruct (attempt =? max_attempts - 1)%nat. Qed.

Lemma break_if_last_inj attempt st st' :
  break_if_last attempt st = break_if_last attempt st' -> st = st'.
Proof.
  intros H. apply (f_equal step_state) in H. now rewrite !break_if_last_state in H.
Qed.

(** induction over the attempts of the loop *)
Lemma loop_invariant (P : nat -> loop_state -> Prop) (Q : job_run -> Prop) :
  (forall k st r st', P k st -> (k < max_attempts)%nat ->
     body k st = Return r st' -> Q {| result := r; final := st' |}) ->
  (forall k st st', P k st -> (k < max_attempts)%nat ->
     body k st = break_if_last k st' -> P (S k) st') ->
  (forall st, P max_attempts st -> Q (after_loop st)) ->
  forall m k st, (k + m = max_attempts)%nat -> P k st ->
    Q (attempt_loop body (seq k m) st).
Proof.
  intros Hret Hstep Hend.
  induction m as [|m IH]; intros k st Hkm HP; cbn [seq attempt_loop].
  - apply Hend. now replace max_attempts with k by lia.
  - destruct (attempt_body_cases W L user_prompt url cfg html_content structure_map
                run_id k st) as [(r & st' & E & _) | (st' & E & _)].
    + rewrite E. apply (Hret k st r st'); auto. lia.
    + assert (P (S k) st') as HP' by (apply (Hstep k st st'); auto; lia).
      rewrite E. unfold break_if_last.
      destruct (k =? max_attempts - 1)%nat eqn:Ek.
      * apply Nat.eqb_eq in Ek. apply Hend.
        now replace max_attempts with (S k) by lia.
      * apply IH; auto. lia.
Qed.

Lemma request_of_attempt k st :
  List.length (history st) = k ->
  let q := request_of L user_prompt url cfg html_content structure_map k st in
  g_prompt q = user_prompt /\ g_url q = url /\ g_settings q = cfg
  /\ g_structure_map q = if (k =? 0)%nat then Some structure_map else None.
Proof.
  intros Hk. cbn. repeat split. unfold retrying.
  destruct k as [|k]; [reflexivity|].
  destruct (history st); [discriminate Hk | reflexivity].
Qed.

Lemma requests_so_far_step k st st' :
  List.length (history st) = k ->
  requests_so_far user_prompt url cfg structure_map k st ->
  requests st'
  = (requests st
     ++ [request_of L user_prompt url cfg html_content structure_map k st])%list ->
  requests_so_far user_prompt url cfg structure_map (S k) st'.
Proof.
  intros Hk [Hall Hmap] Hq.
  destruct (request_of_attempt k st Hk) as (H1 & H2 & H3 & H4).
  split.
  - rewrite Hq. apply Forall_app. split; [exact Hall|]. constructor; auto.
  - rewrite Hq, map_app, seq_S, map_app, Hmap. cbn [map Nat.add]. now rewrite H4.
Qed.

Lemma progress_step k st st' :
  at_attempt k st -> body k st = break_if_last k st' -> at_attempt (S k) st'.
Proof.
  intros (Haa & Hrq & Hsb) E.
  destruct (attempt_body_cases W L user_prompt url cfg html_content structure_map
              run_id k st) as [(r & st1 & E1 & _) | (st1 & E1 & Hrec)].
  { rewrite E in E1. revert E1. unfold break_if_last.
    destruct (k =? max_attempts - 1)%nat; discriminate. }
  rewrite E in E1. apply break_if_last_inj in E1. subst st1.
  pose proof (attempt_body_details k st) as [Hq Hh].
  rewrite E, break_if_last_state in Hq, Hh.
  split; [|split].
  - eapply records_step; eauto.
  - eapply requests_so_far_step; eauto. apply (aa_history _ _ _ _ _ Haa).
  - unfold samples_bounded in *. destruct Hh as [-> | (entry & -> & Hb)]; auto.
    apply Forall_app. split; auto.
Qed.

Lemma report_after_loop st :
  at_attempt max_attempts st ->
  report
    (after_loop st).
Proof.
  intros (Haa & Hrq & Hsb). unfold job_report. cbv zeta.
  rewrite final_after_loop.
  pose proof (requests_after _ _ _ _ _ Haa) as Hn.
  destruct Haa as [Hlen Hsn Hex _ _]. rewrite Hn, Hlen.
  split; [exact Hrq|]. split; [exact Hsb|]. split.
  - rewrite Hsn, Hex. symmetry. apply firstn_all2.
    rewrite length_map, length_seq. lia.
  - left. auto.
Qed.

Lemma report_return k st r st' :
  at_attempt k st -> (k < max_attempts)%nat -> body k st = Return r st' ->
  report
    {| result := r; final := st' |}.
Proof.
  intros (Haa & Hrq & Hsb) Hk E.
  destruct (attempt_body_cases W L user_prompt url cfg html_content structure_map
              run_id k st) as [(r1 & st1 & E1 & Hret) | (st1 & E1 & _)].
  2:{ rewrite E in E1. revert E1. unfold break_if_last.
      destruct (k =? max_attempts - 1)%nat; discriminate. }
  rewrite E in E1. injection E1 as <- <-.
  pose proof (attempt_body_details k st) as [Hq _].
  rewrite E in Hq. cbn [step_state] in Hq.
  destruct (trace_of_return W L user_prompt html_content run_id excerpt0 _ _ _ _
              Haa Hret) as ((Hex & _ & _) & Hn & Hh).
  destruct Hret as (Hhist & _ & _ & x & zip_path & Hx & Hz & Hcase).
  pose proof (aa_history _ _ _ _ _ Haa) as Hlen.
  unfold job_report. cbn [final result]. rewrite Hn, Hh.
  split; [eapply requests_so_far_step; eauto|].
  split; [unfold samples_bounded; now rewrite Hhist|].
  split.
  - rewrite Hhist, (aa_snippets _ _ _ _ _ Haa), Hex, Hn, seq_S, map_app.
    rewrite firstn_app, length_map, length_seq, Nat.sub_diag. cbn [firstn].
    rewrite app_nil_r. symmetry. apply firstn_all2.
    rewrite length_map, length_seq. lia.
  - right. exists k. split; [exact Hk|]. split; [reflexivity|]. split; [reflexivity|].
    exists x, zip_path. cbn [final result]. auto.
Qed.

Lemma initial_progress : at_attempt 0 (initial_state excerpt0).
Proof.
  split; [apply initial_after|]. split; [|constructor].
  split; [constructor | reflexivity].
Qed.

(** every run of the loop ends as the report says *)
Lemma loop_report :
  report
    (attempt_loop body (seq 0 max_attempts) (initial_state excerpt0)).
Proof.
  apply (loop_invariant at_attempt report).
  - intros k st r st' HP Hk E. eapply report_return; eauto.
  - intros k st st' HP Hk E. eapply progress_step; eauto.
  - apply report_after_loop.
  - reflexivity.
  - apply initial_progress.
Qed.

End Details.

Lemma fetched_job_report (W : World) (L : Lib) (objective url html : string)
  (cfg : settings) :
  http_get W url = Fetched html ->
  job_report W L objective url cfg (create_html_structure_map L html)
    ("run_" ++ uuid_hex8 W) (run_scraping_job W L objective url cfg).
Proof.
  intros Hf. unfold run_scraping_job. rewrite Hf. apply loop_report.
Qed.

Lemma after_loop_is_error st : exists m e, result (after_loop st) = JobError m e.
Proof. unfold after_loop. destruct (history st); cbn; eauto. Qed.

Lemma zip_package_written W k dir run_id zip_path :
  _create_zip_package W k dir run_id = Ret zip_path ->
  zip_write W k dir = Ret tt
  /\ zip_path = path_join (path_join (getcwd W) "downloads") (run_id ++ ".zip").
Proof.
  unfold _create_zip_package. destruct (zip_write W k dir) as [[]|e]; cbn.
  - intros H. injection H as <-. auto.
  - discriminate.
Qed.

(** X7.  A job whose page was fetched ends in one of three ways.  It
    returns from attempt [k], for a [k] below 5, with the status [success]
    or [action_required], after [k + 1] requests and with [k] failures in
    its history.  Or it makes all 5 requests, records 5 failures, and
    returns the error made from the reason and the standard error of the
    last failure. *)
Theorem job_ends_in_one_of_three_ways (W : World) (L : Lib)
  (objective url html : string) (cfg : settings) :
  http_get W url = Fetched html ->
  let run := run_scraping_job W L objective url cfg in
  let last_entry := last (history (final run)) empty_entry in
  (exists k, (k < 5)%nat
             /\ List.length (requests (final run)) = S k
             /\ List.length (history (final run)) = k
             /\ (status (result run) = "success"
                 \/ status (result run) = "action_required"))
  \/ (List.length (requests (final run)) = 5%nat
      /\ List.length (history (final run)) = 5%nat
      /\ result run
         = JobError msg_failed
             (Some ("Final attempt failed: " ++ h_reason last_entry ++ nl ++ nl
                    ++ "STDERR:" ++ nl ++ h_stderr last_entry))).
Proof.
  intros Hf. cbv zeta.
  destruct (fetched_job_report W L objective url html cfg Hf)
    as (_ & _ & _ & [(Hq & Hh & Hr) | (k & Hk & Hq & Hh & x & z & _ & _ & Hcase)]).
  - right. split; [exact Hq|]. split; [exact Hh|].
    rewrite Hr. apply after_loop_result. intros E. rewrite E in Hh. discriminate Hh.
  - left. exists k. split; [exact Hk|]. split; [exact Hq|]. split; [exact Hh|].
    destruct ((exit_code x =? 0) && negb (is_empty (strip (stdout x))));
      destruct Hcase as [_ ->]; auto.
Qed.

Lemma job_ends_in_one_of_three_ways_witness :
  let run := run_scraping_job Examples.crashing_world Reference.lib
               "get the table" Examples.url [] in
  let last_entry := last (history (final run)) empty_entry in
  (exists k, (k < 5)%nat
             /\ List.length (requests (final run)) = S k
             /\ List.length (history (final run)) = k
             /\ (status (result run) = "success"
                 \/ status (result run) = "action_required"))
  \/ (List.length (requests (final run)) = 5%nat
      /\ List.length (history (final run)) = 5%nat
      /\ result run
         = JobError msg_failed
             (Some ("Final attempt failed: " ++ h_reason last_entry ++ nl ++ nl
                    ++ "STDERR:" ++ nl ++ h_stderr last_entry))).
Proof.
  apply (job_ends_in_one_of_three_ways Examples.crashing_world Reference.lib
           "get the table" Examples.url Examples.table_page []).
  reflexivity.
Defined.

(** X8.  A job reports success only for the run of an attempt of its
    own: the script that the oracle gave in that attempt, run in the
    working directory with the two files of that answer, exited with 0 and
    printed a visible character, the validator accepted its output, and the
    archive of that directory was written.  The preview it returns is that
    output cut to 500 characters, so at most 503 characters long. *)
Theorem success_is_validated_output (W : World) (L : Lib)
  (objective url : string) (cfg : settings)
  (message preview download zip_path : string) :
  let run := run_scraping_job W L objective url cfg in
  result run = JobSuccess message preview download zip_path ->
  exists html k st answer x,
    http_get W url = Fetched html
    /\ (k < 5)%nat
    /\ job_state W L objective url cfg html k = Some st
    /\ job_attempt W L objective url cfg html k st = Ran answer x
    /\ exit_code x = 0
    /\ blank (stdout x) = false
    /\ valid (validate_scraper_results L (stdout x) objective) = true
    /\ preview = _truncate_preview (stdout x) 500
    /\ len preview <= 503
    /\ zip_write W k (files_of answer) = Ret tt
    /\ temp_dir (final run) = files_of answer
    /\ zip_path = zip_path_of W ("run_" ++ uuid_hex8 W).
Proof.
  cbv zeta. intros Hres.
  destruct (http_get W url) as [html | e | e] eqn:Hf;
    try (unfold run_scraping_job in Hres; rewrite Hf in Hres; discriminate Hres).
  rewrite (fetched_job W L objective url html cfg Hf) in Hres |- *.
  exists html.
  destruct (loop_cases W L objective url cfg html (create_html_structure_map L html)
              ("run_" ++ uuid_hex8 W) (extract_relevant_html L html objective)
              (max_attempts - 1) 0 _ eq_refl eq_refl)
    as (k & st & Hk & Hst & [(r & st' & E & Hloop) | (st' & _ & _ & Hloop)]).
  - change (seq 0 (S (max_attempts - 1))) with (seq 0 max_attempts) in Hloop.
    rewrite Hloop in Hres |- *. cbn [result final] in Hres |- *. subst r.
    destruct (return_inversion _ _ _ _ _ _ _ _ _ _ _ _ E)
      as (answer & x & Hrun & Hzip & Hdir
          & [(H0 & Hb & Hv & Hr) | (_ & _ & Hr)]); [|discriminate Hr].
    injection Hr as -> -> -> ->.
    exists k, st, answer, x. repeat split; auto.
    apply (len_truncate_preview _ 500). lia.
  - change (seq 0 (S (max_attempts - 1))) with (seq 0 max_attempts) in Hloop.
    rewrite Hloop in Hres.
    destruct (after_loop_is_error st') as (m & e & He). congruence.
Qed.

Lemma success_is_validated_output_witness :
  exists html k st answer x,
    http_get Examples.chatty_world Examples.url = Fetched html
    /\ (k < 5)%nat
    /\ job_state Examples.chatty_world Reference.lib "get the table" Examples.url []
         html k = Some st
    /\ job_attempt Examples.chatty_world Reference.lib "get the table" Examples.url []
         html k st = Ran answer x
    /\ exit_code x = 0
    /\ blank (stdout x) = false
    /\ valid (validate_scraper_results Reference.lib (stdout x) "get the table") = true
    /\ "done" = _truncate_preview (stdout x) 500
    /\ len "done" <= 503
    /\ zip_write Examples.chatty_world k (files_of answer) = Ret tt
    /\ temp_dir (final (run_scraping_job Examples.chatty_world Reference.lib
                          "get the table" Examples.url []))
       = files_of answer
    /\ "/srv/app/downloads/run_0a1b2c3d.zip"
       = zip_path_of Examples.chatty_world ("run_" ++ uuid_hex8 Examples.chatty_world).
Proof.
  apply (success_is_validated_output Examples.chatty_world Reference.lib
           "get the table" Examples.url [] msg_success "done"
           "/api/download/run_0a1b2c3d" "/srv/app/downloads/run_0a1b2c3d.zip").
  vm_compute. reflexivity.
Defined.

(** X9.  A job reports [action_required] only for the run of an attempt
    of its own: the script that the oracle gave in that attempt, run in the
    working directory with the two files of that answer, exited with
    another code than 0 or printed no visible character, its standard
    error, in lower case, contains the marker, and the archive of that
    directory was written. *)
Theorem action_required_is_marked (W : World) (L : Lib)
  (objective url : string) (cfg : settings)
  (message download zip_path : string) :
  let run := run_scraping_job W L objective url cfg in
  result run = JobActionRequired message download zip_path ->
  exists html k st answer x,
    http_get W url = Fetched html
    /\ (k < 5)%nat
    /\ job_state W L objective url cfg html k = Some st
    /\ job_attempt W L objective url cfg html k st = Ran answer x
    /\ (exit_code x <> 0 \/ blank (stdout x) = true)
    /\ contains playwright_marker (lower (stderr x)) = true
    /\ zip_write W k (files_of answer) = Ret tt
    /\ temp_dir (final run) = files_of answer
    /\ zip_path = zip_path_of W ("run_" ++ uuid_hex8 W).
Proof.
  cbv zeta. intros Hres.
  destruct (http_get W url) as [html | e | e] eqn:Hf;
    try (unfold run_scraping_job in Hres; rewrite Hf in Hres; discriminate Hres).
  rewrite (fetched_job W L objective url html cfg Hf) in Hres |- *.
  exists html.
  destruct (loop_cases W L objective url cfg html (create_html_structure_map L html)
              ("run_" ++ uuid_hex8 W) (extract_relevant_html L html objective)
              (max_attempts - 1) 0 _ eq_refl eq_refl)
    as (k & st & Hk & Hst & [(r & st' & E & Hloop) | (st' & _ & _ & Hloop)]).
  - change (seq 0 (S (max_attempts - 1))) with (seq 0 max_attempts) in Hloop.
    rewrite Hloop in Hres |- *. cbn [result final] in Hres |- *. subst r.
    destruct (return_inversion _ _ _ _ _ _ _ _ _ _ _ _ E)
      as (answer & x & Hrun & Hzip & Hdir
          & [(_ & _ & _ & Hr) | (Hnot & Hm & Hr)]); [discriminate Hr|].
    injection Hr as -> -> ->.
    exists k, st, answer, x. repeat split; auto.
  - change (seq 0 (S (max_attempts - 1))) with (seq 0 max_attempts) in Hloop.
    rewrite Hloop in Hres.
    destruct (after_loop_is_error st') as (m & e & He). congruence.
Qed.

Lemma action_required_is_marked_witness :
  exists html k st answer x,
    http_get Examples.browserless_world Examples.url = Fetched html
    /\ (k < 5)%nat
    /\ job_state Examples.browserless_world Reference.lib "get the table"
         Examples.url [] html k = Some st
    /\ job_attempt Examples.browserless_world Reference.lib "get the table"
         Examples.url [] html k st = Ran answer x
    /\ (exit_code x <> 0 \/ blank (stdout x) = true)
    /\ contains playwright_marker (lower (stderr x)) = true
    /\ zip_write Examples.browserless_world k (files_of answer) = Ret tt
    /\ temp_dir (final (run_scraping_job Examples.browserless_world Reference.lib
                          "get the table" Examples.url []))
       = files_of answer
    /\ "/srv/app/downloads/run_0a1b2c3d.zip"
       = zip_path_of Examples.browserless_world
           ("run_" ++ uuid_hex8 Examples.browserless_world).
Proof.
  apply (action_required_is_marked Examples.browserless_world Reference.lib
           "get the table" Examples.url [] msg_action_required
           "/api/download/run_0a1b2c3d" "/srv/app/downloads/run_0a1b2c3d.zip").
  vm_compute. reflexivity.
Defined.

(** X10.  Every request of a job carries the objective, the address and
    the settings of the job.  The structure map of the page goes out with
    the first request and with no other. *)
Theorem structure_map_goes_out_once (W : World) (L : Lib)
  (objective url html : string) (cfg : settings) :
  http_get W url = Fetched html ->
  forall i request,
    nth_error (requests (final (run_scraping_job W L objective url cfg))) i
    = Some request ->
    g_structure_map request
    = (if (i =? 0)%nat then Some (create_html_structure_map L html) else None)
    /\ g_prompt request = objective /\ g_url request = url
    /\ g_settings request = cfg.
Proof.
  intros Hf i request Hnth.
  destruct (fetched_job_report W L objective url html cfg Hf)
    as ((Hall & Hmap) & _).
  assert (i < List.length (requests (final (run_scraping_job W L objective url cfg))))%nat
    as Hi by (apply nth_error_Some; congruence).
  split.
  - pose proof (map_nth_error g_structure_map _ _ Hnth) as Hm.
    rewrite Hmap, (nth_error_map_seq _ _ _ Hi) in Hm. now injection Hm.
  - rewrite Forall_forall in Hall. apply Hall. eapply nth_error_In; eauto.
Qed.

Lemma structure_map_goes_out_once_witness :
  g_structure_map MoreExamples.second_request = None
  /\ g_prompt MoreExamples.second_request = "get the table"
  /\ g_url MoreExamples.second_request = Examples.url
  /\ g_settings MoreExamples.second_request = [].
Proof.
  apply (structure_map_goes_out_once Examples.crashing_world Reference.lib
           "get the table" Examples.url Examples.table_page [] eq_refl
           1%nat MoreExamples.second_request).
  vm_compute. reflexivity.
Defined.

(** X11.  Every entry of the history of a job was made by the attempt of
    its position: the excerpt it records is the excerpt that the request of
    that attempt carried, that request carried the entries before it, and
    the sample of the output it keeps is at most 2003 characters long. *)
Theorem history_records_the_excerpt_used (W : World) (L : Lib)
  (objective url : string) (cfg : settings) :
  let run := run_scraping_job W L objective url cfg in
  forall i entry,
    nth_error (history (final run)) i = Some entry ->
    len (h_stdout entry) <= 2003
    /\ exists request,
         nth_error (requests (final run)) i = Some request
         /\ g_history request = firstn i (history (final run))
         /\ h_html_snippet entry = g_html_content request.
Proof.
  cbv zeta. intros i entry Hnth.
  destruct (http_get W url) as [html | e | e] eqn:Hf;
    try (unfold run_scraping_job in Hnth; rewrite Hf in Hnth;
         destruct i; discriminate Hnth).
  destruct (fetched_job_report W L objective url html cfg Hf)
    as (_ & Hsb & Hsn & Hcase).
  set (st := final (run_scraping_job W L objective url cfg)) in *.
  assert (i < List.length (history st))%nat as Hi
    by (apply nth_error_Some; congruence).
  assert (i < List.length (requests st))%nat as Hi'.
  { destruct Hcase as [(Hq & Hh & _) | (k & _ & Hq & Hh & _)]; lia. }
  split.
  - unfold samples_bounded in Hsb. rewrite Forall_forall in Hsb.
    apply Hsb. eapply nth_error_In; eauto.
  - destruct (nth_error (requests st) i) as [request|] eqn:Hr;
      [|apply nth_error_None in Hr; lia].
    exists request. split; [reflexivity|]. split.
    + apply (oracle_sees_prior_failures W L objective url cfg i request Hr).
    + pose proof (map_nth_error h_html_snippet _ _ Hnth) as Hm.
      rewrite Hsn, nth_error_firstn in Hm.
      destruct (i <? List.length (history st))%nat eqn:Hlt;
        [|apply Nat.ltb_ge in Hlt; lia].
      rewrite (map_nth_error g_html_content _ _ Hr) in Hm. now injection Hm.
Qed.

Lemma history_records_the_excerpt_used_witness :
  let run := run_scraping_job Examples.crashing_world Reference.lib
               "get the table" Examples.url [] in
  len (h_stdout MoreExamples.second_failure) <= 2003
  /\ exists request,
       nth_error (requests (final run)) 1 = Some request
       /\ g_history request = firstn 1 (history (final run))
       /\ h_html_snippet MoreExamples.second_failure = g_html_content request.
Proof.
  apply (history_records_the_excerpt_used Examples.crashing_world Reference.lib
           "get the table" Examples.url [] 1%nat MoreExamples.second_failure).
  vm_compute. reflexivity.
Defined.

(** ** The context expander, when it climbs *)

(** the element to which the expander climbs is an element of the full
    document other than [body] and [html], and a string that matches the
    first words of the anchor lies below it *)
Lemma expansion_contains_its_anchor (full_soup snippet_soup : node) (parent : elem) :
  expansion_of full_soup snippet_soup = Climbed parent ->
  name_in ["body"; "html"] (fst parent) = false
  /\ (parent = root full_soup \/ In parent (descendants_of (root full_soup)))
  /\ exists first found,
       find (fun tag => negb (name_is "html" tag) && negb (name_is "body" tag))
            (root snippet_soup) = Some first
       /\ In found (descendants_of parent)
       /\ exists k s, fst found = NavigableString k s
                      /\ regex_search (firstn 15 (split (get_text " " first))) s = true.
Proof.
  unfold expansion_of.
  destruct (find _ (root snippet_soup)) as [first|] eqn:Hfirst; [|discriminate].
  destruct (is_empty (get_text " " first)); [discriminate|].
  destruct (find_all_text _ (root full_soup)) as [|found rest] eqn:Hall;
    [discriminate|].
  assert (In found (find_all_text (firstn 15 (split (get_text " " first)))
                      (root full_soup))) as Hin by (rewrite Hall; now left).
  apply filter_In in Hin as [Hin Hmatch].
  destruct found as [d danc]. cbn [snd fst] in *.
  destruct danc as [|target [|p up]]; try discriminate.
  destruct (negb (name_in ["body"; "html"] p)) eqn:Hname; [|discriminate].
  intros H. injection H as <-. cbn [fst].
  apply negb_true_iff in Hname.
  unfold descendants_of, root in *. cbn [fst snd] in *.
  pose proof (parent_is_an_element _ _ _ _ _ Hin) as Htarget.
  destruct Htarget as [[_ Habs] | Htarget]; [discriminate Habs|].
  split; [exact Hname|]. split.
  - destruct (parent_is_an_element _ _ _ _ _ Htarget) as [[-> ->] | Hp]; auto.
  - exists first, (d, target :: p :: up). split; [reflexivity|]. split.
    + apply (descendants_trans p up (target, p :: up)).
      * eapply element_below_parent; eauto.
      * cbn [fst snd]. eapply element_below_parent; eauto.
    + destruct d as [k s | ? ? ?]; [|discriminate].
      exists k, s. split; [reflexivity | exact Hmatch].
Qed.

(** X14.  Whatever the previous excerpt is, the expander returns the
    document as it was given, or the text of an element of the parsed
    document: its [body], or an element other than [body] and [html] with,
    somewhere below it, a string that matches the first words of the first
    element of the previous excerpt. *)
Theorem expansion_is_part_of_the_page (L : Lib) (full_html last_snippet : string)
  (full_soup : node) :
  BeautifulSoup L full_html = Ret full_soup ->
  let expanded := _expand_html_context L full_html last_snippet in
  expanded = full_html
  \/ (exists body, find (name_is "body") (root full_soup) = Some body
                   /\ In body (descendants_of (root full_soup))
                   /\ expanded = str body)
  \/ (exists parent snippet_soup first found k s,
        (parent = root full_soup \/ In parent (descendants_of (root full_soup)))
        /\ name_in ["body"; "html"] (fst parent) = false
        /\ expanded = str parent
        /\ BeautifulSoup L last_snippet = Ret snippet_soup
        /\ find (fun tag => negb (name_is "html" tag) && negb (name_is "body" tag))
                (root snippet_soup) = Some first
        /\ In found (descendants_of parent)
        /\ fst found = NavigableString k s
        /\ regex_search (firstn 15 (split (get_text " " first))) s = true).
Proof.
  intros Hf. cbv zeta. unfold _expand_html_context. rewrite Hf. cbn [bind].
  destruct (BeautifulSoup L last_snippet) as [snippet_soup | e] eqn:Hs;
    [|left; reflexivity].
  cbn [bind].
  assert (Hbody : try_except (Ret (body_or_document full_soup full_html))
                    (fun _ => full_html) = full_html
                  \/ exists body, find (name_is "body") (root full_soup) = Some body
                                  /\ In body (descendants_of (root full_soup))
                                  /\ try_except
                                       (Ret (body_or_document full_soup full_html))
                                       (fun _ => full_html) = str body).
  { unfold body_or_document. cbn [try_except].
    destruct (find (name_is "body") (root full_soup)) as [body|] eqn:Hb.
    - right. exists body. split; [reflexivity|]. split; [|reflexivity].
      now apply find_in in Hb.
    - now left. }
  destruct (expansion_of full_soup snippet_soup) as [ | | | | parent] eqn:He;
    try (destruct Hbody as [Hb | Hb]; [left; exact Hb | right; left; exact Hb]).
  right. right.
  destruct (expansion_contains_its_anchor _ _ _ He)
    as (Hname & Hin & first & found & Hfirst & Hfound & k & s & Hk & Hm).
  exists parent, snippet_soup, first, found, k, s. cbn [try_except]. auto 10.
Qed.

Lemma expansion_is_part_of_the_page_witness :
  let expanded :=
    _expand_html_context Reference.lib MoreExamples.table_body "<td>a</td>" in
  expanded = MoreExamples.table_body
  \/ (exists body, find (name_is "body") (root MoreExamples.body_soup) = Some body
                   /\ In body (descendants_of (root MoreExamples.body_soup))
                   /\ expanded = str body)
  \/ (exists parent snippet_soup first found k s,
        (parent = root MoreExamples.body_soup
         \/ In parent (descendants_of (root MoreExamples.body_soup)))
        /\ name_in ["body"; "html"] (fst parent) = false
        /\ expanded = str parent
        /\ BeautifulSoup Reference.lib "<td>a</td>" = Ret snippet_soup
        /\ find (fun tag => negb (name_is "html" tag) && negb (name_is "body" tag))
                (root snippet_soup) = Some first
        /\ In found (descendants_of parent)
        /\ fst found = NavigableString k s
        /\ regex_search (firstn 15 (split (get_text " " first))) s = true).
Proof.
  apply (expansion_is_part_of_the_page Reference.lib MoreExamples.table_body
           "<td>a</td>" MoreExamples.body_soup).
  vm_compute. reflexivity.
Defined.

(** ** The excerpt *)

Lemma set_order_of_short (L1 L2 : Lib) (l : list selector) :
  Permutation (set_order L1 l) l -> Permutation (set_order L2 l) l ->
  (List.length l <= 1)%nat -> set_order L1 l = set_order L2 l.
Proof.
  intros H1 H2 Hl. destruct l as [|x [|y l]]; cbn in Hl; try lia.
  - apply Permutation_sym, Permutation_nil in H1.
    apply Permutation_sym, Permutation_nil in H2. congruence.
  - apply Permutation_sym, Permutation_length_1_inv in H1.
    apply Permutation_sym, Permutation_length_1_inv in H2. congruence.
Qed.

(** X15.  When the objective names at most one selector, the excerpt
    does not depend on the order in which a set is iterated: two libraries
    that parse the page alike and iterate a set in whatever orders give the
    same excerpt. *)
Theorem single_selector_excerpt_is_stable (L1 L2 : Lib) (html objective : string) :
  BeautifulSoup L1 html = BeautifulSoup L2 html ->
  (forall l, Permutation (set_order L1 l) l) ->
  (forall l, Permutation (set_order L2 l) l) ->
  (List.length (active_selectors (lower objective)) <= 1)%nat ->
  extract_relevant_html L1 html objective = extract_relevant_html L2 html objective.
Proof.
  intros Hparse H1 H2 Hlen.
  unfold extract_relevant_html, output_parts_of, staged_parts. cbv zeta.
  rewrite Hparse, (set_order_of_short L1 L2 _ (H1 _) (H2 _) Hlen). reflexivity.
Qed.

Lemma single_selector_excerpt_is_stable_witness :
  extract_relevant_html Reference.lib Examples.table_page "get the table"
  = extract_relevant_html Reference.lib_reversed Examples.table_page "get the table".
Proof.
  apply (single_selector_excerpt_is_stable Reference.lib Reference.lib_reversed
           Examples.table_page "get the table").
  - reflexivity.
  - intros l. apply Permutation_refl.
  - intros l. apply Permutation_sym, Permutation_rev.
  - vm_compute. lia.
Defined.

Lemma head_parts_length soup : (List.length (head_parts soup) <= 2)%nat.
Proof.
  unfold head_parts. destruct (find (name_is "head") soup) as [head|]; [|cbn; lia].
  rewrite length_app.
  assert (forall (b : bool) (x : string),
            (List.length (if b then [] else [x]) <= 1)%nat) as Hif
    by (intros [|] x; cbn; lia).
  assert (forall (b : bool) (x : string),
            (List.length (if b then [x] else []) <= 1)%nat) as Hif'
    by (intros [|] x; cbn; lia).
  match goal with
  | |- (List.length ?a + List.length ?b <= 2)%nat =>
      assert (List.length a <= 1)%nat; [|assert (List.length b <= 1)%nat; [|lia]]
  end.
  - destruct (find (name_is "title") head) as [title|]; [|cbn; lia].
    destruct (string_of (fst title)); [apply Hif | cbn; lia].
  - destruct (find (fun n => name_is "meta" n && attr_matches "name" "description" n)
                head) as [meta|]; [apply Hif' | cbn; lia].
Qed.

Lemma stage_three_length (main_content_soup : option elem)
  (relevant_elements : list elem) (parts : list string) :
  (List.length parts <= 2)%nat ->
  (List.length
     match main_content_soup, relevant_elements with
     | Some area, [] => (parts ++ [str area])%list
     | _, _ =>
         (parts ++ map str (firstn 30 (unique_elements
                     (flat_map context_of (unique_elements relevant_elements)))))%list
     end <= 32)%nat.
Proof.
  intros Hp.
  assert (forall l : list elem,
            (List.length (parts ++ map str (firstn 30 l)) <= 32)%nat) as Hctx.
  { intros l. rewrite length_app, length_map, length_firstn. lia. }
  destruct main_content_soup as [area|]; [|apply Hctx].
  destruct relevant_elements; [|apply Hctx].
  rewrite length_app. cbn [List.length]. lia.
Qed.

(** X16.  The excerpt is put together from at most 32 parts, whatever
    the page and the objective are: at most two from the [head], and at
    most 30 elements of context. *)
Theorem excerpt_has_few_parts (L : Lib) (parsed : node) (objective : string) :
  (List.length (output_parts_of L parsed objective) <= 32)%nat.
Proof.
  unfold output_parts_of. cbv zeta.
  set (soup := root (decompose_all non_content_tags parsed)).
  assert (List.length (staged_parts L soup objective) <= 32)%nat as Hst.
  { unfold staged_parts. cbv zeta.
    apply stage_three_length, head_parts_length. }
  destruct (Z.of_nat (List.length (staged_parts L soup objective)) <=? 2) eqn:E;
    [|exact Hst].
  apply Z.leb_le in E.
  destruct (find (name_is "body") soup); [|exact Hst].
  rewrite length_app. cbn [List.length]. lia.
Qed.

(** ** The request to the model *)

Lemma attempt_with_key_ok api L model p key v :
  Gemini.attempt_with_key api L model p key = Ret v ->
  Gemini.truthy key = true
  /\ has_field "scraper_py" v /\ has_field "requirements_txt" v
  /\ exists chunks, api key model p = Ret chunks
                    /\ json_loads L (String.concat EmptyString chunks) = JsonOk v.
Proof.
  unfold Gemini.attempt_with_key, has_field.
  destruct (Gemini.truthy key); [|discriminate]. cbn [negb].
  destruct (api key model p) as [chunks|e]; [|discriminate]. cbn [bind].
  destruct (is_empty _); [discriminate|].
  destruct (json_loads L _) as [r| |m] eqn:Hj; try discriminate.
  destruct (Gemini.py_in "scraper_py" r) as [[|]|e] eqn:H1; try discriminate.
  destruct (Gemini.py_in "requirements_txt" r) as [[|]|e] eqn:H2; try discriminate.
  cbn. intros H. injection H as <-. repeat split; auto. eauto.
Qed.

Lemma try_keys_returns api L model p v : forall keys tried,
  Gemini.try_keys api L model p keys = (Ret v, tried) ->
  exists failed key rest,
    keys = (failed ++ key :: rest)%list /\ tried = (failed ++ [key])%list
    /\ Gemini.attempt_with_key api L model p key = Ret v
    /\ Forall (fun k => exists e, Gemini.attempt_with_key api L model p k = Raise e)
              failed.
Proof.
  induction keys as [|k keys IH]; intros tried; cbn [Gemini.try_keys];
    [discriminate|].
  destruct (Gemini.mask_check k); [|discriminate].
  destruct (Gemini.attempt_with_key api L model p k) as [r|e] eqn:Hk.
  - intros H. injection H as -> <-. exists [], k, keys. cbn. auto.
  - destruct (Gemini.try_keys api L model p keys) as [r tried'] eqn:Hrest.
    intros H. injection H as -> <-.
    destruct (IH tried' eq_refl) as (failed & key & rest & -> & -> & Hok & Hall).
    exists (k :: failed), key, rest. cbn. repeat split; auto.
    constructor; eauto.
Qed.

Lemma try_keys_all_fail api L model p : forall keys,
  Forall (fun k => Gemini.mask_check k = Ret tt
                   /\ exists e, Gemini.attempt_with_key api L model p k = Raise e)
         keys ->
  Gemini.try_keys api L model p keys = (Raise Gemini.msg_all_failed, keys).
Proof.
  induction keys as [|k keys IH]; intros Hall; cbn [Gemini.try_keys];
    [reflexivity|].
  inversion Hall as [|? ? (Hm & e & He) Hrest]; subst.
  rewrite Hm, He, (IH Hrest). reflexivity.
Qed.

Lemma history_blocks_without_snippet history : forall i,
  Gemini.history_blocks i (map without_snippet history)
  = Gemini.history_blocks i history.
Proof.
  induction history as [|turn rest IH]; intros i; [reflexivity|].
  cbn [map Gemini.history_blocks]. rewrite IH. reflexivity.
Qed.

Lemma full_prompt_without_snippet system_prompt prompt url html history map_ :
  Gemini.full_prompt system_prompt prompt url html (map without_snippet history) map_
  = Gemini.full_prompt system_prompt prompt url html history map_.
Proof.
  unfold Gemini.full_prompt, Gemini.history_str. cbv zeta.
  rewrite history_blocks_without_snippet. destruct history; reflexivity.
Qed.

(** X17.  What [generate_script] returns is the answer to the first key
    that works: the keys before it were tried, in the order of the
    settings, and failed; the keys after it were not tried; and the answer
    has the fields [scraper_py] and [requirements_txt]. *)
Theorem first_working_key_wins
  (api : json -> json -> string -> res (list string)) (L : Lib)
  (system_prompt prompt url html : string) (cfg : settings)
  (history : list history_entry) (structure_map : option string)
  (v : json) (tried : list json) :
  Gemini.generate_script api L system_prompt prompt url html cfg history structure_map
  = (Ret v, tried) ->
  has_field "scraper_py" v /\ has_field "requirements_txt" v
  /\ exists keys failed key rest,
       Gemini.iterate (Gemini.dict_get "apiKeys" (JList []) cfg) = Ret keys
       /\ keys = (failed ++ key :: rest)%list
       /\ tried = (failed ++ [key])%list
       /\ Gemini.attempt_with_key api L
            (Gemini.dict_get "model" (JStr Gemini.MODEL_NAME) cfg)
            (Gemini.full_prompt system_prompt prompt url html history structure_map)
            key = Ret v
       /\ Forall (fun k => exists e,
                    Gemini.attempt_with_key api L
                      (Gemini.dict_get "model" (JStr Gemini.MODEL_NAME) cfg)
                      (Gemini.full_prompt system_prompt prompt url html history
                         structure_map) k
                    = Raise e) failed.
Proof.
  unfold Gemini.generate_script. cbv zeta.
  destruct (Gemini.truthy (Gemini.dict_get "apiKeys" (JList []) cfg));
    [|discriminate].
  cbn [negb].
  destruct (Gemini.iterate _) as [keys|e]; [|discriminate].
  intros H.
  destruct (try_keys_returns _ _ _ _ _ _ _ H)
    as (failed & key & rest & Hk & Ht & Hok & Hall).
  destruct (attempt_with_key_ok _ _ _ _ _ _ Hok) as (_ & H1 & H2 & _).
  split; [exact H1|]. split; [exact H2|].
  exists keys, failed, key, rest. auto.
Qed.

Lemma first_working_key_wins_witness :
  has_field "scraper_py" MoreExamples.parsed_answer
  /\ has_field "requirements_txt" MoreExamples.parsed_answer
  /\ exists keys failed key rest,
       Gemini.iterate (Gemini.dict_get "apiKeys" (JList []) MoreExamples.two_keys)
       = Ret keys
       /\ keys = (failed ++ key :: rest)%list
       /\ [JStr "bad"; JStr "good"] = (failed ++ [key])%list
       /\ Gemini.attempt_with_key MoreExamples.picky_api Reference.lib
            (Gemini.dict_get "model" (JStr Gemini.MODEL_NAME) MoreExamples.two_keys)
            (Gemini.full_prompt "system" "get the table" Examples.url "<p>hi</p>"
               [] None)
            key = Ret MoreExamples.parsed_answer
       /\ Forall (fun k => exists e,
                    Gemini.attempt_with_key MoreExamples.picky_api Reference.lib
                      (Gemini.dict_get "model" (JStr Gemini.MODEL_NAME)
                         MoreExamples.two_keys)
                      (Gemini.full_prompt "system" "get the table" Examples.url
                         "<p>hi</p>" [] None) k
                    = Raise e) failed.
Proof.
  apply (first_working_key_wins MoreExamples.picky_api Reference.lib
           "system" "get the table" Examples.url "<p>hi</p>" MoreExamples.two_keys
           [] None MoreExamples.parsed_answer [JStr "bad"; JStr "good"]).
  vm_compute. reflexivity.
Defined.

(** X18.  When the settings hold keys and every one of them fails,
    [generate_script] has tried each key once, in the order of the
    settings, and raises the same message whatever the failures were. *)
Theorem all_keys_failing_is_one_error
  (api : json -> json -> string -> res (list string)) (L : Lib)
  (system_prompt prompt url html : string) (cfg : settings)
  (history : list history_entry) (structure_map : option string)
  (keys : list json) :
  Gemini.iterate (Gemini.dict_get "apiKeys" (JList []) cfg) = Ret keys ->
  keys <> [] ->
  Forall (fun k => Gemini.mask_check k = Ret tt
                   /\ exists e,
                        Gemini.attempt_with_key api L
                          (Gemini.dict_get "model" (JStr Gemini.MODEL_NAME) cfg)
                          (Gemini.full_prompt system_prompt prompt url html history
                             structure_map) k
                        = Raise e) keys ->
  Gemini.generate_script api L system_prompt prompt url html cfg history structure_map
  = (Raise Gemini.msg_all_failed, keys).
Proof.
  intros Hit Hne Hall. unfold Gemini.generate_script. cbv zeta.
  assert (Gemini.truthy (Gemini.dict_get "apiKeys" (JList []) cfg) = true) as ->.
  { revert Hit. unfold Gemini.iterate, Gemini.truthy.
    destruct (Gemini.dict_get "apiKeys" (JList []) cfg) as [ | b | z | r | s | l | d];
      try discriminate; intros H; injection H as <-.
    - destruct s; [now destruct Hne | reflexivity].
    - destruct l; [now destruct Hne | reflexivity].
    - destruct d; [now destruct Hne | reflexivity]. }
  cbn [negb]. rewrite Hit. now apply try_keys_all_fail.
Qed.

Lemma all_keys_failing_is_one_error_witness :
  Gemini.generate_script MoreExamples.picky_api Reference.lib "system" "get the table"
    Examples.url "<p>hi</p>" MoreExamples.bad_keys [] None
  = (Raise Gemini.msg_all_failed, [JStr "bad"; JStr "worse"]).
Proof.
  apply (all_keys_failing_is_one_error MoreExamples.picky_api Reference.lib
           "system" "get the table" Examples.url "<p>hi</p>" MoreExamples.bad_keys
           [] None [JStr "bad"; JStr "worse"]).
  - reflexivity.
  - discriminate.
  - repeat constructor; eexists; vm_compute; reflexivity.
Defined.

(** X19.  The excerpts that the history records do not reach the model:
    two histories that differ in these excerpts only give the same
    outcome, with the same prompt sent to the same keys. *)
Theorem recorded_excerpts_are_not_sent
  (api : json -> json -> string -> res (list string)) (L : Lib)
  (system_prompt prompt url html : string) (cfg : settings)
  (history1 history2 : list history_entry) (structure_map : option string) :
  map without_snippet history1 = map without_snippet history2 ->
  Gemini.full_prompt system_prompt prompt url html history1 structure_map
  = Gemini.full_prompt system_prompt prompt url html history2 structure_map
  /\ Gemini.generate_script api L system_prompt prompt url html cfg history1
       structure_map
     = Gemini.generate_script api L system_prompt prompt url html cfg history2
         structure_map.
Proof.
  intros Heq.
  assert (Gemini.full_prompt system_prompt prompt url html history1 structure_map
          = Gemini.full_prompt system_prompt prompt url html history2 structure_map)
    as Hp.
  { rewrite <- (full_prompt_without_snippet _ _ _ _ history1),
            <- (full_prompt_without_snippet _ _ _ _ history2), Heq.
    reflexivity. }
  split; [exact Hp|].
  unfold Gemini.generate_script. cbv zeta. rewrite Hp. reflexivity.
Qed.

Lemma recorded_excerpts_are_not_sent_witness :
  Gemini.full_prompt "system" "get the table" Examples.url "<p>hi</p>"
    [MoreExamples.failure_with "<td>a</td>"] None
  = Gemini.full_prompt "system" "get the table" Examples.url "<p>hi</p>"
      [MoreExamples.failure_with "<table></table>"] None
  /\ Gemini.generate_script MoreExamples.picky_api Reference.lib "system"
       "get the table" Examples.url "<p>hi</p>" MoreExamples.two_keys
       [MoreExamples.failure_with "<td>a</td>"] None
     = Gemini.generate_script MoreExamples.picky_api Reference.lib "system"
         "get the table" Examples.url "<p>hi</p>" MoreExamples.two_keys
         [MoreExamples.failure_with "<table></table>"] None.
Proof.
  apply (recorded_excerpts_are_not_sent MoreExamples.picky_api Reference.lib
           "system" "get the table" Examples.url "<p>hi</p>" MoreExamples.two_keys
           [MoreExamples.failure_with "<td>a</td>"]
           [MoreExamples.failure_with "<table></table>"] None).
  reflexivity.
Defined.

(** ** The structure map *)

Lemma append_nil_r (s : string) : s ++ EmptyString = s.
Proof. induction s as [|c s IH]; cbn; [reflexivity | now rewrite IH]. Qed.

Lemma append_assoc (a b c : string) : (a ++ b) ++ c = a ++ (b ++ c).
Proof. induction a as [|x a IH]; cbn; [reflexivity | now rewrite IH]. Qed.

Lemma concat_empty_cons (x : string) (l : list string) :
  String.concat EmptyString (x :: l) = x ++ String.concat EmptyString l.
Proof. destruct l; cbn; [now rewrite append_nil_r | reflexivity]. Qed.

Lemma children_loop (indent : string) (depth : Z) : forall (l : list node) (count : Z),
  0 <= count <= 11 ->
  (fix go (l : list node) (child_count : Z) : string :=
     match l with
     | [] => EmptyString
     | child :: l' =>
         match child with
         | Tag child_name _ _ =>
             if is_empty child_name then go l' child_count
             else if 10 <? child_count then indent ++ "  [...and more...]" ++ nl
             else build_tree child (indent ++ "  ") (depth + 1)
                  ++ go l' (child_count + 1)
         | NavigableString _ _ => go l' child_count
         end
     end) l count
  = String.concat EmptyString
      (map (fun c => build_tree c (indent ++ "  ") (depth + 1))
           (firstn (Z.to_nat (11 - count)) (filter named_tag l)))
    ++ (if (Z.to_nat (11 - count) <? List.length (filter named_tag l))%nat
        then more_marker indent else EmptyString).
Proof.
  induction l as [|child l IH]; intros count Hc.
  - rewrite firstn_nil. cbn. now destruct (Z.to_nat (11 - count)).
  - destruct child as [k s | child_name attrs cs]; [now rewrite IH|].
    cbn [filter named_tag].
    destruct (is_empty child_name) eqn:En; cbn [negb]; [now rewrite IH|].
    destruct (10 <? count) eqn:E.
    + apply Z.ltb_lt in E. replace count with 11 by lia. reflexivity.
    + apply Z.ltb_ge in E. rewrite IH by lia.
      replace (Z.to_nat (11 - count)) with (S (Z.to_nat (11 - (count + 1)))) by lia.
      cbn [firstn map List.length]. rewrite concat_empty_cons, append_assoc.
      reflexivity.
Qed.

(** X20.  The structure map lists the first eleven children of an
    element that are tags, each one level deeper, as long as the element is
    at depth 7 or less.  The line that stands for the children left out is
    there exactly when the element has a twelfth such child.  Text between
    the children leaves no trace. *)
Theorem map_lists_eleven_children (name : string) (attrs : list (string * attr_value))
  (cs : list node) (indent : string) (depth : Z) :
  is_empty name = false -> depth <= 7 ->
  build_tree (Tag name attrs cs) indent depth
  = build_tree (Tag name attrs []) indent depth
    ++ String.concat EmptyString
         (map (fun c => build_tree c (indent ++ "  ") (depth + 1))
              (firstn 11 (filter named_tag cs)))
    ++ (if (11 <? List.length (filter named_tag cs))%nat
        then more_marker indent else EmptyString).
Proof.
  intros Hn Hd. cbn [build_tree]. rewrite Hn.
  assert ((7 <? depth) = false) as -> by (apply Z.ltb_ge; lia).
  rewrite (children_loop indent depth cs 0) by lia.
  rewrite append_nil_r. change (Z.to_nat (11 - 0)) with 11%nat.
  reflexivity.
Qed.

Lemma map_lists_eleven_children_witness :
  build_tree MoreExamples.long_list EmptyString 0
  = build_tree (Tag "ul" [] []) EmptyString 0
    ++ String.concat EmptyString
         (map (fun c => build_tree c "  " 1) (repeat (Tag "li" [] []) 11))
    ++ more_marker EmptyString.
Proof.
  apply (map_lists_eleven_children "ul" [] (repeat (Tag "li" [] []) 12) EmptyString 0).
  - reflexivity.
  - lia.
Defined.
